(** * An email journaling service: reply interpretation, account lifecycle,
      outbox delivery and prompt scheduling

    A shallow embedding of the Go packages [internal/core], [internal/email]
    and of the scheduler's daily-prompt job.

    Conventions of the model.
    - Go strings are byte strings ([string] of [ascii]).  [strings.TrimSpace],
      [strings.ToLower], [strings.EqualFold] and case-insensitive regular
      expressions are modelled by their behaviour on ASCII text; a byte above
      127 is an ordinary character that is neither a space, a digit nor a
      letter.
    - [int] and [time.Duration] are 64-bit: arithmetic on them is written in
      [Z] with the wrap-around explicit ([wrap64]).
    - An instant is a number of nanoseconds since the Unix epoch; a [DATE]
      column holds the number of whole days since the epoch.
    - The database, the mail transport, the template files and the time-zone
      database are outside the code.  They are an environment [Env] that
      fixes the outcome of every call the code makes to them. *)

From Stdlib Require Import ZArith List String Ascii Bool Lia Permutation.
Import ListNotations.
Local Open Scope string_scope.
Local Open Scope Z_scope.

(** ** Results of fallible calls *)

Inductive result (A : Type) : Type :=
| Ok (a : A)
| Err (msg : string).
Arguments Ok {A} a.
Arguments Err {A} msg.

(** ** 64-bit integers *)

Definition MaxInt64 : Z := 9223372036854775807.
Definition MinInt64 : Z := -9223372036854775808.

Definition wrap64 (z : Z) : Z := (z + 2 ^ 63) mod 2 ^ 64 - 2 ^ 63.

(** [a * b] on [int64]. *)
Definition mul64 (a b : Z) : Z := wrap64 (a * b).

(** ** The parts of package [strings] and [strconv] the code uses *)

Module GoStrings.

Definition TAB : ascii := "009"%char.
Definition LF : ascii := "010"%char.
Definition VT : ascii := "011"%char.
Definition FF : ascii := "012"%char.
Definition CR : ascii := "013"%char.
Definition SP : ascii := " "%char.

Definition ascii_in (lo hi : nat) (c : ascii) : bool :=
  (Nat.leb lo (nat_of_ascii c) && Nat.leb (nat_of_ascii c) hi)%bool.

Definition isASCII (c : ascii) : bool := ascii_in 0 127 c.
Definition isDigit (c : ascii) : bool := ascii_in 48 57 c.
Definition isUpper (c : ascii) : bool := ascii_in 65 90 c.

(** The ASCII white space of [unicode.IsSpace]. *)
Definition isSpace (c : ascii) : bool :=
  (Ascii.eqb c TAB || Ascii.eqb c LF || Ascii.eqb c VT || Ascii.eqb c FF
   || Ascii.eqb c CR || Ascii.eqb c SP)%bool.

Definition lower (c : ascii) : ascii :=
  if isUpper c then ascii_of_nat (nat_of_ascii c + 32) else c.

Fixpoint ToLower (s : string) : string :=
  match s with
  | EmptyString => EmptyString
  | String c s' => String (lower c) (ToLower s')
  end.

Definition isEmpty (s : string) : bool :=
  match s with EmptyString => true | _ => false end.

Fixpoint TrimLeft (s : string) : string :=
  match s with
  | EmptyString => EmptyString
  | String c s' => if isSpace c then TrimLeft s' else s
  end.

Fixpoint TrimRight (s : string) : string :=
  match s with
  | EmptyString => EmptyString
  | String c s' =>
      let r := TrimRight s' in
      if (isSpace c && isEmpty r)%bool then EmptyString else String c r
  end.

Definition TrimSpace (s : string) : string := TrimRight (TrimLeft s).

Fixpoint HasPrefix (s prefix : string) : bool :=
  match prefix, s with
  | EmptyString, _ => true
  | String p prefix', String c s' => (Ascii.eqb c p && HasPrefix s' prefix')%bool
  | String _ _, EmptyString => false
  end.

Fixpoint Contains (s substr : string) : bool :=
  (HasPrefix s substr
   || match s with
      | EmptyString => false
      | String _ s' => Contains s' substr
      end)%bool.

Definition EqualFold (s t : string) : bool := String.eqb (ToLower s) (ToLower t).

(** [strings.Split(s, "\n")]. *)
Fixpoint SplitLines (s : string) : list string :=
  match s with
  | EmptyString => [EmptyString]
  | String c s' =>
      if Ascii.eqb c LF then EmptyString :: SplitLines s'
      else match SplitLines s' with
           | l :: ls => String c l :: ls
           | [] => [String c EmptyString]
           end
  end.

(** [strings.Join(lines, "\n")]. *)
Fixpoint JoinLines (lines : list string) : string :=
  match lines with
  | [] => EmptyString
  | [l] => l
  | l :: ls => l ++ String LF (JoinLines ls)
  end.

Fixpoint AllChars (p : ascii -> bool) (s : string) : bool :=
  match s with
  | EmptyString => true
  | String c s' => (p c && AllChars p s')%bool
  end.

Definition digitVal (c : ascii) : Z := Z.of_nat (nat_of_ascii c) - 48.

(** The value of a run of decimal digits, most significant first. *)
Fixpoint digitsValue (acc : Z) (s : string) : Z :=
  match s with
  | EmptyString => acc
  | String c s' => digitsValue (acc * 10 + digitVal c) s'
  end.

Definition parseDigits (s : string) : option Z :=
  if (negb (isEmpty s) && AllChars isDigit s)%bool
  then Some (digitsValue 0 s) else None.

(** [strconv.Atoi]: an optional sign, decimal digits, and an error when the
    value does not fit [int]. *)
Definition Atoi (s : string) : option Z :=
  let v :=
    match s with
    | String "+"%char r => parseDigits r
    | String "-"%char r => option_map Z.opp (parseDigits r)
    | _ => parseDigits s
    end in
  match v with
  | Some n => if ((MinInt64 <=? n) && (n <=? MaxInt64))%bool then Some n else None
  | None => None
  end.

Definition isLower (c : ascii) : bool := ascii_in 97 122 c.

Definition upper (c : ascii) : ascii :=
  if isLower c then ascii_of_nat (nat_of_ascii c - 32) else c.

Fixpoint ToUpper (s : string) : string :=
  match s with
  | EmptyString => EmptyString
  | String c s' => String (upper c) (ToUpper s')
  end.

(** What follows [prefix] in [s], when [s] starts with it. *)
Fixpoint CutPrefix (s prefix : string) : option string :=
  match prefix, s with
  | EmptyString, _ => Some s
  | String p prefix', String c s' => if Ascii.eqb c p then CutPrefix s' prefix' else None
  | String _ _, EmptyString => None
  end.

Definition TrimPrefix (s prefix : string) : string :=
  match CutPrefix s prefix with
  | Some rest => rest
  | None => s
  end.

(** [strings.Split(s, sep)] for a separator that is not empty: [s] is cut
    at the successive occurrences of [sep] that do not overlap.  [skip]
    counts the characters of the current separator still to pass over. *)
Fixpoint splitFrom (sep : string) (skip : nat) (s : string) : list string :=
  match s with
  | EmptyString => [EmptyString]
  | String c s' =>
      match skip with
      | S k => splitFrom sep k s'
      | O =>
          if HasPrefix s sep
          then EmptyString :: splitFrom sep (String.length sep - 1) s'
          else match splitFrom sep O s' with
               | piece :: pieces => String c piece :: pieces
               | [] => [String c EmptyString]
               end
      end
  end.

Definition Split (s sep : string) : list string := splitFrom sep O s.

End GoStrings.

(** ** Regular expressions

    The fragment of Go's [regexp] syntax that the code uses: a pattern is a
    sequence of items, each a literal, an ordered alternation of literals or
    a greedy repetition of a character class, possibly captured.  Matching
    is leftmost-first, the match a backtracking engine finds first, as
    [regexp] specifies. *)

Module Regexp.
Import GoStrings.

Inductive atom : Type :=
| Lit (fold : bool) (s : string)
| Alt (fold : bool) (alts : list string)
| Star (cls : ascii -> bool)
| Plus (cls : ascii -> bool).

(** An item is an atom and whether a capture group surrounds it. *)
Definition item : Type := (bool * atom)%type.
Definition pattern : Type := list item.

Definition grp (a : atom) : item := (true, a).
Definition raw (a : atom) : item := (false, a).

(** [litPrefix fold p s]: when [s] starts with the literal [p] (up to case
    when [fold]), the matched text and what follows it. *)
Fixpoint litPrefix (fold : bool) (p s : string) : option (string * string) :=
  match p, s with
  | EmptyString, _ => Some (EmptyString, s)
  | String a p', String c s' =>
      if (if fold then Ascii.eqb (lower c) (lower a) else Ascii.eqb c a)
      then match litPrefix fold p' s' with
           | Some (m, rest) => Some (String c m, rest)
           | None => None
           end
      else None
  | String _ _, EmptyString => None
  end.

(** The ways a repetition of [cls] can match at the start of [s], longest
    first; [min1] drops the empty one. *)
Fixpoint repChoices (cls : ascii -> bool) (s : string) : list (string * string) :=
  match s with
  | EmptyString => [(EmptyString, EmptyString)]
  | String c s' =>
      if cls c
      then map (fun mr => (String c (fst mr), snd mr)) (repChoices cls s') ++ [(EmptyString, s)]
      else [(EmptyString, s)]
  end.

Fixpoint altChoices (fold : bool) (alts : list string) (s : string) : list (string * string) :=
  match alts with
  | [] => []
  | a :: alts' =>
      match litPrefix fold a s with
      | Some mr => mr :: altChoices fold alts' s
      | None => altChoices fold alts' s
      end
  end.

(** The candidate matches of an atom at the start of [s], in the order a
    backtracking matcher tries them. *)
Definition choices (a : atom) (s : string) : list (string * string) :=
  match a with
  | Lit fold p => altChoices fold [p] s
  | Alt fold alts => altChoices fold alts s
  | Star cls => repChoices cls s
  | Plus cls => filter (fun mr => negb (isEmpty (fst mr))) (repChoices cls s)
  end.

Fixpoint firstSome {A B : Type} (f : A -> option B) (l : list A) : option B :=
  match l with
  | [] => None
  | x :: l' => match f x with Some y => Some y | None => firstSome f l' end
  end.

(** Match [pat] at the start of [s]: the captured groups and the text left
    after the match. *)
Fixpoint matchHere (pat : pattern) (s : string) : option (list string * string) :=
  match pat with
  | [] => Some ([], s)
  | (cap, a) :: pat' =>
      firstSome
        (fun mr =>
           match matchHere pat' (snd mr) with
           | Some (caps, rest) => Some (if cap then fst mr :: caps else caps, rest)
           | None => None
           end)
        (choices a s)
  end.

(** [FindStringSubmatch]: the groups of the leftmost match (without the
    whole match, which no caller reads). *)
Fixpoint FindStringSubmatch (pat : pattern) (s : string) : option (list string) :=
  match matchHere pat s with
  | Some (caps, _) => Some caps
  | None =>
      match s with
      | EmptyString => None
      | String _ s' => FindStringSubmatch pat s'
      end
  end.

(** [FindAllStringSubmatch(s, -1)] for a pattern that matches no empty
    text: the groups of the successive non-overlapping matches.  [skip]
    counts the characters of the current match still to pass over. *)
Fixpoint findAllFrom (pat : pattern) (skip : nat) (s : string) : list (list string) :=
  match s with
  | EmptyString => []
  | String _ s' =>
      match skip with
      | S k => findAllFrom pat k s'
      | O =>
          match matchHere pat s with
          | Some (caps, rest) =>
              caps :: findAllFrom pat (String.length s - String.length rest - 1) s'
          | None => findAllFrom pat O s'
          end
      end
  end.

Definition FindAllStringSubmatch (pat : pattern) (s : string) : list (list string) :=
  findAllFrom pat O s.

(** [ReplaceAllString(s, "")] for a pattern that matches no empty text. *)
Fixpoint removeAllFrom (pat : pattern) (skip : nat) (s : string) : string :=
  match s with
  | EmptyString => EmptyString
  | String c s' =>
      match skip with
      | S k => removeAllFrom pat k s'
      | O =>
          match matchHere pat s with
          | Some (_, rest) =>
              removeAllFrom pat (String.length s - String.length rest - 1) s'
          | None => String c (removeAllFrom pat O s')
          end
      end
  end.

Definition RemoveAll (pat : pattern) (s : string) : string := removeAllFrom pat O s.

Definition notChar (x : ascii) (c : ascii) : bool := negb (Ascii.eqb c x).

(** [\d], [\s], [[^\n\r]]. *)
Definition clsDigit : ascii -> bool := isDigit.
Definition clsSpace (c : ascii) : bool :=
  (Ascii.eqb c TAB || Ascii.eqb c LF || Ascii.eqb c FF || Ascii.eqb c CR
   || Ascii.eqb c SP)%bool.
Definition clsNotNewline (c : ascii) : bool :=
  (negb (Ascii.eqb c LF) && negb (Ascii.eqb c CR))%bool.

End Regexp.

(** ** Package [time]: durations, clock readings, layouts and locations *)

Module GoTime.
Import GoStrings.

Definition Nanosecond : Z := 1.
Definition Second : Z := 1000000000.
Definition Hour : Z := 3600 * Second.
Definition Day : Z := 24 * Hour.

(** A [time.Time] that carries a time of day: every such value in the code
    is on January 1st of its year, at a whole minute, in UTC. *)
Record Clock : Type := mkClock {
  tYear : Z;
  tHour : Z;
  tMinute : Z
}.

(** [time.Time{}], January 1st of year 1 at midnight. *)
Definition zeroTime : Clock := mkClock 1 0 0.

Definition IsZero (t : Clock) : bool :=
  ((tYear t =? 1) && (tHour t =? 0) && (tMinute t =? 0))%bool.

(** [time.Date(0, 1, 1, hour, min, 0, 0, time.UTC)]. *)
Definition DateYear0 (hour min : Z) : Clock := mkClock 0 hour min.

(** The elements a layout is cut into: [15], [3], [04], [PM], and literal
    text between them. *)
Inductive chunk : Type :=
| stdHour
| stdHour12
| stdZeroMinute
| stdPM
| text (s : string).

Definition getnum (s : string) (fixed : bool) : option (Z * string) :=
  match s with
  | String c1 rest =>
      if isDigit c1 then
        match rest with
        | String c2 rest2 =>
            if isDigit c2 then Some (digitVal c1 * 10 + digitVal c2, rest2)
            else if fixed then None else Some (digitVal c1, rest)
        | EmptyString => if fixed then None else Some (digitVal c1, rest)
        end
      else None
  | EmptyString => None
  end.

Fixpoint cutspace (s : string) : string :=
  match s with
  | String " "%char s' => cutspace s'
  | _ => s
  end.

(** [skip]: remove literal layout text from the value, a run of spaces in
    the layout standing for any run of spaces in the value.  [inrun] holds
    while the layout is inside a run of spaces already matched. *)
Fixpoint skip (inrun : bool) (value prefix : string) : option string :=
  match prefix with
  | EmptyString => Some value
  | String p prefix' =>
      if Ascii.eqb p SP then
        if inrun then skip true value prefix'
        else
          match value with
          | String c _ =>
              if Ascii.eqb c SP then skip true (cutspace value) prefix' else None
          | EmptyString => skip true value prefix'
          end
      else
        match value with
        | String c value' => if Ascii.eqb c p then skip false value' prefix' else None
        | EmptyString => None
        end
  end.

Record parseState : Type := mkParseState {
  psHour : Z;
  psMin : Z;
  pmSet : bool;
  amSet : bool
}.

Fixpoint parseChunks (layout : list chunk) (st : parseState) (value : string)
  : option parseState :=
  match layout with
  | [] => if isEmpty value then Some st else None
  | text p :: layout' =>
      match skip false value p with
      | Some value' => parseChunks layout' st value'
      | None => None
      end
  | stdHour :: layout' =>
      match getnum value false with
      | Some (h, value') =>
          if ((h <? 0) || (24 <=? h))%bool then None
          else parseChunks layout' (mkParseState h (psMin st) (pmSet st) (amSet st)) value'
      | None => None
      end
  | stdHour12 :: layout' =>
      match getnum value false with
      | Some (h, value') =>
          if ((h <? 0) || (12 <? h))%bool then None
          else parseChunks layout' (mkParseState h (psMin st) (pmSet st) (amSet st)) value'
      | None => None
      end
  | stdZeroMinute :: layout' =>
      match getnum value true with
      | Some (m, value') =>
          if ((m <? 0) || (60 <=? m))%bool then None
          else parseChunks layout' (mkParseState (psHour st) m (pmSet st) (amSet st)) value'
      | None => None
      end
  | stdPM :: layout' =>
      match value with
      | String c1 (String c2 value') =>
          let p := String c1 (String c2 EmptyString) in
          if String.eqb p "PM"
          then parseChunks layout' (mkParseState (psHour st) (psMin st) true (amSet st)) value'
          else if String.eqb p "AM"
          then parseChunks layout' (mkParseState (psHour st) (psMin st) (pmSet st) true) value'
          else None
      | _ => None
      end
  end.

(** [time.Parse] for a layout that holds only an hour, a minute and an
    AM/PM mark: the hour and minute of the parsed time. *)
Definition Parse (layout : list chunk) (value : string) : option (Z * Z) :=
  match parseChunks layout (mkParseState 0 0 false false) value with
  | Some st =>
      let hour :=
        if (pmSet st && (psHour st <? 12))%bool then psHour st + 12
        else if (amSet st && (psHour st =? 12))%bool then 0
        else psHour st in
      Some (hour, psMin st)
  | None => None
  end.

(** A [*time.Location]: the offset east of UTC, in seconds, in force at an
    instant. *)
Definition Location : Type := Z -> Z.

Definition UTC : Location := fun _ => 0.

(** Floor division of an instant into whole days since the epoch. *)
Definition utcDate (instant : Z) : Z := instant / Day.

(** [t.In(loc).Hour()] for the instant [t]. *)
Definition HourIn (loc : Location) (instant : Z) : Z :=
  ((instant / Second + loc instant) mod 86400) / 3600.

(** [t.Weekday()] for an instant read in UTC, Sunday being 0: the epoch
    fell on a Thursday. *)
Definition Weekday (instant : Z) : Z := (utcDate instant + 4) mod 7.

(** [t.AddDate(0, 0, days)] for a time in UTC, where every day has 24
    hours. *)
Definition AddDate (days : Z) (instant : Z) : Z := instant + days * Day.

(** [time.Date(t.Year(), t.Month(), t.Day(), 0, 0, 0, 0, time.UTC)] for a
    time [t] in UTC: midnight of the day of [t]. *)
Definition Midnight (instant : Z) : Z := utcDate instant * Day.

End GoTime.

(** ** Package [core]: the reply grammar ([parser.go]) *)

Module Parser.
Import GoStrings Regexp GoTime.

Inductive CommandType : Type := CommandTypePause | CommandTypeProject | CommandTypeEntry.

Record Command : Type := mkCommand {
  Type_ : CommandType;
  Value : string;
  Duration : option Z
}.

Record ParsedReply : Type := mkParsedReply {
  Content : string;
  Commands : list Command;
  ProjectTag : option string;
  IsValidated : bool;
  Error : option string
}.

Definition pauseRegex : pattern :=
  [raw (Lit false "<pause>"); grp (Plus (notChar "<")); raw (Lit false "</pause>")].
Definition projectRegex : pattern :=
  [raw (Lit false "<project>"); grp (Plus (notChar "<")); raw (Lit false "</project>")].
Definition entryRegex : pattern :=
  [raw (Lit false "<entry>"); grp (Plus (notChar "<")); raw (Lit false "</entry>")].

(** [(\d+)\s*(day|days|week|weeks|month|months)] *)
Definition durationRegex : pattern :=
  [grp (Plus clsDigit); raw (Star clsSpace);
   grp (Alt false ["day"; "days"; "week"; "weeks"; "month"; "months"])].

Definition parsePauseDuration (durationStr : string) : result Z :=
  let durationStr := ToLower (TrimSpace durationStr) in
  if String.eqb durationStr "today" then Ok (mul64 24 Hour)
  else if String.eqb durationStr "tomorrow" then Ok (mul64 24 Hour)
  else if (String.eqb durationStr "this week" || String.eqb durationStr "1 week")%bool
  then Ok (mul64 (mul64 7 24) Hour)
  else if String.eqb durationStr "next week" then Ok (mul64 (mul64 7 24) Hour)
  else if (String.eqb durationStr "this month" || String.eqb durationStr "1 month")%bool
  then Ok (mul64 (mul64 30 24) Hour)
  else if String.eqb durationStr "next month" then Ok (mul64 (mul64 30 24) Hour)
  else
    match FindStringSubmatch durationRegex durationStr with
    | Some [m1; m2] =>
        match Atoi m1 with
        | None => Err ("invalid number in duration: " ++ m1)
        | Some number =>
            if (String.eqb m2 "day" || String.eqb m2 "days")%bool
            then Ok (mul64 (mul64 number 24) Hour)
            else if (String.eqb m2 "week" || String.eqb m2 "weeks")%bool
            then Ok (mul64 (mul64 (mul64 number 7) 24) Hour)
            else if (String.eqb m2 "month" || String.eqb m2 "months")%bool
            then Ok (mul64 (mul64 (mul64 number 30) 24) Hour)
            else Err ("unknown time unit: " ++ m2)
        end
    | _ => Err ("invalid duration format: " ++ durationStr)
    end.

Definition isBoilerplate (line : string) : bool :=
  (HasPrefix line "--" || HasPrefix line "Sent from" || HasPrefix line "From:"
   || HasPrefix line "To:" || HasPrefix line "Subject:" || HasPrefix line "Date:"
   || HasPrefix line ">")%bool.

(** The loop of [cleanEmailContent]: [continue] goes on with the next line,
    [break] drops every line that follows. *)
Fixpoint cleanLines (lines : list string) : list string :=
  match lines with
  | [] => []
  | line :: rest =>
      let line := TrimSpace line in
      if isEmpty line then cleanLines rest
      else if isBoilerplate line then cleanLines rest
      else if (HasPrefix line "On " && Contains line "wrote:")%bool then []
      else line :: cleanLines rest
  end.

Definition cleanEmailContent (content : string) : string :=
  JoinLines (cleanLines (SplitLines content)).

(** The loop over the pause tags: the commands collected so far and, when a
    duration fails to parse, the error that ends the parse. *)
Fixpoint pauseCommands (matches : list (list string)) (acc : list Command)
  : list Command * option string :=
  match matches with
  | [] => (acc, None)
  | (m1 :: _) :: rest =>
      match parsePauseDuration m1 with
      | Err _ => (acc, Some ("invalid pause duration: " ++ m1))
      | Ok duration =>
          pauseCommands rest (acc ++ [mkCommand CommandTypePause m1 (Some duration)])%list
      end
  | [] :: rest => pauseCommands rest acc
  end.

Fixpoint projectCommands (matches : list (list string)) (acc : list Command)
  (tag : option string) : list Command * option string :=
  match matches with
  | [] => (acc, tag)
  | (m1 :: _) :: rest =>
      let projectName := TrimSpace m1 in
      projectCommands rest (acc ++ [mkCommand CommandTypeProject projectName None])%list
        (Some projectName)
  | [] :: rest => projectCommands rest acc tag
  end.

Fixpoint entryCommands (matches : list (list string)) (acc : list Command)
  : list Command :=
  match matches with
  | [] => acc
  | (m1 :: _) :: rest =>
      entryCommands rest (acc ++ [mkCommand CommandTypeEntry (TrimSpace m1) None])%list
  | [] :: rest => entryCommands rest acc
  end.

(** The text left once the command tags are removed. *)
Definition leftover (content : string) : string :=
  TrimSpace (RemoveAll entryRegex (RemoveAll projectRegex (RemoveAll pauseRegex content))).

Definition ParseEmailReply (rawContent : string) : ParsedReply :=
  let content := cleanEmailContent (TrimSpace rawContent) in
  match pauseCommands (FindAllStringSubmatch pauseRegex content) [] with
  | (cmds, Some e) => mkParsedReply content cmds None false (Some e)
  | (cmds, None) =>
      let '(cmds, tag) :=
        projectCommands (FindAllStringSubmatch projectRegex content) cmds None in
      let cmds := entryCommands (FindAllStringSubmatch entryRegex content) cmds in
      let rest := leftover content in
      let cmds :=
        if (negb (isEmpty rest) && (Nat.eqb (List.length cmds) 0))%bool
        then (cmds ++ [mkCommand CommandTypeEntry rest None])%list
        else cmds in
      if (isEmpty rest && (Nat.eqb (List.length cmds) 0))%bool
      then mkParsedReply rest cmds tag false (Some "no meaningful content found in reply")
      else mkParsedReply rest cmds tag true None
  end.

Definition verificationPatterns : list string :=
  ["verify"; "verification"; "confirm"; "confirmation"; "activate"; "activation";
   "sign up"; "signup"; "start"; "begin"].

Definition NeedsVerification (email : string) : bool :=
  existsb (fun pattern => Contains (ToLower email) pattern) verificationPatterns.

End Parser.


(** ** Package [models] *)

Module User.
Record t : Type := mk {
  ID : Z;
  Email : string;
  Name : string;
  Timezone : string;
  PromptTime : GoTime.Clock;
  VerificationCode : option string;
  IsVerified : bool;
  IsPaused : bool;
  PauseUntil : option Z;
  ProjectFocus : option string;
  CreatedAt : Z;
  UpdatedAt : Z
}.
End User.

Module Entry.
Record t : Type := mk {
  ID : Z;
  UserID : Z;
  EntryDate : Z;
  RawContent : string;
  ParsedContent : option string;
  ProjectTag : option string;
  CreatedAt : Z;
  UpdatedAt : Z
}.
End Entry.

Module EmailLog.
Record t : Type := mk {
  ID : Z;
  UserID : option Z;
  RecipientEmail : string;
  EmailType : string;
  Subject : string;
  BodyText : string;
  Status : string;
  SESMessageID : option string;
  ErrorMessage : option string;
  RetryCount : Z;
  ScheduledAt : option Z;
  SentAt : option Z;
  CreatedAt : Z;
  UpdatedAt : Z
}.
End EmailLog.

Module Models.

Definition EmailTypeVerification : string := "verification".
Definition EmailTypeDailyPrompt : string := "daily_prompt".
Definition EmailTypeWeeklySummary : string := "weekly_summary".
Definition EmailTypeClarification : string := "clarification".

Definition EmailStatusPending : string := "pending".
Definition EmailStatusSent : string := "sent".
Definition EmailStatusFailed : string := "failed".
Definition EmailStatusRetrying : string := "retrying".

End Models.

(** ** The environment and the state of the world *)

(** The fields of [TemplateData] the modelled templates read. *)
Record TemplateData : Type := mkTemplateData {
  tdVerificationCode : string;
  tdDayOfWeek : string;
  tdDate : string;
  tdProjectFocus : string;
  tdQuote : string;
  tdOriginalMessage : string
}.

(** A call to the mail transport: the outbox row it was made for, what was
    handed over, and the transport's answer. *)
Record SesCall : Type := mkSesCall {
  scEmailID : Z;
  scRecipient : string;
  scSubject : string;
  scBody : string;
  scReply : result string
}.

(** What lies outside the code.  [dbFault n] is the error, if any, with
    which the [n]-th call to the database returns (a lost connection, a
    rejected value); [sesReply n] is the outcome of the [n]-th [SendEmail]
    call, a message id or an error; [randIntn n] is the [n]-th draw of
    [rand.Intn]; [zoneinfo] is the installed time-zone database; the
    template functions stand for the embedded template files; [formatTime]
    is [Time.Format] in the process's local zone. *)
Record Env : Type := mkEnv {
  dbFault : nat -> option string;
  sesReply : nat -> result string;
  randIntn : nat -> Z -> Z;
  zoneinfo : string -> option GoTime.Location;
  templateParse : string -> option string;
  templateExecute : string -> TemplateData -> result string;
  formatTime : string -> Z -> string
}.

(** The tables, their [SERIAL] sequences, the wall clock, the number of
    calls made so far to each outside service, and the journal of the calls
    made to the mail transport. *)
Record World : Type := mkWorld {
  users : list User.t;
  entries : list Entry.t;
  email_logs : list EmailLog.t;
  users_seq : Z;
  entries_seq : Z;
  email_logs_seq : Z;
  now : Z;
  db_calls : nat;
  ses_calls : nat;
  rand_calls : nat;
  ses_log : list SesCall
}.

Definition set_users (v : list User.t) (w : World) : World :=
  mkWorld v (entries w) (email_logs w) (users_seq w) (entries_seq w) (email_logs_seq w)
    (now w) (db_calls w) (ses_calls w) (rand_calls w) (ses_log w).
Definition set_entries (v : list Entry.t) (w : World) : World :=
  mkWorld (users w) v (email_logs w) (users_seq w) (entries_seq w) (email_logs_seq w)
    (now w) (db_calls w) (ses_calls w) (rand_calls w) (ses_log w).
Definition set_email_logs (v : list EmailLog.t) (w : World) : World :=
  mkWorld (users w) (entries w) v (users_seq w) (entries_seq w) (email_logs_seq w)
    (now w) (db_calls w) (ses_calls w) (rand_calls w) (ses_log w).
Definition set_users_seq (v : Z) (w : World) : World :=
  mkWorld (users w) (entries w) (email_logs w) v (entries_seq w) (email_logs_seq w)
    (now w) (db_calls w) (ses_calls w) (rand_calls w) (ses_log w).
Definition set_entries_seq (v : Z) (w : World) : World :=
  mkWorld (users w) (entries w) (email_logs w) (users_seq w) v (email_logs_seq w)
    (now w) (db_calls w) (ses_calls w) (rand_calls w) (ses_log w).
Definition set_email_logs_seq (v : Z) (w : World) : World :=
  mkWorld (users w) (entries w) (email_logs w) (users_seq w) (entries_seq w) v
    (now w) (db_calls w) (ses_calls w) (rand_calls w) (ses_log w).
Definition set_now (v : Z) (w : World) : World :=
  mkWorld (users w) (entries w) (email_logs w) (users_seq w) (entries_seq w) (email_logs_seq w)
    v (db_calls w) (ses_calls w) (rand_calls w) (ses_log w).
Definition set_db_calls (v : nat) (w : World) : World :=
  mkWorld (users w) (entries w) (email_logs w) (users_seq w) (entries_seq w) (email_logs_seq w)
    (now w) v (ses_calls w) (rand_calls w) (ses_log w).
Definition set_ses_calls (v : nat) (w : World) : World :=
  mkWorld (users w) (entries w) (email_logs w) (users_seq w) (entries_seq w) (email_logs_seq w)
    (now w) (db_calls w) v (rand_calls w) (ses_log w).
Definition set_rand_calls (v : nat) (w : World) : World :=
  mkWorld (users w) (entries w) (email_logs w) (users_seq w) (entries_seq w) (email_logs_seq w)
    (now w) (db_calls w) (ses_calls w) v (ses_log w).
Definition set_ses_log (v : list SesCall) (w : World) : World :=
  mkWorld (users w) (entries w) (email_logs w) (users_seq w) (entries_seq w) (email_logs_seq w)
    (now w) (db_calls w) (ses_calls w) (rand_calls w) v.

(** A computation that reads and changes the world and returns a value or
    an error.  An error does not undo what was done before it. *)
Definition M (A : Type) : Type := World -> result A * World.

Definition ret {A : Type} (a : A) : M A := fun w => (Ok a, w).

Definition fail {A : Type} (msg : string) : M A := fun w => (Err msg, w).

Definition bind {A B : Type} (m : M A) (k : A -> M B) : M B :=
  fun w =>
    match m w with
    | (Ok a, w') => k a w'
    | (Err e, w') => (Err e, w')
    end.

(** [wrapErr prefix m]: [fmt.Errorf(prefix + ": %w", err)] around the error
    of [m]. *)
Definition wrapErr {A : Type} (prefix : string) (m : M A) : M A :=
  fun w =>
    match m w with
    | (Ok a, w') => (Ok a, w')
    | (Err e, w') => (Err (prefix ++ ": " ++ e), w')
    end.

Declare Scope monad_scope.
Delimit Scope monad_scope with monad.
Notation "x <- m ;; k" := (bind m (fun x => k))
  (at level 61, m at next level, right associativity) : monad_scope.
Notation "m ;;; k" := (bind m (fun _ => k))
  (at level 61, right associativity) : monad_scope.

(** ** The database driver *)

Module Database.
Section WithEnv.
Variable E : Env.

(** One round trip to the database: it fails when the environment says so,
    and otherwise performs the statement [stmt], which the database itself
    may reject. *)
Definition call {A : Type} (stmt : World -> result A * World) : M A :=
  fun w =>
    let w1 := set_db_calls (S (db_calls w)) w in
    match dbFault E (db_calls w) with
    | Some e => (Err e, w1)
    | None => stmt w1
    end.

(** [ExecContext] of a statement that changes the tables. *)
Definition ExecContext (stmt : World -> World) : M unit :=
  call (fun w => (Ok tt, stmt w)).

(** [QueryContext] of a statement that reads the tables. *)
Definition QueryContext {A : Type} (query : World -> A) : M A :=
  call (fun w => (Ok (query w), w)).

End WithEnv.
End Database.

(** [time.LoadLocation]: the empty name and ["UTC"] are UTC, any other
    name is looked up in the time-zone database. *)
Definition LoadLocation (E : Env) (name : string) : option GoTime.Location :=
  if (String.eqb name EmptyString || String.eqb name "UTC")%bool then Some GoTime.UTC
  else zoneinfo E name.

(** ** Package [email] ([service.go], [templates.go]) *)

Module Email.
Import GoStrings Models.
Local Open Scope monad_scope.

Definition quotes : list string :=
  ["The way to get started is to quit talking and begin doing. - Walt Disney";
   "Innovation distinguishes between a leader and a follower. - Steve Jobs";
   "Your limitation—it's only your imagination.";
   "Push yourself, because no one else is going to do it for you.";
   "Great things never come from comfort zones.";
   "Dream it. Wish it. Do it.";
   "Success doesn't just find you. You have to go out and get it.";
   "The harder you work for something, the greater you'll feel when you achieve it.";
   "Don't stop when you're tired. Stop when you're done.";
   "Wake up with determination. Go to bed with satisfaction."].

Definition digitChar (d : Z) : ascii := ascii_of_nat (48 + Z.to_nat d).

(** [fmt.Sprintf("%06d", n)] for [0 <= n < 1000000]. *)
Definition Sprintf06d (n : Z) : string :=
  String (digitChar (n / 100000 mod 10))
    (String (digitChar (n / 10000 mod 10))
       (String (digitChar (n / 1000 mod 10))
          (String (digitChar (n / 100 mod 10))
             (String (digitChar (n / 10 mod 10))
                (String (digitChar (n mod 10)) EmptyString))))).

Definition emptyData : TemplateData :=
  mkTemplateData EmptyString EmptyString EmptyString EmptyString EmptyString EmptyString.

Section WithEnv.
Variable E : Env.

(** [rand.Intn(n)]. *)
Definition Intn (n : Z) : M Z :=
  fun w => (Ok (randIntn E (rand_calls w) n mod n), set_rand_calls (S (rand_calls w)) w).

(** [template.ParseFS] followed by [Execute], with the two error texts of
    the rendering functions. *)
Definition render (what file : string) (data : TemplateData) : result string :=
  match templateParse E file with
  | Some e => Err ("failed to parse " ++ what ++ " template: " ++ e)
  | None =>
      match templateExecute E file data with
      | Err e => Err ("failed to execute " ++ what ++ " template: " ++ e)
      | Ok body => Ok body
      end
  end.

Definition RenderWelcomeEmail (verificationCode : string) : result (string * string) :=
  let data :=
    mkTemplateData verificationCode EmptyString EmptyString EmptyString EmptyString
      EmptyString in
  match render "welcome" "../../templates/welcome.txt" data with
  | Err e => Err e
  | Ok body => Ok ("Welcome to What Did You Get Done This Week?", body)
  end.

Definition RenderDailyPromptEmail (projectFocus : option string) : M (string * string) :=
  fun w =>
    match templateParse E "../../templates/daily_prompt.txt" with
    | Some e => (Err ("failed to parse daily prompt template: " ++ e), w)
    | None =>
        match Intn (Z.of_nat (List.length quotes)) w with
        | (Err e, w1) => (Err e, w1)
        | (Ok q, w1) =>
            let data :=
              mkTemplateData EmptyString (formatTime E "Monday" (now w))
                (formatTime E "January 2, 2006" (now w))
                (match projectFocus with Some p => p | None => EmptyString end)
                (nth (Z.to_nat q) quotes EmptyString) EmptyString in
            match templateExecute E "../../templates/daily_prompt.txt" data with
            | Err e => (Err ("failed to execute daily prompt template: " ++ e), w1)
            | Ok body =>
                (Ok ("What did you get done today? - " ++ formatTime E "Jan 2" (now w), body),
                 w1)
            end
        end
    end.

Definition RenderClarificationEmail (originalMessage : string) : result (string * string) :=
  let data :=
    mkTemplateData EmptyString EmptyString EmptyString EmptyString EmptyString
      originalMessage in
  match render "clarification" "../../templates/clarification.txt" data with
  | Err e => Err e
  | Ok body => Ok ("Clarification needed for your journal entry", body)
  end.

Definition GenerateVerificationCode : M string :=
  n <- Intn 1000000 ;; ret (Sprintf06d n).

(** The row that the [INSERT] of [QueueEmail] adds: the columns it does not
    name take their defaults. *)
Definition newEmailLog (id : Z) (userID : option Z)
  (recipientEmail emailType subject body : string) (scheduledAt : option Z) (at_ : Z)
  : EmailLog.t :=
  EmailLog.mk id userID recipientEmail emailType subject body EmailStatusPending
    None None 0 scheduledAt None at_ at_.

Definition QueueEmail (userID : option Z) (recipientEmail emailType subject body : string)
  (scheduledAt : option Z) : M unit :=
  wrapErr "failed to queue email"
    (Database.ExecContext E (fun w =>
       let id := email_logs_seq w + 1 in
       set_email_logs_seq id
         (set_email_logs
            (email_logs w
             ++ [newEmailLog id userID recipientEmail emailType subject body scheduledAt (now w)])
            w))).

(** The [SET] clause of [markEmailSent]. *)
Definition sentRow (messageID : string) (at_ : Z) (m : EmailLog.t) : EmailLog.t :=
  EmailLog.mk (EmailLog.ID m) (EmailLog.UserID m) (EmailLog.RecipientEmail m)
    (EmailLog.EmailType m) (EmailLog.Subject m) (EmailLog.BodyText m)
    EmailStatusSent (Some messageID) (EmailLog.ErrorMessage m)
    (EmailLog.RetryCount m) (EmailLog.ScheduledAt m) (Some at_)
    (EmailLog.CreatedAt m) at_.

(** The [SET] clause of [markEmailFailed]. *)
Definition failedRow (errorMsg : string) (at_ : Z) (m : EmailLog.t) : EmailLog.t :=
  EmailLog.mk (EmailLog.ID m) (EmailLog.UserID m) (EmailLog.RecipientEmail m)
    (EmailLog.EmailType m) (EmailLog.Subject m) (EmailLog.BodyText m)
    EmailStatusFailed (EmailLog.SESMessageID m) (Some errorMsg)
    (EmailLog.RetryCount m + 1) (EmailLog.ScheduledAt m) (EmailLog.SentAt m)
    (EmailLog.CreatedAt m) at_.

(** [UPDATE email_logs SET ... WHERE id = $1]. *)
Definition updateEmail (emailID : Z) (f : EmailLog.t -> EmailLog.t) (w : World) : World :=
  set_email_logs (map (fun m => if EmailLog.ID m =? emailID then f m else m) (email_logs w)) w.

Definition markEmailSent (emailID : Z) (messageID : string) : M unit :=
  wrapErr "failed to mark email as sent"
    (Database.ExecContext E (fun w => updateEmail emailID (sentRow messageID (now w)) w)).

Definition markEmailFailed (emailID : Z) (errorMsg : string) : M unit :=
  wrapErr "failed to mark email as failed"
    (Database.ExecContext E (fun w => updateEmail emailID (failedRow errorMsg (now w)) w)).

(** [sesClient.SendEmail]: the call is journalled and answered by the
    environment. *)
Definition SendEmail (email : EmailLog.t) : M string :=
  fun w =>
    let reply := sesReply E (ses_calls w) in
    (reply,
     set_ses_calls (S (ses_calls w))
       (set_ses_log
          (ses_log w
           ++ [mkSesCall (EmailLog.ID email) (EmailLog.RecipientEmail email)
                 (EmailLog.Subject email) (EmailLog.BodyText email) reply])
          w)).

Definition sendEmail (email : EmailLog.t) : M unit :=
  messageID <- wrapErr "failed to send email via SES" (SendEmail email) ;;
  markEmailSent (EmailLog.ID email) messageID.

(** The [WHERE] clause of the outbox query. *)
Definition isDue (at_ : Z) (m : EmailLog.t) : bool :=
  (String.eqb (EmailLog.Status m) "pending"
   && match EmailLog.ScheduledAt m with
      | None => true
      | Some t => t <=? at_
      end)%bool.

Fixpoint insertByCreatedAt (m : EmailLog.t) (l : list EmailLog.t) : list EmailLog.t :=
  match l with
  | [] => [m]
  | x :: l' =>
      if EmailLog.CreatedAt m <=? EmailLog.CreatedAt x then m :: l
      else x :: insertByCreatedAt m l'
  end.

(** [ORDER BY created_at ASC]; rows created at the same instant keep the
    order of the table. *)
Definition orderByCreatedAt (l : list EmailLog.t) : list EmailLog.t :=
  fold_right insertByCreatedAt [] l.

(** What [rows.Scan] fills in: the seven selected columns. *)
Definition scanEmail (m : EmailLog.t) : EmailLog.t :=
  EmailLog.mk (EmailLog.ID m) (EmailLog.UserID m) (EmailLog.RecipientEmail m)
    (EmailLog.EmailType m) (EmailLog.Subject m) (EmailLog.BodyText m) EmptyString
    None None (EmailLog.RetryCount m) None None 0 0.

Definition pendingEmails (w : World) : list EmailLog.t :=
  map scanEmail (firstn 10 (orderByCreatedAt (filter (isDue (now w)) (email_logs w)))).

(** The body of the loop of [ProcessOutbox] for one row: a failure to send
    is answered by [markEmailFailed], whose own failure is only logged. *)
Definition processEmail (email : EmailLog.t) : M unit :=
  fun w =>
    match sendEmail email w with
    | (Ok _, w1) => (Ok tt, w1)
    | (Err e, w1) => (Ok tt, snd (markEmailFailed (EmailLog.ID email) e w1))
    end.

Fixpoint processEmails (rows : list EmailLog.t) : M unit :=
  match rows with
  | [] => ret tt
  | email :: rest => processEmail email ;;; processEmails rest
  end.

(** The query of [ProcessOutbox]. *)
Definition selectPending : M (list EmailLog.t) :=
  wrapErr "failed to query pending emails" (Database.QueryContext E pendingEmails).

Definition ProcessOutbox : M unit :=
  rows <- selectPending ;; processEmails rows.

Definition SendWelcomeEmail (recipientEmail verificationCode : string) : M unit :=
  match RenderWelcomeEmail verificationCode with
  | Err e => fail ("failed to render welcome email: " ++ e)
  | Ok (subject, body) =>
      QueueEmail None recipientEmail EmailTypeVerification subject body None
  end.

Definition SendDailyPrompt (userID : Z) (recipientEmail : string)
  (projectFocus : option string) : M unit :=
  sb <- wrapErr "failed to render daily prompt" (RenderDailyPromptEmail projectFocus) ;;
  QueueEmail (Some userID) recipientEmail EmailTypeDailyPrompt (fst sb) (snd sb) None.

Definition SendClarificationRequest (userID : Z) (recipientEmail originalMessage : string)
  : M unit :=
  match RenderClarificationEmail originalMessage with
  | Err e => fail ("failed to render clarification email: " ++ e)
  | Ok (subject, body) =>
      QueueEmail (Some userID) recipientEmail EmailTypeClarification subject body None
  end.

Definition GetUserByEmail (email : string) : M (option User.t) :=
  wrapErr "failed to get user by email"
    (Database.QueryContext E (fun w =>
       find (fun u => String.eqb (User.Email u) email) (users w))).

End WithEnv.

(** The fields of [TemplateData] that the weekly summary fills in. *)
Record WeeklyData : Type := mkWeeklyData {
  tdWeekStart : string;
  tdWeekEnd : string;
  tdSummaryParagraph : string;
  tdBulletPoints : list string
}.

Section Weekly.
Variable E : Env.

(** [Execute] on the weekly template, and [Time.Format] of a time that
    carries the UTC location, as the week start every caller passes does. *)
Variable executeWeekly : WeeklyData -> result string.
Variable formatUTC : string -> Z -> string.

Definition RenderWeeklySummaryEmail (weekStart : Z) (summaryParagraph : string)
  (bulletPoints : list string) : result (string * string) :=
  match templateParse E "../../templates/weekly_summary.txt" with
  | Some e => Err ("failed to parse weekly summary template: " ++ e)
  | None =>
      let weekEnd := GoTime.AddDate 4 weekStart in
      let data :=
        mkWeeklyData (formatUTC "Jan 2" weekStart) (formatUTC "Jan 2" weekEnd)
          summaryParagraph bulletPoints in
      match executeWeekly data with
      | Err e => Err ("failed to execute weekly summary template: " ++ e)
      | Ok body => Ok ("This is What I Did This Week - " ++ formatUTC "Jan 2" weekStart, body)
      end
  end.

Definition SendWeeklySummary (userID : Z) (recipientEmail : string) (weekStart : Z)
  (summaryParagraph : string) (bulletPoints : list string) : M unit :=
  match RenderWeeklySummaryEmail weekStart summaryParagraph bulletPoints with
  | Err e => fail ("failed to render weekly summary: " ++ e)
  | Ok (subject, body) =>
      QueueEmail E (Some userID) recipientEmail EmailTypeWeeklySummary subject body None
  end.

End Weekly.
End Email.

(** ** Package [core]: preferences ([preferences.go]) *)

Module Preferences.
Import GoStrings Regexp GoTime.

Record UserPreferences : Type := mkUserPreferences {
  Name : string;
  Timezone : string;
  PromptTime : Clock;
  ProjectFocus : option string
}.

(** [(?i)name:\s*([^\n\r]+)] *)
Definition nameRegex : pattern :=
  [raw (Lit true "name:"); raw (Star clsSpace); grp (Plus clsNotNewline)].

(** [(?i)timezone[^:]*:\s*([^\n\r]+)] *)
Definition timezoneRegex : pattern :=
  [raw (Lit true "timezone"); raw (Star (notChar ":")); raw (Lit true ":");
   raw (Star clsSpace); grp (Plus clsNotNewline)].

(** [(?i)(?:time|prompt)[^:]*:\s*([^\n\r]+)] *)
Definition timeRegex : pattern :=
  [raw (Alt true ["time"; "prompt"]); raw (Star (notChar ":")); raw (Lit true ":");
   raw (Star clsSpace); grp (Plus clsNotNewline)].

(** [(?i)(?:project|focus)[^:]*:\s*([^\n\r]+)] *)
Definition projectRegex : pattern :=
  [raw (Alt true ["project"; "focus"]); raw (Star (notChar ":")); raw (Lit true ":");
   raw (Star clsSpace); grp (Plus clsNotNewline)].

(** The layouts ["15:04"], ["3:04 PM"], ["3:04PM"], ["3 PM"], ["3PM"] and
    ["15"], cut into their elements. *)
Definition formats : list (list chunk) :=
  [[stdHour; text ":"; stdZeroMinute];
   [stdHour12; text ":"; stdZeroMinute; text " "; stdPM];
   [stdHour12; text ":"; stdZeroMinute; stdPM];
   [stdHour12; text " "; stdPM];
   [stdHour12; stdPM];
   [stdHour]].

Definition parseTimeString (timeStr : string) : result Clock :=
  let timeStr := TrimSpace timeStr in
  match firstSome (fun format => Parse format timeStr) formats with
  | Some (h, m) => Ok (DateYear0 h m)
  | None => Err ("unable to parse time: " ++ timeStr)
  end.

Definition validTimezones : list string :=
  ["UTC"; "GMT";
   "America/New_York"; "America/Chicago"; "America/Denver"; "America/Los_Angeles";
   "America/Toronto"; "America/Vancouver"; "America/Montreal";
   "Europe/London"; "Europe/Paris"; "Europe/Berlin"; "Europe/Rome"; "Europe/Madrid";
   "Asia/Tokyo"; "Asia/Shanghai"; "Asia/Kolkata"; "Asia/Dubai";
   "Australia/Sydney"; "Australia/Melbourne";
   "Pacific/Auckland"].

(** The placeholder test the code applies to a preference value. *)
Definition isPlaceholder (v : string) : bool :=
  (String.eqb v EmptyString || String.eqb v "_" || String.eqb v "___________")%bool.

(** The first group of the leftmost match, trimmed. *)
Definition extract (re : pattern) (body : string) : option string :=
  match FindStringSubmatch re body with
  | Some (m1 :: _) => Some (TrimSpace m1)
  | _ => None
  end.

Section WithEnv.
Variable E : Env.

Definition isValidTimezone (tz : string) : bool :=
  (existsb (fun valid => EqualFold tz valid) validTimezones
   || match LoadLocation E tz with Some _ => true | None => false end)%bool.

Definition parseUserPreferences (body : string) : result UserPreferences :=
  let name := match extract nameRegex body with Some v => v | None => EmptyString end in
  let timezone :=
    match extract timezoneRegex body with Some v => v | None => EmptyString end in
  let promptTime :=
    match extract timeRegex body with
    | Some timeStr =>
        match parseTimeString timeStr with
        | Err _ => Err ("invalid time format: " ++ timeStr)
        | Ok parsedTime => Ok parsedTime
        end
    | None => Ok zeroTime
    end in
  match promptTime with
  | Err e => Err e
  | Ok promptTime =>
      let projectFocus :=
        match extract projectRegex body with
        | Some projectName => if isPlaceholder projectName then None else Some projectName
        | None => None
        end in
      if isPlaceholder name then Err "name is required"
      else if isPlaceholder timezone then Err "timezone is required"
      else
        let promptTime := if IsZero promptTime then DateYear0 16 0 else promptTime in
        if negb (isValidTimezone timezone) then Err ("invalid timezone: " ++ timezone)
        else Ok (mkUserPreferences name timezone promptTime projectFocus)
  end.

End WithEnv.
End Preferences.

(** ** Package [core]: the service ([service.go]) *)

Module Core.
Import GoStrings GoTime Parser Preferences.
Local Open Scope monad_scope.

Definition contains (text substr : string) : bool :=
  (Nat.ltb 0 (String.length text) && Nat.ltb 0 (String.length substr)
   && Contains (ToLower text) (ToLower substr))%bool.

Definition updateUser (userID : Z) (f : User.t -> User.t) (w : World) : World :=
  set_users (map (fun u => if User.ID u =? userID then f u else u) (users w)) w.

Section WithEnv.
Variable E : Env.

Definition createPendingUser (email verificationCode : string) : M unit :=
  Database.call E (fun w =>
    if existsb (fun u => String.eqb (User.Email u) email) (users w)
    then (Err "duplicate key value violates unique constraint", w)
    else
      let id := users_seq w + 1 in
      (Ok tt,
       set_users_seq id
         (set_users
            (users w
             ++ [User.mk id email "New User" "UTC" (mkClock 0 16 0) (Some verificationCode)
                   false false None None (now w) (now w)])
            w))).

Definition updateUserVerificationCode (userID : Z) (verificationCode : string) : M unit :=
  Database.ExecContext E (fun w =>
    updateUser userID
      (fun u =>
         User.mk (User.ID u) (User.Email u) (User.Name u) (User.Timezone u) (User.PromptTime u)
           (Some verificationCode) (User.IsVerified u) (User.IsPaused u) (User.PauseUntil u)
           (User.ProjectFocus u) (User.CreatedAt u) (now w))
      w).

Definition verifyUser (userID : Z) (prefs : UserPreferences) : M unit :=
  Database.ExecContext E (fun w =>
    updateUser userID
      (fun u =>
         User.mk (User.ID u) (User.Email u) (Name prefs) (Timezone prefs)
           (mkClock 0 (tHour (PromptTime prefs)) (tMinute (PromptTime prefs)))
           None true (User.IsPaused u) (User.PauseUntil u)
           (ProjectFocus prefs) (User.CreatedAt u) (now w))
      w).

Definition pauseUser (userID : Z) (duration : Z) : M unit :=
  fun w0 =>
    let pauseUntil := now w0 + duration in
    Database.ExecContext E (fun w =>
      updateUser userID
        (fun u =>
           User.mk (User.ID u) (User.Email u) (User.Name u) (User.Timezone u)
             (User.PromptTime u) (User.VerificationCode u) (User.IsVerified u)
             true (Some pauseUntil) (User.ProjectFocus u) (User.CreatedAt u) (now w))
        w) w0.

Definition updateUserProject (userID : Z) (projectName : string) : M unit :=
  Database.ExecContext E (fun w =>
    updateUser userID
      (fun u =>
         User.mk (User.ID u) (User.Email u) (User.Name u) (User.Timezone u)
           (User.PromptTime u) (User.VerificationCode u) (User.IsVerified u)
           (User.IsPaused u) (User.PauseUntil u) (Some projectName) (User.CreatedAt u) (now w))
      w).

Definition sameKey (userID today : Z) (e : Entry.t) : bool :=
  ((Entry.UserID e =? userID) && (Entry.EntryDate e =? today))%bool.

(** [INSERT ... ON CONFLICT (user_id, entry_date) DO UPDATE SET ...]: a row
    with the same user and date is rewritten in place, and a new row is
    added when there is none. *)
Definition upsertEntry (userID today : Z) (content : string) (projectTag : option string)
  (w : World) : World :=
  let id := entries_seq w + 1 in
  set_entries_seq id
    (if existsb (sameKey userID today) (entries w)
     then
       set_entries
         (map (fun e =>
                 if sameKey userID today e
                 then Entry.mk (Entry.ID e) (Entry.UserID e) (Entry.EntryDate e) content
                        (Some content) projectTag (Entry.CreatedAt e) (now w)
                 else e)
            (entries w))
         w
     else
       set_entries
         (entries w
          ++ [Entry.mk id userID today content (Some content) projectTag (now w) (now w)])
         w).

Definition saveEntry (userID : Z) (content : string) (projectTag : option string) : M unit :=
  fun w0 =>
    let today := utcDate (now w0) in
    Database.ExecContext E (upsertEntry userID today content projectTag) w0.

(** What [rows.Scan] fills in for the daily-prompt query: the six selected
    columns; the other fields of the struct keep their zero value. *)
Definition scanUser (u : User.t) : User.t :=
  User.mk (User.ID u) (User.Email u) (User.Name u) (User.Timezone u) (User.PromptTime u)
    None false false None (User.ProjectFocus u) 0 0.

(** The [WHERE] clause of the daily-prompt query; a comparison with a
    [NULL] [pause_until] is not true. *)
Definition promptFilter (at_ currentHour : Z) (u : User.t) : bool :=
  (User.IsVerified u
   && (negb (User.IsPaused u)
       || match User.PauseUntil u with Some t => t <? at_ | None => false end)
   && (tHour (User.PromptTime u) =? currentHour))%bool.

Definition GetUsersForDailyPrompt (currentHour : Z) : M (list User.t) :=
  wrapErr "failed to query users for daily prompt"
    (Database.QueryContext E (fun w =>
       map scanUser (filter (promptFilter (now w) currentHour) (users w)))).

Definition HandleSignupRequest (emailAddr : string) : M unit :=
  existingUser <- wrapErr "failed to check existing user" (Email.GetUserByEmail E emailAddr) ;;
  if match existingUser with Some u => User.IsVerified u | None => false end
  then fail "user already exists and is verified"
  else
    verificationCode <- Email.GenerateVerificationCode E ;;
    wrapErr "failed to create/update user"
      (match existingUser with
       | Some u => updateUserVerificationCode (User.ID u) verificationCode
       | None => createPendingUser emailAddr verificationCode
       end) ;;;
    Email.SendWelcomeEmail E emailAddr verificationCode.

Definition handleVerificationReply (user : User.t) (body : string) : M unit :=
  match User.VerificationCode user with
  | None => fail "no verification code set for user"
  | Some code =>
      if negb (contains body code)
      then Email.SendClarificationRequest E (User.ID user) (User.Email user)
             "Please include your verification code in your reply"
      else
        match parseUserPreferences E body with
        | Err _ =>
            Email.SendClarificationRequest E (User.ID user) (User.Email user)
              "Please provide your preferences in the format shown in the welcome email"
        | Ok preferences => verifyUser (User.ID user) preferences
        end
  end.

(** The [switch] in the loop of [HandleEmailReply].  The parser gives every
    pause command a duration. *)
Definition applyCommand (user : User.t) (parsed : ParsedReply) (cmd : Command) : M unit :=
  match Type_ cmd with
  | CommandTypePause =>
      match Duration cmd with
      | Some d => pauseUser (User.ID user) d
      | None => fail "invalid memory address or nil pointer dereference"
      end
  | CommandTypeProject => updateUserProject (User.ID user) (Value cmd)
  | CommandTypeEntry => saveEntry (User.ID user) (Value cmd) (ProjectTag parsed)
  end.

(** The loop of [HandleEmailReply]: it stops at the first command whose
    application returns an error. *)
Fixpoint applyCommands (user : User.t) (parsed : ParsedReply) (cmds : list Command)
  : M unit :=
  match cmds with
  | [] => ret tt
  | cmd :: rest => applyCommand user parsed cmd ;;; applyCommands user parsed rest
  end.

Definition HandleEmailReply (senderEmail subject body : string) : M unit :=
  user <- wrapErr "failed to get user" (Email.GetUserByEmail E senderEmail) ;;
  match user with
  | None =>
      if NeedsVerification body then HandleSignupRequest senderEmail
      else fail "unknown sender, please sign up first"
  | Some user =>
      if negb (User.IsVerified user) then handleVerificationReply user body
      else
        let parsed := ParseEmailReply body in
        if negb (IsValidated parsed)
        then Email.SendClarificationRequest E (User.ID user) (User.Email user) body
        else
          fun w =>
            match applyCommands user parsed (Commands parsed) w with
            | (Err _, w1) =>
                Email.SendClarificationRequest E (User.ID user) (User.Email user) body w1
            | (Ok _, w1) => (Ok tt, w1)
            end
  end.

End WithEnv.
End Core.

(** ** Package [llm] ([service.go]) *)

Module Llm.
Import GoStrings.

Record WeeklySummary : Type := mkWeeklySummary {
  Paragraph : string;
  BulletPoints : list string;
  Model : string;
  CostCents : Z
}.

Record ContentBlock : Type := mkContentBlock {
  Type_ : string;
  Text : string
}.

Record Usage : Type := mkUsage {
  InputTokens : Z;
  OutputTokens : Z
}.

Record ClaudeResponse : Type := mkClaudeResponse {
  Content : list ContentBlock;
  Usage_ : Usage
}.

Definition days : list string := ["Monday"; "Tuesday"; "Wednesday"; "Thursday"; "Friday"].

(** The loop of [buildWeeklySummaryPrompt]; [i] is the index of the first
    entry of [entries]. *)
Fixpoint entriesText (i : nat) (entries : list Entry.t) : string :=
  match entries with
  | [] => EmptyString
  | entry :: rest =>
      match nth_error days i with
      | Some day => day ++ ": " ++ Entry.RawContent entry ++ String LF EmptyString
      | None => EmptyString
      end
      ++ entriesText (S i) rest
  end.

(** The lines of the prompt before and after the entries. *)
Definition promptHead : list string :=
  ["System: You are tasked with summarizing a user's weekly accomplishments in the tone and style of Elon Musk - direct, output-driven, and focused on execution. Create a concise summary paragraph followed by 3-5 key bullet points of the most important achievements.";
   "";
   "The summary should:";
   "- Be written in Elon's assertive, no-nonsense tone";
   "- Focus on tangible outputs and results";
   "- Highlight the most impactful work";
   "- Be motivational but realistic";
   "- Avoid fluff or unnecessary praise";
   "";
   "User's weekly entries:"].

Definition promptTail : list string :=
  ["";
   "Please respond with:";
   "1. A single paragraph summary (2-3 sentences)";
   "2. 3-5 bullet points of key accomplishments";
   "";
   "Format your response as:";
   "SUMMARY: [paragraph here]";
   "BULLETS:";
   "• [bullet 1]";
   "• [bullet 2]";
   "• [bullet 3]";
   "etc."].

Definition buildWeeklySummaryPrompt (entries : list Entry.t) : string :=
  JoinLines promptHead
  ++ String LF (entriesText O entries ++ String LF (JoinLines promptTail)).

(** The loop of [parseWeeklySummaryResponse] over the lines of the text. *)
Fixpoint scanResponse (lines : list string) (summary : string) (bullets : list string)
  (inBullets : bool) : string * list string :=
  match lines with
  | [] => (summary, bullets)
  | line :: rest =>
      let line := TrimSpace line in
      if isEmpty line then scanResponse rest summary bullets inBullets
      else if HasPrefix (ToUpper line) "SUMMARY:" then
        let summary := TrimSpace (TrimPrefix line "SUMMARY:") in
        let summary := TrimSpace (TrimPrefix summary "summary:") in
        scanResponse rest summary bullets inBullets
      else if String.eqb (ToUpper line) "BULLETS:" then scanResponse rest summary bullets true
      else if (inBullets && HasPrefix line "•")%bool then
        let bullet := TrimSpace (TrimPrefix line "•") in
        scanResponse rest summary
          (if negb (isEmpty bullet) then (bullets ++ [bullet])%list else bullets) inBullets
      else if (inBullets && HasPrefix line "-")%bool then
        let bullet := TrimSpace (TrimPrefix line "-") in
        scanResponse rest summary
          (if negb (isEmpty bullet) then (bullets ++ [bullet])%list else bullets) inBullets
      else scanResponse rest summary bullets inBullets
  end.

(** The inner loop of [fallbackParse], over the lines of a paragraph. *)
Fixpoint fallbackBullets (lines : list string) (bullets : list string) : list string :=
  match lines with
  | [] => bullets
  | line :: rest =>
      let line := TrimSpace line in
      if (HasPrefix line "•" || HasPrefix line "-")%bool then
        let bullet := TrimSpace (TrimPrefix line "•") in
        let bullet := TrimSpace (TrimPrefix bullet "-") in
        fallbackBullets rest
          (if negb (isEmpty bullet) then (bullets ++ [bullet])%list else bullets)
      else fallbackBullets rest bullets
  end.

Definition fallbackParse (text : string) : result WeeklySummary :=
  let paragraphs := Split text (String LF (String LF EmptyString)) in
  let summary :=
    match paragraphs with
    | first :: _ => TrimSpace first
    | [] => EmptyString
    end in
  let bullets :=
    fold_left (fun bullets para => fallbackBullets (SplitLines para) bullets) paragraphs [] in
  let bullets := if Nat.eqb (List.length bullets) 0 then [summary] else bullets in
  Ok (mkWeeklySummary summary bullets EmptyString 0).

Definition parseWeeklySummaryResponse (response : ClaudeResponse) : result WeeklySummary :=
  match Content response with
  | [] => Err "no content in response"
  | block :: _ =>
      let text := Text block in
      let '(summary, bullets) := scanResponse (SplitLines text) EmptyString [] false in
      if (isEmpty summary || Nat.eqb (List.length bullets) 0)%bool then fallbackParse text
      else Ok (mkWeeklySummary summary bullets EmptyString 0)
  end.

(** Go's [/] on [int] truncates toward zero. *)
Definition estimateCost (usage : Usage) : Z :=
  let inputCostCents := Z.quot (mul64 (InputTokens usage) 25) 1000000 in
  let outputCostCents := Z.quot (mul64 (OutputTokens usage) 125) 1000000 in
  let totalCents := wrap64 (inputCostCents + outputCostCents) in
  if totalCents <? 1 then 1 else totalCents.

Section WithModel.

(** [s.config.LLMModel], and the outcome of [callClaude] for a prompt: the
    request to the model and the decoding of its answer are outside the
    code. *)
Variable LLMModel : string.
Variable callClaude : string -> result ClaudeResponse.

Definition GenerateWeeklySummary (entries : list Entry.t) : result WeeklySummary :=
  let prompt := buildWeeklySummaryPrompt entries in
  match callClaude prompt with
  | Err e => Err ("failed to call Claude: " ++ e)
  | Ok response =>
      match parseWeeklySummaryResponse response with
      | Err e => Err ("failed to parse summary response: " ++ e)
      | Ok summary =>
          Ok (mkWeeklySummary (Paragraph summary) (BulletPoints summary) LLMModel
                (estimateCost (Usage_ response)))
      end
  end.

End WithModel.
End Llm.

(** ** The scheduler's daily-prompt job ([cmd/scheduler/main.go]) *)

Module Scheduler.
Import GoTime.

Section WithEnv.
Variable E : Env.

Definition shouldSendPrompt (user : User.t) (currentHour : Z) (w : World) : bool :=
  match LoadLocation E (User.Timezone user) with
  | None => false
  | Some loc => HourIn loc (now w) =? tHour (User.PromptTime user)
  end.

(** The loop of [sendDailyPrompts]: a prompt that cannot be queued is
    logged and the loop goes on. *)
Fixpoint promptEach (users : list User.t) (currentHour : Z) (w : World) : World :=
  match users with
  | [] => w
  | user :: rest =>
      if shouldSendPrompt user currentHour w
      then promptEach rest currentHour
             (snd (Email.SendDailyPrompt E (User.ID user) (User.Email user)
                     (User.ProjectFocus user) w))
      else promptEach rest currentHour w
  end.

Definition sendDailyPrompts : M unit :=
  fun w =>
    let currentHour := HourIn UTC (now w) in
    match Core.GetUsersForDailyPrompt E currentHour w with
    | (Err e, w1) => (Err e, w1)
    | (Ok users, w1) => (Ok tt, promptEach users currentHour w1)
    end.

End WithEnv.

(** *** The weekly-summary job *)

Definition getWeekStart (w : World) : Z :=
  let t := now w in
  let weekday := Weekday t in
  let weekday := if weekday =? 0 then 7 else weekday in
  let daysToMonday := weekday - 1 in
  let monday := AddDate (- daysToMonday) t in
  Midnight monday.

(** The three helpers the file leaves without an implementation. *)
Definition getAllVerifiedUsers : M (list User.t) := ret [].

Definition getWeekEntries (userID : Z) : M (list Entry.t) := ret [].

Definition saveWeeklySummary (userID weekStart : Z) (summary : Llm.WeeklySummary) : M unit :=
  ret tt.

Section Weekly.
Variable E : Env.
Variable LLMModel : string.
Variable callClaude : string -> result Llm.ClaudeResponse.
Variable executeWeekly : Email.WeeklyData -> result string.
Variable formatUTC : string -> Z -> string.

(** The body of the loop of [sendWeeklySummaries]: every failure is logged
    and the loop goes on with the next account. *)
Definition summarize (user : User.t) : M unit :=
  fun w =>
    match getWeekEntries (User.ID user) w with
    | (Err _, w1) => (Ok tt, w1)
    | (Ok entries, w1) =>
        if Nat.eqb (List.length entries) 0 then (Ok tt, w1)
        else
          match Llm.GenerateWeeklySummary LLMModel callClaude entries with
          | Err _ => (Ok tt, w1)
          | Ok summary =>
              let weekStart := getWeekStart w1 in
              match Email.SendWeeklySummary E executeWeekly formatUTC (User.ID user)
                      (User.Email user) weekStart (Llm.Paragraph summary)
                      (Llm.BulletPoints summary) w1 with
              | (Err _, w2) => (Ok tt, w2)
              | (Ok _, w2) =>
                  (Ok tt, snd (saveWeeklySummary (User.ID user) weekStart summary w2))
              end
          end
    end.

Fixpoint summarizeEach (users : list User.t) : M unit :=
  match users with
  | [] => ret tt
  | user :: rest => bind (summarize user) (fun _ => summarizeEach rest)
  end.

Definition sendWeeklySummaries : M unit :=
  bind getAllVerifiedUsers summarizeEach.

End Weekly.
End Scheduler.

(** ** The command-line tool ([cmd/cli/main.go])

    A command returns the line it writes to the standard output. *)

Module Cli.
Import GoTime.

Definition getUserWeekEntries (userID : Z) : M (list Entry.t) := ret [].

Definition getWeekStart (w : World) : Z :=
  let t := now w in
  let weekday := Weekday t in
  let weekday := if weekday =? 0 then 7 else weekday in
  let daysToMonday := weekday - 1 in
  let monday := AddDate (- daysToMonday) t in
  Midnight monday.

Section WithEnv.
Variable E : Env.
Variable LLMModel : string.
Variable callClaude : string -> result Llm.ClaudeResponse.
Variable executeWeekly : Email.WeeklyData -> result string.
Variable formatUTC : string -> Z -> string.

Definition triggerDailyPrompt (email : string) : M string :=
  bind (wrapErr "failed to get user" (Email.GetUserByEmail E email))
    (fun user =>
       match user with
       | None => fail ("user not found: " ++ email)
       | Some user =>
           if negb (User.IsVerified user) then fail ("user is not verified: " ++ email)
           else
             bind
               (wrapErr "failed to send daily prompt"
                  (Email.SendDailyPrompt E (User.ID user) (User.Email user)
                     (User.ProjectFocus user)))
               (fun _ => ret ("Daily prompt sent to " ++ email))
       end).

Definition triggerWeeklySummary (email : string) : M string :=
  bind (wrapErr "failed to get user" (Email.GetUserByEmail E email))
    (fun user =>
       match user with
       | None => fail ("user not found: " ++ email)
       | Some user =>
           if negb (User.IsVerified user) then fail ("user is not verified: " ++ email)
           else
             bind (wrapErr "failed to get user entries" (getUserWeekEntries (User.ID user)))
               (fun entries =>
                  if Nat.eqb (List.length entries) 0
                  then ret ("No entries found for user " ++ email ++ " this week")
                  else
                    match Llm.GenerateWeeklySummary LLMModel callClaude entries with
                    | Err e => fail ("failed to generate summary: " ++ e)
                    | Ok summary =>
                        fun w =>
                          let weekStart := getWeekStart w in
                          bind
                            (wrapErr "failed to send weekly summary"
                               (Email.SendWeeklySummary E executeWeekly formatUTC
                                  (User.ID user) (User.Email user) weekStart
                                  (Llm.Paragraph summary) (Llm.BulletPoints summary)))
                            (fun _ => ret ("Weekly summary sent to " ++ email)) w
                    end)
       end).

Definition processOutbox : M string :=
  bind (wrapErr "failed to process outbox" (Email.ProcessOutbox E))
    (fun _ => ret "Email outbox processed").

Definition initiateSignup (email : string) : M string :=
  bind (wrapErr "failed to initiate signup" (Core.HandleSignupRequest E email))
    (fun _ => ret ("Signup initiated for " ++ email)).

End WithEnv.
End Cli.

(** ** The inbound-mail function ([cmd/parser/main.go]) *)

Module Inbound.
Import GoStrings.

Record EmailData : Type := mkEmailData {
  From : string;
  Subject : string;
  Body : string
}.

(** The fields of [events.SESEventRecord] the code reads: the source and
    the message id of the mail, and the bucket of the receipt's S3 action. *)
Record SESEventRecord : Type := mkSESEventRecord {
  Source : string;
  MessageID : string;
  BucketName : string
}.

Definition extractEmailContent (record : SESEventRecord) : result EmailData :=
  Ok (mkEmailData (Source record) "Daily Journal Reply" EmptyString).

Section WithEnv.
Variable E : Env.

Definition processEmailRecord (record : SESEventRecord) : M unit :=
  let senderEmail := Source record in
  if isEmpty senderEmail then fail "no sender email found"
  else
    match extractEmailContent record with
    | Err e => fail ("failed to extract email content: " ++ e)
    | Ok emailData =>
        Core.HandleEmailReply E senderEmail (Subject emailData) (Body emailData)
    end.

(** The loop of [handleSESEvent] over the records of an event: a record
    that fails is logged and the loop goes on. *)
Fixpoint processRecords (records : list SESEventRecord) (w : World) : World :=
  match records with
  | [] => w
  | record :: rest => processRecords rest (snd (processEmailRecord record w))
  end.

End WithEnv.
End Inbound.

(** ** Sample environments and worlds, for concrete runs *)

Module Sample.
Import GoStrings GoTime.

(** New York's offset in 2024: daylight-saving time from March 10th,
    07:00 UTC, to November 3rd, 06:00 UTC. *)
Definition newYork : Location :=
  fun instant =>
    if ((1710054000 * Second <=? instant) && (instant <? 1730613600 * Second))%bool
    then -14400 else -18000.

Definition zones (name : string) : option Location :=
  if String.eqb name "America/New_York" then Some newYork else None.

(** An environment in which the database and the transport always answer,
    and a template renders as the message it quotes. *)
Definition quiet : Env :=
  mkEnv (fun _ => None) (fun _ => Ok "ses-0001") (fun _ _ => 0) zones (fun _ => None)
    (fun _ data => Ok (tdOriginalMessage data)) (fun _ _ => EmptyString).

(** The same environment with the database failing at the calls listed in
    [faults]. *)
Definition faulty (faults : list nat) : Env :=
  mkEnv (fun n => if existsb (Nat.eqb n) faults then Some "connection reset" else None)
    (fun _ => Ok "ses-0001") (fun _ _ => 0) zones (fun _ => None)
    (fun _ data => Ok (tdOriginalMessage data)) (fun _ _ => EmptyString).

(** 2024-07-01 18:00:00 UTC, which is 14:00 in New York. *)
Definition july1_1800 : Z := 1719856800 * Second.

(** 2024-07-01 14:00:00 UTC, which is 10:00 in New York. *)
Definition july1_1400 : Z := 1719842400 * Second.

(** 2024-07-01 16:00:00 UTC. *)
Definition july1_1600 : Z := 1719849600 * Second.

Definition ada : User.t :=
  User.mk 1 "ada@example.com" "Ada" "America/New_York" (mkClock 0 14 0) None true false
    None (Some "infra") 0 0.

Definition bob : User.t :=
  User.mk 2 "bob@example.com" "New User" "UTC" (mkClock 0 16 0) (Some "123456") false false
    None None 0 0.

Definition world (at_ : Z) (us : list User.t) : World :=
  mkWorld us [] [] 2 0 0 at_ 0 0 0 [].

Definition nl : string := String LF EmptyString.

(** A reply that pauses the prompts and reports an entry. *)
Definition pauseAndEntry : string := "<pause>2 weeks</pause><entry>Shipped it</entry>".



(** A daily prompt waiting in the outbox. *)
Definition prompt : EmailLog.t :=
  EmailLog.mk 1 (Some 1) "ada@example.com" "daily_prompt" "What did you get done today?"
    "Reply to this message." "pending" None None 0 None None 0 0.

Definition outbox (at_ : Z) (rows : list EmailLog.t) : World :=
  mkWorld [ada] [] rows 2 0 1 at_ 0 0 0 [].

(** A reply in plain text, with a quoted line and a signature. *)
Definition signedReply : string :=
  "  Shipped the parser  " ++ nl ++ nl ++ "> What did you get done today?"
  ++ nl ++ "Sent from my phone".

(** The header that a mail program puts above the message it quotes. *)
Definition quoteHeader : string := "On Mon, Jul 1, 2024 at 4:00 PM Journal wrote:".

(** A reply that names a project and goes on in plain text. *)
Definition projectAndText : string := "<project>Apollo</project> Fixed the login bug".

(** Bob's reply to the welcome message, with his code and his preferences. *)
Definition bobVerifies : string :=
  "123456" ++ nl ++ "Name: Bob" ++ nl ++ "Time: 9:00 AM" ++ nl
  ++ "Timezone: America/New_York".

(** An account whose zone is written in lower case. *)
Definition eve : User.t :=
  User.mk 3 "eve@example.com" "Eve" "america/new_york" (mkClock 0 14 0) None true false
    None None 0 0.

(** Ada once she has paused her prompts until 2024-07-15. *)
Definition restingAda : User.t :=
  User.mk 1 "ada@example.com" "Ada" "America/New_York" (mkClock 0 14 0) None true true
    (Some (july1_1800 + 14 * Day)) (Some "infra") 0 0.


(** A model that is out of reach, and a weekly template that renders as
    its paragraph. *)
Definition noModel (prompt : string) : result Llm.ClaudeResponse := Err "model not reachable".

Definition paragraphOnly (data : Email.WeeklyData) : result string :=
  Ok (Email.tdSummaryParagraph data).

Definition noFormat (layout : string) (instant : Z) : string := EmptyString.

Definition mondayEntry : Entry.t :=
  Entry.mk 1 1 19905 "Wrote the parser" (Some "Wrote the parser") None 0 0.

Definition thursdayEntry : Entry.t :=
  Entry.mk 2 1 19908 "Shipped the parser" (Some "Shipped the parser") None 0 0.

End Sample.

(** ** Vocabulary of the statements *)

(** The unique index [idx_entries_user_date] is on this pair of columns. *)
Definition entryKey (e : Entry.t) : Z * Z := (Entry.UserID e, Entry.EntryDate e).

(** The calls to the transport that processing [rows] makes, one per row
    and in order, when [n] calls were made before. *)
Fixpoint callsFor (E : Env) (n : nat) (rows : list EmailLog.t) : list SesCall :=
  match rows with
  | [] => []
  | email :: rest =>
      mkSesCall (EmailLog.ID email) (EmailLog.RecipientEmail email) (EmailLog.Subject email)
        (EmailLog.BodyText email) (sesReply E n)
      :: callsFor E (S n) rest
  end.

(** The world once [SendEmail] has been called for [email]. *)
Definition afterSend (E : Env) (email : EmailLog.t) (w : World) : World :=
  set_ses_calls (S (ses_calls w))
    (set_ses_log
       (ses_log w
        ++ [mkSesCall (EmailLog.ID email) (EmailLog.RecipientEmail email)
              (EmailLog.Subject email) (EmailLog.BodyText email) (sesReply E (ses_calls w))])
       w).

(** Two invocations of [ProcessOutbox] that overlap: the second runs its
    query before the first has processed its rows. *)
Definition overlappingRuns (E : Env) (w : World) : World :=
  match Email.selectPending E w with
  | (Ok rowsA, w1) =>
      match Email.selectPending E w1 with
      | (Ok rowsB, w2) => snd (Email.processEmails E rowsB (snd (Email.processEmails E rowsA w2)))
      | (Err _, w2) => snd (Email.processEmails E rowsA w2)
      end
  | (Err _, w1) => snd (Email.ProcessOutbox E w1)
  end.

(** Modelled from the spec: the operator-level replay of a failed message,
    which no code of the repository performs, puts the row back to
    [pending]. *)
Definition operatorReplay (emailID : Z) (w : World) : World :=
  Email.updateEmail emailID
    (fun m =>
       EmailLog.mk (EmailLog.ID m) (EmailLog.UserID m) (EmailLog.RecipientEmail m)
         (EmailLog.EmailType m) (EmailLog.Subject m) (EmailLog.BodyText m)
         Models.EmailStatusPending (EmailLog.SESMessageID m) (EmailLog.ErrorMessage m)
         (EmailLog.RetryCount m) (EmailLog.ScheduledAt m) (EmailLog.SentAt m)
         (EmailLog.CreatedAt m) (EmailLog.UpdatedAt m))
    w.

(** The ids of the rows handed to the transport since the journal had [n]
    entries. *)
Definition attemptedSince (n : nat) (w : World) : list Z :=
  map scEmailID (skipn n (ses_log w)).


(** *** The pause-duration grammar as the specification words it *)

Definition literalPhrases : list (string * Z) :=
  [("today", 1); ("tomorrow", 1); ("this week", 7); ("next week", 7);
   ("this month", 30); ("next month", 30)].

Definition units : list string := ["day"; "days"; "week"; "weeks"; "month"; "months"].

Definition unitDays (u : string) : Z :=
  if (String.eqb u "day" || String.eqb u "days")%bool then 1
  else if (String.eqb u "week" || String.eqb u "weeks")%bool then 7
  else if (String.eqb u "month" || String.eqb u "months")%bool then 30
  else 0.

(** The longest prefix of [s] made of characters of [cls], and the rest. *)
Fixpoint spanChars (cls : ascii -> bool) (s : string) : string * string :=
  match s with
  | EmptyString => (EmptyString, EmptyString)
  | String c s' =>
      if cls c then (String c (fst (spanChars cls s')), snd (spanChars cls s'))
      else (EmptyString, s)
  end.

(** A recognized literal phrase maps to its fixed duration; otherwise the
    text is a number followed by a unit, and the number is multiplied by 1,
    7 or 30 days; any other phrasing fails. *)
Definition specPauseDuration (s : string) : option Z :=
  match find (fun pd => String.eqb s (fst pd)) literalPhrases with
  | Some pd => Some (snd pd * GoTime.Day)
  | None =>
      let ds := fst (spanChars GoStrings.isDigit s) in
      let ws := fst (spanChars Regexp.clsSpace (snd (spanChars GoStrings.isDigit s))) in
      let u := snd (spanChars Regexp.clsSpace (snd (spanChars GoStrings.isDigit s))) in
      if (negb (GoStrings.isEmpty ds) && existsb (String.eqb u) units)%bool
      then Some (GoStrings.digitsValue 0 ds * unitDays u * GoTime.Day)
      else None
  end.



(** *** Lines of a reply *)

Definition hasNoLF (line : string) : Prop :=
  GoStrings.AllChars (Regexp.notChar GoStrings.LF) line = true.

(** The test that ends the loop of [cleanEmailContent]. *)
Definition isQuoteHeader (line : string) : bool :=
  (GoStrings.HasPrefix line "On " && GoStrings.Contains line "wrote:")%bool.

(** A line as cleaning keeps it. *)
Definition keptLine (line : string) : Prop :=
  GoStrings.TrimSpace line = line /\ line <> EmptyString
  /\ Parser.isBoilerplate line = false /\ isQuoteHeader line = false
  /\ hasNoLF line.

Definition tagPatterns : list Regexp.pattern :=
  [Parser.pauseRegex; Parser.projectRegex; Parser.entryRegex].

(** The rows of [l] are in the order of their creation. *)
Fixpoint ascending (l : list EmailLog.t) : Prop :=
  match l with
  | [] => True
  | m :: l' =>
      (forall m', In m' l' -> EmailLog.CreatedAt m <= EmailLog.CreatedAt m') /\ ascending l'
  end.

(** *** The answer of the model *)

(** A paragraph or a bullet point as the prompt asks for it: one line of
    ASCII text, not empty, with no white space around it. *)
Definition plainLine (s : string) : Prop :=
  GoStrings.AllChars GoStrings.isASCII s = true
  /\ GoStrings.AllChars (Regexp.notChar GoStrings.LF) s = true
  /\ GoStrings.TrimSpace s = s
  /\ s <> EmptyString.

(** The answer in the format that the last lines of the prompt show. *)
Definition formattedAnswer (paragraph : string) (bullets : list string) : string :=
  GoStrings.JoinLines
    (("SUMMARY: " ++ paragraph)%string :: "BULLETS:"%string
     :: map (fun bullet => ("• " ++ bullet)%string) bullets).

(** * Properties *)

Local Open Scope list_scope.

(** Invert an equation between constructors and substitute. *)
Ltac inv H := inversion H; clear H; subst.

(** ** Lists *)

Lemma NoDup_map_inj_on {A B : Type} (f : A -> B) (l : list A) (a b : A) :
  NoDup (map f l) -> In a l -> In b l -> f a = f b -> a = b.
Proof.
  induction l as [|x l IH]; simpl; intros Hnd Ha Hb Hf; [contradiction|].
  inversion Hnd as [|? ? Hx Hl]; subst.
  destruct Ha as [->|Ha], Hb as [->|Hb]; auto.
  - exfalso. apply Hx. rewrite Hf. now apply in_map.
  - exfalso. apply Hx. rewrite <- Hf. now apply in_map.
Qed.

Lemma NoDup_snoc {A : Type} (l : list A) (a : A) :
  NoDup l -> ~ In a l -> NoDup (l ++ [a]).
Proof.
  induction l as [|x l IH]; simpl; intros Hnd Ha.
  - constructor; [intros []|constructor].
  - inversion Hnd as [|? ? Hx Hl]; subst. constructor.
    + intros Hin. apply in_app_or in Hin. destruct Hin as [Hin|[->|[]]]; tauto.
    + apply IH; tauto.
Qed.

(** Two duplicate-free lists with no common element append to a
    duplicate-free list. *)
Lemma NoDup_app_disjoint {A : Type} (xs ys : list A) (Hxs : NoDup xs) (Hys : NoDup ys)
  (Hd : forall a, In a xs -> In a ys -> False) :
  NoDup (xs ++ ys).
Proof.
  induction xs as [|x l1 IH]; simpl; auto.
  inversion Hxs as [|? ? Hx Hl]; subst. constructor.
  - intros Hin. apply in_app_or in Hin. destruct Hin as [Hin|Hin]; [tauto|].
    apply (Hd x); simpl; auto.
  - apply IH; auto. intros a Ha. apply Hd. simpl. auto.
Qed.

(** ** The selection of accounts for the daily prompt *)

Section SchedulingSelection.
Variable E : Env.

Lemma GetUsersForDailyPrompt_rows (currentHour : Z) (w : World) :
  Core.GetUsersForDailyPrompt E currentHour w =
  match dbFault E (db_calls w) with
  | Some e =>
      (Err ("failed to query users for daily prompt" ++ ": " ++ e)%string,
       set_db_calls (S (db_calls w)) w)
  | None =>
      (Ok (map Core.scanUser (filter (Core.promptFilter (now w) currentHour) (users w))),
       set_db_calls (S (db_calls w)) w)
  end.
Proof.
  unfold Core.GetUsersForDailyPrompt, wrapErr, Database.QueryContext, Database.call.
  destruct (dbFault E (db_calls w)); reflexivity.
Qed.

Lemma QueueEmail_run (userID : option Z) (rcpt ty subject body : string)
  (sched : option Z) (w : World) :
  Email.QueueEmail E userID rcpt ty subject body sched w =
  match dbFault E (db_calls w) with
  | Some e => (Err ("failed to queue email" ++ ": " ++ e)%string, set_db_calls (S (db_calls w)) w)
  | None =>
      (Ok tt,
       set_email_logs_seq (email_logs_seq w + 1)
         (set_email_logs
            (email_logs w
             ++ [Email.newEmailLog (email_logs_seq w + 1) userID rcpt ty subject body sched
                   (now w)])
            (set_db_calls (S (db_calls w)) w)))
  end.
Proof.
  unfold Email.QueueEmail, wrapErr, Database.ExecContext, Database.call.
  destruct (dbFault E (db_calls w)); reflexivity.
Qed.

Lemma RenderDailyPromptEmail_frame (pf : option string) (w : World) :
  let w' := snd (Email.RenderDailyPromptEmail E pf w) in
  users w' = users w /\ now w' = now w /\ email_logs w' = email_logs w.
Proof.
  unfold Email.RenderDailyPromptEmail, Email.Intn.
  destruct (templateParse E _); simpl; auto.
  destruct (templateExecute E _ _); simpl; auto.
Qed.

Lemma SendDailyPrompt_effect (uid : Z) (rcpt : string) (pf : option string) (w : World) :
  let w' := snd (Email.SendDailyPrompt E uid rcpt pf w) in
  users w' = users w /\ now w' = now w /\
  (email_logs w' = email_logs w \/
   exists m, email_logs w' = email_logs w ++ [m] /\ EmailLog.UserID m = Some uid).
Proof.
  unfold Email.SendDailyPrompt, bind, wrapErr.
  pose proof (RenderDailyPromptEmail_frame pf w) as HR.
  destruct (Email.RenderDailyPromptEmail E pf w) as [[sb|e] w1]; simpl in HR.
  - rewrite QueueEmail_run. destruct HR as (Hu & Hn & Hl).
    destruct (dbFault E (db_calls w1)); simpl; repeat split; auto.
    right. rewrite Hl. eexists. split; reflexivity.
  - simpl. intuition.
Qed.

Lemma promptEach_effect (r : Z) (sel : list User.t) (currentHour : Z) (w : World) :
  ~ In r (map User.ID sel) ->
  forall m, In m (email_logs (Scheduler.promptEach E sel currentHour w)) ->
            In m (email_logs w) \/ EmailLog.UserID m <> Some r.
Proof.
  revert w. induction sel as [|u sel IH]; simpl; intros w Hr m Hm; auto.
  assert (Hu : User.ID u <> r) by tauto.
  assert (Hsel : ~ In r (map User.ID sel)) by tauto.
  destruct (Scheduler.shouldSendPrompt E u currentHour w).
  - destruct (IH _ Hsel m Hm) as [Hin|Hne]; auto.
    destruct (SendDailyPrompt_effect (User.ID u) (User.Email u) (User.ProjectFocus u) w)
      as (_ & _ & [Heq|(m' & Heq & Hm')]); rewrite Heq in Hin; auto.
    apply in_app_or in Hin. destruct Hin as [Hin|[<-|[]]]; auto.
    right. rewrite Hm'. congruence.
  - eauto.
Qed.

(** C9.  An account whose [is_verified] is false is never selected for the
    daily prompt, at any instant: it is not among the rows that
    [GetUsersForDailyPrompt] returns, and the daily-prompt job queues no
    message for it.  [users] is a table with a primary key. *)
Theorem unverified_account_never_selected :
  forall (w : World) (r : User.t),
    NoDup (map User.ID (users w)) ->
    In r (users w) ->
    User.IsVerified r = false ->
    (forall currentHour sel w',
        Core.GetUsersForDailyPrompt E currentHour w = (Ok sel, w') ->
        ~ In (User.ID r) (map User.ID sel))
    /\ (forall m,
          In m (email_logs (snd (Scheduler.sendDailyPrompts E w))) ->
          In m (email_logs w) \/ EmailLog.UserID m <> Some (User.ID r)).
Proof.
  intros w r Hpk Hr Hv.
  assert (Hsel : forall currentHour,
             ~ In (User.ID r)
                 (map User.ID
                    (map Core.scanUser
                       (filter (Core.promptFilter (now w) currentHour) (users w))))).
  { intros h Hin. rewrite map_map in Hin. simpl in Hin.
    apply in_map_iff in Hin. destruct Hin as (u & Hid & Hu).
    apply filter_In in Hu. destruct Hu as [Hu Hf].
    assert (u = r) by (eapply NoDup_map_inj_on; eauto). subst u.
    unfold Core.promptFilter in Hf. rewrite Hv in Hf. discriminate. }
  split.
  - intros h sel w' Hq. rewrite GetUsersForDailyPrompt_rows in Hq.
    destruct (dbFault E (db_calls w)); inv Hq. apply Hsel.
  - intros m. unfold Scheduler.sendDailyPrompts.
    rewrite GetUsersForDailyPrompt_rows.
    destruct (dbFault E (db_calls w)); simpl; auto.
    intros Hm. apply (promptEach_effect (User.ID r) _ _ _ (Hsel _)) in Hm. exact Hm.
Qed.

Lemma promptEach_prompted (sel : list User.t) (currentHour : Z) (w : World) (m : EmailLog.t) :
  In m (email_logs (Scheduler.promptEach E sel currentHour w)) ->
  In m (email_logs w)
  \/ exists u loc, In u sel /\ EmailLog.UserID m = Some (User.ID u)
                   /\ LoadLocation E (User.Timezone u) = Some loc
                   /\ GoTime.HourIn loc (now w) = GoTime.tHour (User.PromptTime u).
Proof.
  revert w. induction sel as [|u sel IH]; simpl; intros w Hm; auto.
  destruct (Scheduler.shouldSendPrompt E u currentHour w) eqn:Hs.
  - destruct (SendDailyPrompt_effect (User.ID u) (User.Email u) (User.ProjectFocus u) w)
      as (_ & Hn & Hl).
    destruct (IH _ Hm) as [Hin|(u' & loc & Hu' & Hid & Hloc & Hh)].
    + destruct Hl as [Heq|(m' & Heq & Hm')]; rewrite Heq in Hin; auto.
      apply in_app_or in Hin. destruct Hin as [Hin|[<-|[]]]; auto.
      right. unfold Scheduler.shouldSendPrompt in Hs.
      destruct (LoadLocation E (User.Timezone u)) as [loc|] eqn:Hloc; [|discriminate].
      exists u, loc. apply Z.eqb_eq in Hs. repeat split; auto.
    + right. exists u', loc. rewrite Hn in Hh. repeat split; auto.
  - destruct (IH _ Hm) as [Hin|(u' & loc & Hu' & Hid & Hloc & Hh)]; auto.
    right. exists u', loc. auto.
Qed.

(** The rule the job applies: it queues a prompt only for a verified
    account whose prompt hour is both the current UTC hour (the query) and
    the hour on the account's own clock (the check in the loop). *)
Lemma sendDailyPrompts_rule (w : World) (m : EmailLog.t) :
  In m (email_logs (snd (Scheduler.sendDailyPrompts E w))) ->
  In m (email_logs w)
  \/ exists r loc,
       In r (users w) /\ EmailLog.UserID m = Some (User.ID r)
       /\ User.IsVerified r = true
       /\ GoTime.tHour (User.PromptTime r) = GoTime.HourIn GoTime.UTC (now w)
       /\ LoadLocation E (User.Timezone r) = Some loc
       /\ GoTime.HourIn loc (now w) = GoTime.tHour (User.PromptTime r).
Proof.
  unfold Scheduler.sendDailyPrompts. rewrite GetUsersForDailyPrompt_rows.
  destruct (dbFault E (db_calls w)); simpl; auto.
  intros Hm. apply promptEach_prompted in Hm. simpl in Hm.
  destruct Hm as [Hm|(u & loc & Hu & Hid & Hloc & Hh)]; auto.
  apply in_map_iff in Hu. destruct Hu as (r & <- & Hr).
  apply filter_In in Hr. destruct Hr as [Hr Hf].
  unfold Core.promptFilter in Hf. rewrite !andb_true_iff in Hf.
  destruct Hf as [[Hv _] Hhour]. apply Z.eqb_eq in Hhour.
  right. exists r, loc. simpl in *. repeat split; auto.
Qed.

(** C1, on the code.  On 2024-07-01 at 18:00 UTC it is 14:00 in New York.
    Ada is verified, not paused, lives in [America/New_York] and asked for
    her prompt at 14:00: the hour on her own clock is the hour of her prompt
    time, and the check of the loop accepts her.  The query, which compares
    the hour of the prompt time with the UTC hour, returns no row, and the
    job queues no prompt.  At 14:00 UTC the query returns her row and the
    check of the loop rejects it, her clock showing 10:00. *)
Theorem local_prompt_hour_is_not_selected :
  let w := Sample.world Sample.july1_1800 [Sample.ada] in
  let w' := Sample.world Sample.july1_1400 [Sample.ada] in
  User.IsVerified Sample.ada = true
  /\ User.IsPaused Sample.ada = false
  /\ option_map (fun loc => GoTime.HourIn loc (now w))
       (LoadLocation Sample.quiet (User.Timezone Sample.ada))
     = Some (GoTime.tHour (User.PromptTime Sample.ada))
  /\ Scheduler.shouldSendPrompt Sample.quiet Sample.ada (GoTime.HourIn GoTime.UTC (now w)) w
     = true
  /\ fst (Core.GetUsersForDailyPrompt Sample.quiet (GoTime.HourIn GoTime.UTC (now w)) w)
     = Ok []
  /\ email_logs (snd (Scheduler.sendDailyPrompts Sample.quiet w)) = []
  /\ email_logs (snd (Scheduler.sendDailyPrompts Sample.quiet w')) = [].
Proof. vm_compute. repeat split; reflexivity. Qed.

End SchedulingSelection.

(** ** Journal entries *)

Section JournalEntries.
Variable E : Env.

Lemma saveEntry_run (uid : Z) (content : string) (tag : option string) (w : World) :
  Core.saveEntry E uid content tag w =
  match dbFault E (db_calls w) with
  | Some e => (Err e, set_db_calls (S (db_calls w)) w)
  | None =>
      (Ok tt,
       Core.upsertEntry uid (GoTime.utcDate (now w)) content tag
         (set_db_calls (S (db_calls w)) w))
  end.
Proof.
  unfold Core.saveEntry, Database.ExecContext, Database.call.
  destruct (dbFault E (db_calls w)); reflexivity.
Qed.

Lemma sameKey_entryKey (uid d : Z) (e : Entry.t) :
  Core.sameKey uid d e = true <-> entryKey e = (uid, d).
Proof.
  unfold Core.sameKey, entryKey. rewrite andb_true_iff, !Z.eqb_eq.
  split; [intros [-> ->]; reflexivity | intros H; inversion H; auto].
Qed.

Lemma filter_sameKey_absent (uid d : Z) (l : list Entry.t) :
  existsb (Core.sameKey uid d) l = false -> filter (Core.sameKey uid d) l = [].
Proof.
  induction l as [|x l IH]; simpl; auto.
  rewrite orb_false_iff. intros [-> Hl]. auto.
Qed.

Lemma existsb_sameKey_keys (uid d : Z) (l : list Entry.t) :
  existsb (Core.sameKey uid d) l = true <-> In (uid, d) (map entryKey l).
Proof.
  rewrite existsb_exists, in_map_iff. split.
  - intros (x & Hx & Hk). apply sameKey_entryKey in Hk. eauto.
  - intros (x & Hk & Hx). apply sameKey_entryKey in Hk. eauto.
Qed.

(** Under the unique index, rewriting the rows of a key leaves exactly one
    row for it, the rewritten one. *)
Lemma filter_sameKey_rewritten (uid d : Z) (f : Entry.t -> Entry.t) (l : list Entry.t) :
  (forall e, entryKey (f e) = entryKey e) ->
  NoDup (map entryKey l) ->
  existsb (Core.sameKey uid d) l = true ->
  exists e, In e l /\ Core.sameKey uid d e = true /\
            filter (Core.sameKey uid d)
              (map (fun e => if Core.sameKey uid d e then f e else e) l) = [f e].
Proof.
  intros Hf. induction l as [|x l IH]; simpl; [discriminate|].
  intros Hnd Hex. inversion Hnd as [|? ? Hx Hl]; subst.
  destruct (Core.sameKey uid d x) eqn:Hk.
  - exists x. repeat split; auto.
    assert (Hfx : Core.sameKey uid d (f x) = true).
    { apply sameKey_entryKey. rewrite Hf. now apply sameKey_entryKey. }
    rewrite Hfx. f_equal.
    assert (Hno : existsb (Core.sameKey uid d) l = false).
    { destruct (existsb (Core.sameKey uid d) l) eqn:Hl'; auto.
      exfalso. apply Hx. apply sameKey_entryKey in Hk. rewrite Hk.
      now apply existsb_sameKey_keys. }
    clear -Hno. induction l as [|y l IH]; simpl in *; auto.
    apply orb_false_iff in Hno. destruct Hno as [Hy Hl]. rewrite Hy, Hy. auto.
  - simpl in Hex. destruct (IH Hl Hex) as (e & He & Hke & Hfl).
    exists e. repeat split; auto. rewrite Hk. exact Hfl.
Qed.

Lemma map_entryKey_rewritten (uid d : Z) (f : Entry.t -> Entry.t) (l : list Entry.t) :
  (forall e, entryKey (f e) = entryKey e) ->
  map entryKey (map (fun e => if Core.sameKey uid d e then f e else e) l) = map entryKey l.
Proof.
  intros Hf. rewrite map_map. apply map_ext. intros e.
  destruct (Core.sameKey uid d e); auto.
Qed.

Lemma entries_upsertEntry (uid d : Z) (content : string) (tag : option string) (w : World) :
  entries (Core.upsertEntry uid d content tag w) =
  if existsb (Core.sameKey uid d) (entries w)
  then map (fun e =>
              if Core.sameKey uid d e
              then Entry.mk (Entry.ID e) (Entry.UserID e) (Entry.EntryDate e) content
                     (Some content) tag (Entry.CreatedAt e) (now w)
              else e)
         (entries w)
  else entries w
       ++ [Entry.mk (entries_seq w + 1) uid d content (Some content) tag (now w) (now w)].
Proof.
  unfold Core.upsertEntry. destruct (existsb _ _); reflexivity.
Qed.

(** The upsert keeps the unique index and leaves a row for its key. *)
Lemma upsertEntry_index (uid d : Z) (content : string) (tag : option string) (w : World) :
  NoDup (map entryKey (entries w)) ->
  NoDup (map entryKey (entries (Core.upsertEntry uid d content tag w)))
  /\ existsb (Core.sameKey uid d) (entries (Core.upsertEntry uid d content tag w)) = true.
Proof.
  intros Hnd. unfold Core.upsertEntry.
  destruct (existsb (Core.sameKey uid d) (entries w)) eqn:Hex; simpl.
  - rewrite map_entryKey_rewritten by reflexivity. split; auto.
    apply existsb_sameKey_keys. rewrite map_entryKey_rewritten by reflexivity.
    now apply existsb_sameKey_keys.
  - split.
    + rewrite map_app. simpl. apply NoDup_snoc; auto.
      unfold entryKey at 1. simpl.
      intros Hin. apply existsb_sameKey_keys in Hin. congruence.
    + rewrite existsb_app. simpl. unfold Core.sameKey at 2. simpl.
      rewrite !Z.eqb_refl. simpl. apply orb_true_r.
Qed.

(** C5.  Storing a journal entry is an upsert with last-write-wins: when an
    entry is stored for an account and, later on the same UTC date, a second
    one is stored for it, neither call returns an error, the table holds
    exactly one row for that account and date, the row carries the second
    content and project tag, and the second call adds no row. *)
Theorem saveEntry_upsert_last_write_wins :
  forall (w : World) (uid : Z) (c1 c2 : string) (tag1 tag2 : option string) (later : Z),
    NoDup (map entryKey (entries w)) ->
    dbFault E (db_calls w) = None ->
    dbFault E (S (db_calls w)) = None ->
    GoTime.utcDate later = GoTime.utcDate (now w) ->
    exists w1 w2 e,
      Core.saveEntry E uid c1 tag1 w = (Ok tt, w1)
      /\ Core.saveEntry E uid c2 tag2 (set_now later w1) = (Ok tt, w2)
      /\ filter (Core.sameKey uid (GoTime.utcDate (now w))) (entries w2) = [e]
      /\ Entry.RawContent e = c2
      /\ Entry.ParsedContent e = Some c2
      /\ Entry.ProjectTag e = tag2
      /\ List.length (entries w2) = List.length (entries w1)
      /\ NoDup (map entryKey (entries w2)).
Proof.
  intros w uid c1 c2 tag1 tag2 later Hnd H0 H1 Hdate.
  set (d := GoTime.utcDate (now w)).
  set (w1 := Core.upsertEntry uid d c1 tag1 (set_db_calls (S (db_calls w)) w)).
  assert (Hcalls : db_calls w1 = S (db_calls w)).
  { unfold w1, Core.upsertEntry. destruct (existsb _ _); reflexivity. }
  destruct (upsertEntry_index uid d c1 tag1 (set_db_calls (S (db_calls w)) w) Hnd)
    as [Hnd1 Hex1]. fold w1 in Hnd1, Hex1.
  set (f := fun e : Entry.t =>
              Entry.mk (Entry.ID e) (Entry.UserID e) (Entry.EntryDate e) c2 (Some c2) tag2
                (Entry.CreatedAt e) later).
  destruct (filter_sameKey_rewritten uid d f (entries w1)) as (e & He & Hk & Hfl);
    auto.
  exists w1, (Core.upsertEntry uid d c2 tag2
               (set_db_calls (S (S (db_calls w))) (set_now later w1))), (f e).
  rewrite saveEntry_run, H0. split; [reflexivity|].
  rewrite saveEntry_run.
  change (db_calls (set_now later w1)) with (db_calls w1).
  change (now (set_now later w1)) with later.
  rewrite Hcalls, H1, Hdate. fold d. split; [reflexivity|].
  rewrite entries_upsertEntry.
  change (entries (set_db_calls (S (S (db_calls w))) (set_now later w1)))
    with (entries w1).
  change (now (set_db_calls (S (S (db_calls w))) (set_now later w1))) with later.
  rewrite Hex1. fold f. repeat split; auto.
  - apply length_map.
  - rewrite map_entryKey_rewritten by reflexivity. exact Hnd1.
Qed.

End JournalEntries.

(** ** Strings *)

Section StringFacts.
Import GoStrings.

Lemma HasPrefix_spec (s p : string) :
  HasPrefix s p = true <-> exists post, s = (p ++ post)%string.
Proof.
  revert s. induction p as [|a p IH]; intros [|c s]; simpl.
  - split; [intros _; exists EmptyString; reflexivity | reflexivity].
  - split; [intros _; exists (String c s); reflexivity | reflexivity].
  - split; [discriminate | intros [post H]; discriminate].
  - rewrite andb_true_iff, Ascii.eqb_eq, IH. split.
    + intros [-> [post ->]]. eauto.
    + intros [post H]. inversion H; subst. eauto.
Qed.

Lemma Contains_unfold (s sub : string) :
  Contains s sub =
  (HasPrefix s sub
   || match s with EmptyString => false | String _ s' => Contains s' sub end)%bool.
Proof. destruct s; reflexivity. Qed.

Lemma Contains_spec (s sub : string) :
  Contains s sub = true <-> exists pre post, s = (pre ++ sub ++ post)%string.
Proof.
  induction s as [|c s IH]; rewrite Contains_unfold.
  - rewrite orb_false_r, HasPrefix_spec. split.
    + intros [post H]. exists EmptyString, post. exact H.
    + intros (pre & post & H). destruct pre; simpl in H; [eauto | discriminate].
  - rewrite orb_true_iff, HasPrefix_spec, IH. split.
    + intros [[post H] | (pre & post & H)].
      * exists EmptyString, post. exact H.
      * exists (String c pre), post. simpl. now rewrite H.
    + intros (pre & post & H). destruct pre as [|a pre]; simpl in H.
      * left. eauto.
      * right. inversion H; subst. eauto.
Qed.


End StringFacts.

(** ** Handling a reply *)

Section ReplyHandling.
Variable E : Env.
Import GoStrings Regexp Parser.

Lemma GetUserByEmail_run (email : string) (w : World) :
  Email.GetUserByEmail E email w =
  match dbFault E (db_calls w) with
  | Some e =>
      (Err ("failed to get user by email" ++ ": " ++ e)%string,
       set_db_calls (S (db_calls w)) w)
  | None =>
      (Ok (find (fun u => String.eqb (User.Email u) email) (users w)),
       set_db_calls (S (db_calls w)) w)
  end.
Proof.
  unfold Email.GetUserByEmail, wrapErr, Database.QueryContext, Database.call.
  destruct (dbFault E (db_calls w)); reflexivity.
Qed.

(** A clarification request changes neither the accounts nor the journal,
    and adds at most one row to the outbox. *)
Lemma SendClarificationRequest_frame (uid : Z) (rcpt msg : string) (w : World) :
  let w' := snd (Email.SendClarificationRequest E uid rcpt msg w) in
  users w' = users w /\ entries w' = entries w
  /\ (email_logs w' = email_logs w
      \/ exists m, email_logs w' = email_logs w ++ [m]
                   /\ EmailLog.EmailType m = Models.EmailTypeClarification
                   /\ EmailLog.UserID m = Some uid).
Proof.
  unfold Email.SendClarificationRequest.
  destruct (Email.RenderClarificationEmail E msg) as [[subject body]|e]; simpl; auto.
  rewrite QueueEmail_run. destruct (dbFault E (db_calls w)); simpl; auto.
  repeat split; auto. right. eexists. repeat split; reflexivity.
Qed.

(** When the template renders and the insert is executed, the request
    queues exactly one pending clarification row. *)
Lemma SendClarificationRequest_queued (uid : Z) (rcpt msg subject body : string)
  (w : World) :
  Email.RenderClarificationEmail E msg = Ok (subject, body) ->
  dbFault E (db_calls w) = None ->
  fst (Email.SendClarificationRequest E uid rcpt msg w) = Ok tt
  /\ email_logs (snd (Email.SendClarificationRequest E uid rcpt msg w)) =
     email_logs w
     ++ [Email.newEmailLog (email_logs_seq w + 1) (Some uid) rcpt
           Models.EmailTypeClarification subject body None (now w)].
Proof.
  intros HR HD. unfold Email.SendClarificationRequest. rewrite HR, QueueEmail_run, HD.
  split; reflexivity.
Qed.

(** What [HandleEmailReply] does once the sender is found and verified. *)
Lemma HandleEmailReply_verified (sender subject body : string) (user : User.t)
  (w : World) :
  dbFault E (db_calls w) = None ->
  find (fun u => String.eqb (User.Email u) sender) (users w) = Some user ->
  User.IsVerified user = true ->
  Core.HandleEmailReply E sender subject body w =
  let w0 := set_db_calls (S (db_calls w)) w in
  let parsed := ParseEmailReply body in
  if negb (IsValidated parsed)
  then Email.SendClarificationRequest E (User.ID user) (User.Email user) body w0
  else
    match Core.applyCommands E user parsed (Commands parsed) w0 with
    | (Err _, w1) =>
        Email.SendClarificationRequest E (User.ID user) (User.Email user) body w1
    | (Ok _, w1) => (Ok tt, w1)
    end.
Proof.
  intros HD HF HV. unfold Core.HandleEmailReply, bind, wrapErr.
  rewrite GetUserByEmail_run, HD, HF, HV. cbn [negb].
  destruct (negb (IsValidated (ParseEmailReply body))); reflexivity.
Qed.



(** A command whose application returns an error has changed no table. *)
Lemma applyCommand_error_frame (user : User.t) (parsed : ParsedReply) (cmd : Command)
  (w w' : World) (e : string) :
  Core.applyCommand E user parsed cmd w = (Err e, w') ->
  users w' = users w /\ entries w' = entries w /\ email_logs w' = email_logs w.
Proof.
  unfold Core.applyCommand, Core.pauseUser, Core.updateUserProject, Core.saveEntry,
    Database.ExecContext, Database.call, fail.
  destruct (Type_ cmd); [destruct (Duration cmd)|..];
    try destruct (dbFault E (db_calls w)); intros H; inv H; auto.
Qed.

(** No command writes to the outbox. *)
Lemma applyCommand_email_logs (user : User.t) (parsed : ParsedReply) (cmd : Command)
  (w : World) :
  email_logs (snd (Core.applyCommand E user parsed cmd w)) = email_logs w
  /\ email_logs_seq (snd (Core.applyCommand E user parsed cmd w)) = email_logs_seq w
  /\ now (snd (Core.applyCommand E user parsed cmd w)) = now w.
Proof.
  unfold Core.applyCommand, Core.pauseUser, Core.updateUserProject, Core.saveEntry,
    Database.ExecContext, Database.call, fail, Core.upsertEntry.
  destruct (Type_ cmd); [destruct (Duration cmd)|..];
    try destruct (dbFault E (db_calls w)); simpl; auto.
  destruct (existsb _ _); simpl; auto.
Qed.

Lemma applyCommands_email_logs (user : User.t) (parsed : ParsedReply)
  (cmds : list Command) (w : World) :
  email_logs (snd (Core.applyCommands E user parsed cmds w)) = email_logs w
  /\ email_logs_seq (snd (Core.applyCommands E user parsed cmds w)) = email_logs_seq w
  /\ now (snd (Core.applyCommands E user parsed cmds w)) = now w.
Proof.
  revert w. induction cmds as [|c cmds IH]; intros w; simpl; auto.
  unfold bind. pose proof (applyCommand_email_logs user parsed c w) as Hc.
  destruct (Core.applyCommand E user parsed c w) as [[u|e] w1]; simpl in Hc.
  - destruct (IH w1) as (H1 & H2 & H3). rewrite H1, H2, H3. exact Hc.
  - simpl. exact Hc.
Qed.

(** The loop stops at the first command that returns an error. *)
Lemma applyCommands_stops (user : User.t) (parsed : ParsedReply)
  (pre post : list Command) (cmd : Command) (w w1 w2 : World) (e : string) :
  Core.applyCommands E user parsed pre w = (Ok tt, w1) ->
  Core.applyCommand E user parsed cmd w1 = (Err e, w2) ->
  Core.applyCommands E user parsed (pre ++ cmd :: post) w = (Err e, w2).
Proof.
  revert w. induction pre as [|c pre IH]; simpl; intros w Hpre Hcmd.
  - inv Hpre. unfold bind. rewrite Hcmd. reflexivity.
  - unfold bind in *. destruct (Core.applyCommand E user parsed c w) as [[u|e'] w'].
    + apply IH; assumption.
    + discriminate.
Qed.

(** C3, as the code has it.  When the application of a command of a reply
    fails, handling stops there and requests a clarification, queued as one
    row when its template renders and the insert is executed.  The failing
    command and the commands after it leave no effect, but nothing is rolled
    back: the accounts and the journal are left as the commands before the
    failing one made them. *)
Theorem failed_command_stops_reply_without_rollback :
  forall (w w1 w2 : World) (sender subject body e : string) (user : User.t)
         (pre post : list Command) (cmd : Command),
    dbFault E (db_calls w) = None ->
    find (fun u => String.eqb (User.Email u) sender) (users w) = Some user ->
    User.IsVerified user = true ->
    IsValidated (ParseEmailReply body) = true ->
    Commands (ParseEmailReply body) = pre ++ cmd :: post ->
    Core.applyCommands E user (ParseEmailReply body) pre (set_db_calls (S (db_calls w)) w)
    = (Ok tt, w1) ->
    Core.applyCommand E user (ParseEmailReply body) cmd w1 = (Err e, w2) ->
    let out := Core.HandleEmailReply E sender subject body w in
    users (snd out) = users w1
    /\ entries (snd out) = entries w1
    /\ forall subj text,
        Email.RenderClarificationEmail E body = Ok (subj, text) ->
        dbFault E (db_calls w2) = None ->
        fst out = Ok tt
        /\ email_logs (snd out) =
           email_logs w
           ++ [Email.newEmailLog (email_logs_seq w + 1) (Some (User.ID user))
                 (User.Email user) Models.EmailTypeClarification subj text None (now w)].
Proof.
  intros w w1 w2 sender subject body e user pre post cmd HD HF HV Hval Hcmds Hpre Hcmd.
  cbv zeta.
  rewrite (HandleEmailReply_verified sender subject body user w HD HF HV). cbv zeta.
  rewrite Hval, Hcmds. cbn [negb].
  rewrite (applyCommands_stops _ _ pre post cmd _ w1 w2 e Hpre Hcmd).
  destruct (applyCommand_error_frame _ _ _ _ _ _ Hcmd) as (Hu & Hen & Hl).
  destruct (SendClarificationRequest_frame (User.ID user) (User.Email user) body w2)
    as (Hu' & Hen' & _).
  split; [congruence|]. split; [congruence|].
  intros subj text HR HD2.
  destruct (SendClarificationRequest_queued (User.ID user) (User.Email user) body subj
              text w2 HR HD2) as [Hr Hq].
  split; [exact Hr|]. rewrite Hq.
  pose proof (applyCommands_email_logs user (ParseEmailReply body) pre
                (set_db_calls (S (db_calls w)) w)) as Hp.
  rewrite Hpre in Hp. simpl in Hp. destruct Hp as (Hp1 & Hp2 & Hp3).
  pose proof (applyCommand_email_logs user (ParseEmailReply body) cmd w1) as Hc.
  rewrite Hcmd in Hc. simpl in Hc. destruct Hc as (Hc1 & Hc2 & Hc3).
  congruence.
Qed.

End ReplyHandling.

(** ** The outbox *)

Section Outbox.
Variable E : Env.

Lemma selectPending_run (w : World) :
  Email.selectPending E w =
  match dbFault E (db_calls w) with
  | Some e =>
      (Err ("failed to query pending emails" ++ ": " ++ e)%string,
       set_db_calls (S (db_calls w)) w)
  | None => (Ok (Email.pendingEmails w), set_db_calls (S (db_calls w)) w)
  end.
Proof.
  unfold Email.selectPending, wrapErr, Database.QueryContext, Database.call.
  destruct (dbFault E (db_calls w)); reflexivity.
Qed.

Lemma markEmailSent_run (id : Z) (mid : string) (w : World) :
  Email.markEmailSent E id mid w =
  match dbFault E (db_calls w) with
  | Some e =>
      (Err ("failed to mark email as sent" ++ ": " ++ e)%string,
       set_db_calls (S (db_calls w)) w)
  | None =>
      (Ok tt,
       Email.updateEmail id (Email.sentRow mid (now w)) (set_db_calls (S (db_calls w)) w))
  end.
Proof.
  unfold Email.markEmailSent, wrapErr, Database.ExecContext, Database.call.
  destruct (dbFault E (db_calls w)); reflexivity.
Qed.

Lemma markEmailFailed_run (id : Z) (msg : string) (w : World) :
  Email.markEmailFailed E id msg w =
  match dbFault E (db_calls w) with
  | Some e =>
      (Err ("failed to mark email as failed" ++ ": " ++ e)%string,
       set_db_calls (S (db_calls w)) w)
  | None =>
      (Ok tt,
       Email.updateEmail id (Email.failedRow msg (now w)) (set_db_calls (S (db_calls w)) w))
  end.
Proof.
  unfold Email.markEmailFailed, wrapErr, Database.ExecContext, Database.call.
  destruct (dbFault E (db_calls w)); reflexivity.
Qed.

Lemma sendEmail_run (email : EmailLog.t) (w : World) :
  Email.sendEmail E email w =
  match sesReply E (ses_calls w) with
  | Ok mid => Email.markEmailSent E (EmailLog.ID email) mid (afterSend E email w)
  | Err e => (Err ("failed to send email via SES" ++ ": " ++ e)%string, afterSend E email w)
  end.
Proof.
  unfold Email.sendEmail, bind, wrapErr, Email.SendEmail. fold (afterSend E email w).
  destruct (sesReply E (ses_calls w)); reflexivity.
Qed.


(** Processing a row calls the transport once, whatever happens next. *)
Lemma processEmail_calls (email : EmailLog.t) (w : World) :
  let w' := snd (Email.processEmail E email w) in
  ses_log w' =
  ses_log w
  ++ [mkSesCall (EmailLog.ID email) (EmailLog.RecipientEmail email) (EmailLog.Subject email)
        (EmailLog.BodyText email) (sesReply E (ses_calls w))]
  /\ ses_calls w' = S (ses_calls w)
  /\ now w' = now w.
Proof.
  unfold Email.processEmail. rewrite sendEmail_run.
  destruct (sesReply E (ses_calls w)) as [mid|e] eqn:HS.
  - rewrite markEmailSent_run.
    destruct (dbFault E (db_calls (afterSend E email w))) as [e'|]; simpl; rewrite ?HS; auto.
    rewrite markEmailFailed_run. simpl.
    destruct (dbFault E (S (db_calls w))); simpl; rewrite ?HS; auto.
  - simpl. rewrite markEmailFailed_run. simpl.
    destruct (dbFault E (db_calls w)); simpl; rewrite ?HS; auto.
Qed.

Lemma processEmails_calls (rows : list EmailLog.t) (w : World) :
  let w' := snd (Email.processEmails E rows w) in
  ses_log w' = ses_log w ++ callsFor E (ses_calls w) rows
  /\ ses_calls w' = (ses_calls w + List.length rows)%nat
  /\ now w' = now w.
Proof.
  revert w. induction rows as [|email rows IH]; intros w; simpl.
  - rewrite app_nil_r, Nat.add_0_r. auto.
  - unfold bind. pose proof (processEmail_calls email w) as Hc.
    assert (Hok : fst (Email.processEmail E email w) = Ok tt).
    { unfold Email.processEmail. destruct (Email.sendEmail E email w) as [[u|e] w1]; reflexivity. }
    destruct (Email.processEmail E email w) as [r w1]. simpl in Hc, Hok. subst r.
    destruct Hc as (Hl & Hn & Ht). destruct (IH w1) as (Hl' & Hn' & Ht').
    rewrite Hl', Hn', Ht', Hl, Hn, Ht, <- app_assoc. simpl.
    repeat split; auto.
Qed.


(** When the update to [failed] is not executed either, the delivered
    message keeps the status it had: a pending row stays pending and the
    next run selects it again. *)
Lemma delivered_message_left_as_it_was (w : World) (email : EmailLog.t) (mid e e' : string) :
  sesReply E (ses_calls w) = Ok mid ->
  dbFault E (db_calls w) = Some e ->
  dbFault E (S (db_calls w)) = Some e' ->
  email_logs (snd (Email.processEmail E email w)) = email_logs w.
Proof.
  intros HS HD HD1.
  unfold Email.processEmail. rewrite sendEmail_run, HS, markEmailSent_run.
  change (db_calls (afterSend E email w)) with (db_calls w). rewrite HD.
  cbn [snd]. rewrite markEmailFailed_run.
  change (db_calls (set_db_calls (S (db_calls w)) (afterSend E email w)))
    with (S (db_calls w)).
  rewrite HD1. reflexivity.
Qed.

(** *** Runs that do not overlap *)

Lemma map_scEmailID_callsFor (n : nat) (rows : list EmailLog.t) :
  map scEmailID (callsFor E n rows) = map EmailLog.ID rows.
Proof.
  revert n. induction rows as [|r rows IH]; intros n; simpl; [reflexivity|].
  now rewrite IH.
Qed.

Lemma skipn_length_app {A : Type} (l l' : list A) : skipn (List.length l) (l ++ l') = l'.
Proof. induction l; simpl; auto. Qed.

Lemma insertByCreatedAt_perm (m : EmailLog.t) (l : list EmailLog.t) :
  Permutation (Email.insertByCreatedAt m l) (m :: l).
Proof.
  induction l as [|x l IH]; simpl; [reflexivity|].
  destruct (EmailLog.CreatedAt m <=? EmailLog.CreatedAt x); [reflexivity|].
  rewrite IH. apply perm_swap.
Qed.

Lemma orderByCreatedAt_perm (l : list EmailLog.t) : Permutation (Email.orderByCreatedAt l) l.
Proof.
  induction l as [|x l IH]; simpl; [reflexivity|].
  rewrite insertByCreatedAt_perm. now constructor.
Qed.

Lemma In_firstn {A : Type} (n : nat) (l : list A) (x : A) : In x (firstn n l) -> In x l.
Proof.
  revert n. induction l as [|y l IH]; intros [|n]; simpl; try tauto.
  intros [->|H]; eauto.
Qed.

Lemma NoDup_firstn {A : Type} (n : nat) (l : list A) : NoDup l -> NoDup (firstn n l).
Proof.
  revert n. induction l as [|x l IH]; intros [|n] Hnd; simpl; try constructor.
  - inversion Hnd; subst. intros Hin. apply In_firstn in Hin. contradiction.
  - inversion Hnd; subst. auto.
Qed.

(** Selecting rows keeps a key unique. *)
Lemma NoDup_map_filter {Row Key : Type} (key : Row -> Key) (keep : Row -> bool)
  (rows : list Row) (Hkey : NoDup (map key rows)) :
  NoDup (map key (filter keep rows)).
Proof.
  induction rows as [|x l IH]; simpl; [constructor|].
  inversion Hkey as [|? ? Hx Hl]; subst.
  destruct (keep x); simpl; auto. constructor; auto.
  intros Hin. apply Hx. apply in_map_iff in Hin. destruct Hin as (y & Hy & Hin).
  apply filter_In in Hin. apply in_map_iff. exists y. tauto.
Qed.

(** The rows of a batch are pending rows of the table, each at most once. *)
Lemma pendingEmails_rows (w : World) :
  NoDup (map EmailLog.ID (email_logs w)) ->
  NoDup (map EmailLog.ID (Email.pendingEmails w))
  /\ forall r, In r (Email.pendingEmails w) ->
       exists m, In m (email_logs w) /\ EmailLog.ID m = EmailLog.ID r
                 /\ EmailLog.Status m = "pending"%string.
Proof.
  intros Hnd. unfold Email.pendingEmails. split.
  - rewrite map_map.
    rewrite (map_ext _ EmailLog.ID) by reflexivity.
    rewrite <- firstn_map. apply NoDup_firstn.
    eapply Permutation_NoDup.
    + apply Permutation_map. symmetry. apply orderByCreatedAt_perm.
    + now apply NoDup_map_filter.
  - intros r Hr. apply in_map_iff in Hr. destruct Hr as (m & <- & Hm).
    apply In_firstn in Hm.
    apply (Permutation_in _ (orderByCreatedAt_perm _)) in Hm.
    apply filter_In in Hm. destruct Hm as [Hm Hdue].
    exists m. repeat split; auto.
    unfold Email.isDue in Hdue. apply andb_true_iff in Hdue.
    now apply String.eqb_eq.
Qed.

(** With the database answering, processing a row rewrites the rows of its
    id to [sent] or [failed] and leaves the others. *)
Lemma processEmail_settles (email : EmailLog.t) (w : World) :
  (forall n, dbFault E n = None) ->
  exists f,
    email_logs (snd (Email.processEmail E email w)) =
    map (fun m => if EmailLog.ID m =? EmailLog.ID email then f m else m) (email_logs w)
    /\ forall m, EmailLog.ID (f m) = EmailLog.ID m /\ EmailLog.Status (f m) <> "pending"%string.
Proof.
  intros HD. unfold Email.processEmail. rewrite sendEmail_run.
  destruct (sesReply E (ses_calls w)) as [mid|e].
  - rewrite markEmailSent_run, HD. exists (Email.sentRow mid (now w)).
    split; [reflexivity|]. intros m. split; [reflexivity|]. simpl. discriminate.
  - cbn [snd]. rewrite markEmailFailed_run, HD.
    exists (Email.failedRow ("failed to send email via SES" ++ ": " ++ e)%string (now w)).
    split; [reflexivity|]. intros m. split; [reflexivity|]. simpl. discriminate.
Qed.

Lemma processEmails_settles (rows : list EmailLog.t) (w : World) (settled : list Z) :
  (forall n, dbFault E n = None) ->
  (forall m, In m (email_logs w) -> In (EmailLog.ID m) settled ->
             EmailLog.Status m <> "pending"%string) ->
  let w' := snd (Email.processEmails E rows w) in
  map EmailLog.ID (email_logs w') = map EmailLog.ID (email_logs w)
  /\ forall m, In m (email_logs w') ->
       In (EmailLog.ID m) (settled ++ map EmailLog.ID rows) ->
       EmailLog.Status m <> "pending"%string.
Proof.
  intros HD. revert w settled. induction rows as [|email rows IH]; intros w settled Hs; simpl.
  - rewrite app_nil_r. auto.
  - unfold bind. destruct (processEmail_settles email w HD) as (f & Hl & Hf).
    assert (Hok : fst (Email.processEmail E email w) = Ok tt).
    { unfold Email.processEmail. destruct (Email.sendEmail E email w) as [[u|e] w1]; reflexivity. }
    destruct (Email.processEmail E email w) as [r w1]. simpl in Hl, Hok. subst r.
    destruct (IH w1 (settled ++ [EmailLog.ID email])) as [Hids Hdone].
    + intros m Hm Hin. rewrite Hl in Hm. apply in_map_iff in Hm.
      destruct Hm as (m0 & <- & Hm0).
      destruct (EmailLog.ID m0 =? EmailLog.ID email) eqn:Hid.
      * apply Hf.
      * apply in_app_or in Hin. destruct Hin as [Hin|[Heq|[]]]; [auto|].
        apply Z.eqb_neq in Hid. congruence.
    + split.
      * rewrite Hids, Hl, map_map. apply map_ext. intros m.
        destruct (EmailLog.ID m =? EmailLog.ID email); [apply Hf | reflexivity].
      * intros m Hm Hin. apply Hdone; auto. rewrite <- app_assoc. exact Hin.
Qed.

Lemma ProcessOutbox_run (w : World) :
  dbFault E (db_calls w) = None ->
  Email.ProcessOutbox E w =
  Email.processEmails E (Email.pendingEmails w) (set_db_calls (S (db_calls w)) w).
Proof.
  intros HD. unfold Email.ProcessOutbox, bind. rewrite selectPending_run, HD. reflexivity.
Qed.

(** C2, as the code has it.  When the database executes every statement,
    two invocations of [ProcessOutbox] that do not overlap never hand the
    same row to the transport twice: the first leaves every row it handed
    over in a status other than [pending], and the second selects pending
    rows only.  [email_logs] is a table with a primary key. *)
Theorem sequential_runs_attempt_each_message_once :
  forall (w : World) (later : Z),
    (forall n, dbFault E n = None) ->
    NoDup (map EmailLog.ID (email_logs w)) ->
    let w1 := snd (Email.ProcessOutbox E w) in
    let w2 := snd (Email.ProcessOutbox E (set_now later w1)) in
    NoDup (attemptedSince (List.length (ses_log w)) w2)
    /\ forall m, In m (email_logs w1) ->
         In (EmailLog.ID m) (attemptedSince (List.length (ses_log w)) w1) ->
         EmailLog.Status m <> "pending"%string.
Proof.
  intros w later HD Hpk. cbv zeta.
  rewrite (ProcessOutbox_run w (HD _)).
  set (w0 := set_db_calls (S (db_calls w)) w).
  set (rows1 := Email.pendingEmails w).
  destruct (processEmails_calls rows1 w0) as (Hlog1 & _ & _).
  destruct (processEmails_settles rows1 w0 [] HD) as [Hids1 Hdone1];
    [intros ? ? []|]. simpl in Hdone1.
  set (w1 := snd (Email.processEmails E rows1 w0)) in *.
  assert (Hatt1 : attemptedSince (List.length (ses_log w)) w1 = map EmailLog.ID rows1).
  { unfold attemptedSince. rewrite Hlog1. simpl ses_log.
    rewrite skipn_length_app. apply map_scEmailID_callsFor. }
  split.
  - rewrite (ProcessOutbox_run (set_now later w1) (HD _)).
    set (w1' := set_db_calls (S (db_calls (set_now later w1))) (set_now later w1)).
    set (rows2 := Email.pendingEmails (set_now later w1)).
    destruct (processEmails_calls rows2 w1') as (Hlog2 & _ & _).
    unfold attemptedSince. rewrite Hlog2. simpl ses_log. rewrite Hlog1. simpl ses_log.
    rewrite <- app_assoc, skipn_length_app, map_app, !map_scEmailID_callsFor.
    assert (Hpk1 : NoDup (map EmailLog.ID (email_logs (set_now later w1)))).
    { simpl. rewrite Hids1. exact Hpk. }
    destruct (pendingEmails_rows w Hpk) as [Hnd1 _].
    destruct (pendingEmails_rows (set_now later w1) Hpk1) as [Hnd2 Hpend2].
    fold rows1 in Hnd1. fold rows2 in Hnd2, Hpend2.
    apply NoDup_app_disjoint; auto.
    intros x Hx1 Hx2. apply in_map_iff in Hx2. destruct Hx2 as (r2 & Hid & Hr2).
    destruct (Hpend2 r2 Hr2) as (m & Hm & Hmid & Hst).
    apply (Hdone1 m Hm); [|exact Hst]. congruence.
  - intros m Hm Hin. rewrite Hatt1 in Hin. apply Hdone1; auto.
Qed.

End Outbox.

(** ** Regular expressions *)

Section RegexpFacts.
Import GoStrings Regexp.

Lemma firstSome_inv {A B : Type} (f : A -> option B) (l : list A) (y : B) :
  firstSome f l = Some y -> exists x, In x l /\ f x = Some y.
Proof.
  induction l as [|x l IH]; simpl; [discriminate|].
  destruct (f x) eqn:Hx.
  - intros H. inv H. eauto.
  - intros H. destruct (IH H) as (x' & Hin & Hf). eauto.
Qed.



Lemma litPrefix_exact (p r : string) : litPrefix false p (p ++ r) = Some (p, r).
Proof.
  induction p as [|a p IH]; simpl; [reflexivity|].
  now rewrite Ascii.eqb_refl, IH.
Qed.







Lemma matchHere_cons_inv (cap : bool) (a : atom) (pat : pattern) (s rest : string)
  (caps : list string) :
  matchHere ((cap, a) :: pat) s = Some (caps, rest) ->
  exists m r caps',
    In (m, r) (choices a s) /\ matchHere pat r = Some (caps', rest)
    /\ caps = if cap then m :: caps' else caps'.
Proof.
  simpl. intros H. apply firstSome_inv in H. destruct H as ([m r] & Hin & Hk).
  simpl in Hk. destruct (matchHere pat r) as [[caps' rest']|] eqn:Hp; [|discriminate].
  inv Hk. eauto 6.
Qed.






End RegexpFacts.

(** ** Pause durations *)

Section PauseDurations.
Import GoStrings Regexp GoTime Parser.

Ltac ascii_cases c :=
  destruct c as [[] [] [] [] [] [] [] []]; vm_compute;
  try reflexivity; try discriminate; auto.

Lemma wrap64_small (z : Z) : MinInt64 <= z <= MaxInt64 -> wrap64 z = z.
Proof.
  unfold wrap64, MinInt64, MaxInt64. intros H.
  change (2 ^ 63) with 9223372036854775808.
  change (2 ^ 64) with 18446744073709551616.
  rewrite Z.mod_small; lia.
Qed.





Lemma isDigit_digitVal (c : ascii) : isDigit c = true -> 0 <= digitVal c <= 9.
Proof.
  destruct c as [[] [] [] [] [] [] [] []]; intros H; vm_compute in H; try discriminate H;
    vm_compute; split; discriminate.
Qed.

Lemma isDigit_not_sign (c : ascii) :
  isDigit c = true -> Ascii.eqb c "+" = false /\ Ascii.eqb c "-" = false.
Proof. ascii_cases c. Qed.




Lemma AllChars_app (cls : ascii -> bool) (a b : string) :
  AllChars cls (a ++ b) = (AllChars cls a && AllChars cls b)%bool.
Proof. induction a as [|c a IH]; simpl; auto. now rewrite IH, andb_assoc. Qed.




Lemma digitsValue_nonneg (s : string) (acc : Z) :
  AllChars isDigit s = true -> 0 <= acc -> acc <= digitsValue acc s.
Proof.
  revert acc. induction s as [|c s IH]; simpl; intros acc Hs Hacc; [lia|].
  apply andb_true_iff in Hs. destruct Hs as [Hc Hs].
  pose proof (isDigit_digitVal c Hc). specialize (IH (acc * 10 + digitVal c) Hs). lia.
Qed.

(** On a run of digits that fits [int], [Atoi] returns its decimal value. *)
Lemma Atoi_digits (ds : string) :
  ds <> EmptyString -> AllChars isDigit ds = true -> digitsValue 0 ds <= MaxInt64 ->
  Atoi ds = Some (digitsValue 0 ds).
Proof.
  intros Hne Hd Hmax. pose proof (digitsValue_nonneg ds 0 Hd ltac:(lia)) as Hpos.
  unfold Atoi. destruct ds as [|c ds]; [contradiction|].
  assert (Hc : isDigit c = true) by (simpl in Hd; now apply andb_true_iff in Hd).
  destruct (isDigit_not_sign c Hc) as [Hplus Hminus].
  assert (Hv : match String c ds with
               | String "+"%char r => parseDigits r
               | String "-"%char r => option_map Z.opp (parseDigits r)
               | _ => parseDigits (String c ds)
               end = parseDigits (String c ds)).
  { destruct c as [[] [] [] [] [] [] [] []]; try reflexivity; discriminate. }
  rewrite Hv. unfold parseDigits. rewrite Hd. simpl negb. cbn [andb].
  replace (MinInt64 <=? digitsValue 0 (String c ds)) with true
    by (symmetry; apply Z.leb_le; unfold MinInt64; lia).
  replace (digitsValue 0 (String c ds) <=? MaxInt64) with true
    by (symmetry; now apply Z.leb_le).
  reflexivity.
Qed.


Lemma string_app_assoc (a b c : string) : ((a ++ b) ++ c = a ++ b ++ c)%string.
Proof. induction a as [|x a IH]; simpl; auto. now rewrite IH. Qed.






End PauseDurations.

(** ** Preferences *)

Section PreferenceFacts.
Variable E : Env.
Import GoStrings Regexp GoTime Preferences.











End PreferenceFacts.

(** ** Cleaning a reply *)

Section CleaningFacts.
Import GoStrings Regexp Parser.

Lemma TrimRight_idem (s : string) : TrimRight (TrimRight s) = TrimRight s.
Proof.
  induction s as [|c s IH]; simpl; [reflexivity|].
  destruct (isSpace c && isEmpty (TrimRight s))%bool eqn:Hc; [reflexivity|].
  simpl. rewrite IH, Hc. reflexivity.
Qed.

Lemma TrimLeft_head (s : string) :
  match TrimLeft s with
  | EmptyString => True
  | String c _ => isSpace c = false
  end.
Proof.
  induction s as [|c s IH]; simpl; auto.
  destruct (isSpace c) eqn:Hc; auto.
Qed.

Lemma TrimSpace_head (s : string) :
  match TrimSpace s with
  | EmptyString => True
  | String c _ => isSpace c = false
  end.
Proof.
  unfold TrimSpace. pose proof (TrimLeft_head s) as H.
  destruct (TrimLeft s) as [|c r]; simpl; auto.
  rewrite H. simpl. exact H.
Qed.

Lemma TrimLeft_fixed (s : string) :
  match s with EmptyString => True | String c _ => isSpace c = false end ->
  TrimLeft s = s.
Proof. destruct s as [|c s]; simpl; auto. intros ->. reflexivity. Qed.

Lemma TrimSpace_idem (s : string) : TrimSpace (TrimSpace s) = TrimSpace s.
Proof.
  pose proof (TrimSpace_head s) as H.
  unfold TrimSpace at 1. rewrite (TrimLeft_fixed _ H).
  unfold TrimSpace. apply TrimRight_idem.
Qed.

Lemma AllChars_TrimLeft (p : ascii -> bool) (s : string) :
  AllChars p s = true -> AllChars p (TrimLeft s) = true.
Proof.
  induction s as [|c s IH]; simpl; auto.
  intros H. apply andb_true_iff in H. destruct H as [Hc Hs].
  destruct (isSpace c); simpl; auto. rewrite Hc, Hs. reflexivity.
Qed.

Lemma AllChars_TrimRight (p : ascii -> bool) (s : string) :
  AllChars p s = true -> AllChars p (TrimRight s) = true.
Proof.
  induction s as [|c s IH]; simpl; auto.
  intros H. apply andb_true_iff in H. destruct H as [Hc Hs].
  destruct (isSpace c && isEmpty (TrimRight s))%bool; simpl; auto.
  rewrite Hc. auto.
Qed.

Lemma AllChars_TrimSpace (p : ascii -> bool) (s : string) :
  AllChars p s = true -> AllChars p (TrimSpace s) = true.
Proof. intros H. apply AllChars_TrimRight, AllChars_TrimLeft, H. Qed.

Lemma SplitLines_nonempty (s : string) : SplitLines s <> [].
Proof.
  induction s as [|c s IH]; simpl; [discriminate|].
  destruct (Ascii.eqb c LF); [discriminate|].
  destruct (SplitLines s); discriminate.
Qed.

Lemma SplitLines_app (a b : string) :
  SplitLines (a ++ String LF b) = SplitLines a ++ SplitLines b.
Proof.
  induction a as [|c a IH]; simpl.
  - reflexivity.
  - rewrite IH. destruct (Ascii.eqb c LF); [reflexivity|].
    pose proof (SplitLines_nonempty a) as Hn.
    destruct (SplitLines a) as [|l ls]; [contradiction|]. reflexivity.
Qed.

Lemma SplitLines_one (s : string) : hasNoLF s -> SplitLines s = [s].
Proof.
  unfold hasNoLF. induction s as [|c s IH]; simpl; [reflexivity|].
  intros H. apply andb_true_iff in H. destruct H as [Hc Hs].
  unfold notChar in Hc. apply negb_true_iff in Hc. rewrite Hc, (IH Hs). reflexivity.
Qed.

Lemma SplitLines_lines (s : string) : Forall hasNoLF (SplitLines s).
Proof.
  induction s as [|c s IH]; simpl.
  - constructor; [reflexivity|constructor].
  - destruct (Ascii.eqb c LF) eqn:Hc.
    + constructor; [reflexivity|exact IH].
    + destruct (SplitLines s) as [|l ls].
      * constructor; [|constructor]. unfold hasNoLF, notChar. simpl. rewrite Hc. reflexivity.
      * inversion IH as [|? ? Hl Hls]; subst. constructor; auto.
        unfold hasNoLF, notChar in *. simpl. rewrite Hc. exact Hl.
Qed.

Lemma SplitLines_JoinLines (ls : list string) :
  ls <> [] -> Forall hasNoLF ls -> SplitLines (JoinLines ls) = ls.
Proof.
  induction ls as [|l ls IH]; [congruence|]. intros _ H.
  inversion H as [|? ? Hl Hls]; subst.
  destruct ls as [|l2 ls].
  - simpl. apply SplitLines_one, Hl.
  - change (JoinLines (l :: l2 :: ls)) with (l ++ String LF (JoinLines (l2 :: ls)))%string.
    rewrite SplitLines_app, (SplitLines_one _ Hl), IH; auto. discriminate.
Qed.

Lemma cleanLines_kept (lines : list string) :
  Forall hasNoLF lines -> Forall keptLine (cleanLines lines).
Proof.
  induction lines as [|l ls IH]; simpl; intros H; [constructor|].
  inversion H as [|? ? Hl Hls]; subst.
  destruct (isEmpty (TrimSpace l)) eqn:He; auto.
  destruct (isBoilerplate (TrimSpace l)) eqn:Hb; auto.
  destruct (HasPrefix (TrimSpace l) "On " && Contains (TrimSpace l) "wrote:")%bool eqn:Hq;
    [constructor|].
  constructor; auto. unfold keptLine. repeat split; auto.
  - apply TrimSpace_idem.
  - intros Heq. rewrite Heq in He. discriminate.
  - apply AllChars_TrimSpace, Hl.
Qed.

Lemma cleanLines_fixed (lines : list string) :
  Forall keptLine lines -> cleanLines lines = lines.
Proof.
  induction lines as [|l ls IH]; simpl; intros H; [reflexivity|].
  inversion H as [|? ? Hl Hls]; subst.
  destruct Hl as (Ht & Hne & Hb & Hq & _). rewrite Ht.
  destruct l as [|c l]; [congruence|]. cbn [isEmpty]. rewrite Hb.
  unfold isQuoteHeader in Hq. rewrite Hq, IH; auto.
Qed.

Lemma keptLine_hasNoLF (lines : list string) : Forall keptLine lines -> Forall hasNoLF lines.
Proof. apply Forall_impl. intros l H. apply H. Qed.

(** X1.  Cleaning a text that was cleaned changes nothing, and the lines
    that cleaning keeps are trimmed, not empty, and neither boilerplate nor
    the header of a quoted message. *)
Theorem cleanEmailContent_idempotent :
  forall content : string,
    AllChars isASCII content = true ->
    cleanEmailContent (cleanEmailContent content) = cleanEmailContent content
    /\ Forall keptLine (cleanLines (SplitLines content))
    /\ (cleanEmailContent content <> EmptyString ->
        SplitLines (cleanEmailContent content) = cleanLines (SplitLines content)).
Proof.
  intros content _.
  pose proof (cleanLines_kept _ (SplitLines_lines content)) as Hk.
  assert (Hs : cleanLines (SplitLines content) <> [] ->
               SplitLines (cleanEmailContent content) = cleanLines (SplitLines content)).
  { intros Hne. apply SplitLines_JoinLines; auto. apply keptLine_hasNoLF, Hk. }
  split; [|split; [exact Hk|]].
  - unfold cleanEmailContent at 1.
    destruct (cleanLines (SplitLines content)) as [|l ls] eqn:Hc.
    + unfold cleanEmailContent. rewrite Hc. reflexivity.
    + rewrite Hs by discriminate. rewrite cleanLines_fixed by exact Hk.
      unfold cleanEmailContent. rewrite Hc. reflexivity.
  - intros Hne. apply Hs. intros Hc. apply Hne. unfold cleanEmailContent. rewrite Hc.
    reflexivity.
Qed.

Lemma cleanLines_header (above below : list string) (header : string) :
  isQuoteHeader (TrimSpace header) = true ->
  cleanLines (above ++ header :: below) = cleanLines above.
Proof.
  intros Hq. induction above as [|l ls IH]; simpl.
  - unfold isQuoteHeader in Hq. pose proof Hq as Hq'.
    apply andb_true_iff in Hq'. destruct Hq' as [Hp _].
    destruct (TrimSpace header) as [|c r] eqn:Ht; [discriminate|].
    cbn [isEmpty].
    assert (Hb : isBoilerplate (String c r) = false).
    { simpl in Hp. apply andb_true_iff in Hp. destruct Hp as [Hc _].
      apply Ascii.eqb_eq in Hc. subst c. destruct r as [|c1 r]; reflexivity. }
    rewrite Hb, Hq. reflexivity.
  - rewrite IH. reflexivity.
Qed.

(** X2.  From the header of a quoted message on, a line that starts with
    [On ] and holds [wrote:], cleaning drops every line. *)
Theorem cleanEmailContent_drops_quoted_thread :
  forall above header below : string,
    AllChars isASCII (above ++ String LF (header ++ String LF below)) = true ->
    hasNoLF header ->
    isQuoteHeader (TrimSpace header) = true ->
    cleanEmailContent (above ++ String LF (header ++ String LF below))
    = cleanEmailContent above
    /\ cleanEmailContent (header ++ String LF below) = EmptyString.
Proof.
  intros above header below _ Hl Hq. unfold cleanEmailContent.
  rewrite !SplitLines_app, (SplitLines_one _ Hl). simpl app.
  rewrite cleanLines_header by exact Hq.
  pose proof (cleanLines_header [] (SplitLines below) header Hq) as H0.
  change ([] ++ header :: SplitLines below) with (header :: SplitLines below) in H0.
  rewrite H0. split; reflexivity.
Qed.

End CleaningFacts.

(** ** Parsing a reply *)

Section ParsingFacts.
Variable E : Env.
Import GoStrings Regexp Parser.

Lemma tag_needs_bracket (pat : pattern) (s : string) :
  In pat tagPatterns ->
  match s with String c _ => Ascii.eqb c "<" = false | EmptyString => True end ->
  matchHere pat s = None.
Proof.
  intros Hp Hs. destruct s as [|c s].
  - destruct Hp as [<-|[<-|[<-|[]]]]; reflexivity.
  - destruct Hp as [<-|[<-|[<-|[]]]]; cbn; rewrite Hs; reflexivity.
Qed.

Lemma findAllFrom_no_bracket (pat : pattern) (s : string) :
  In pat tagPatterns -> AllChars (notChar "<") s = true -> findAllFrom pat O s = [].
Proof.
  intros Hp. induction s as [|c s IH]; intros H; [reflexivity|].
  cbn [AllChars] in H. apply andb_true_iff in H. destruct H as [Hc Hs].
  unfold notChar in Hc. apply negb_true_iff in Hc.
  cbn [findAllFrom]. rewrite (tag_needs_bracket pat (String c s) Hp Hc). auto.
Qed.

Lemma removeAllFrom_no_bracket (pat : pattern) (s : string) :
  In pat tagPatterns -> AllChars (notChar "<") s = true -> removeAllFrom pat O s = s.
Proof.
  intros Hp. induction s as [|c s IH]; intros H; [reflexivity|].
  cbn [AllChars] in H. apply andb_true_iff in H. destruct H as [Hc Hs].
  unfold notChar in Hc. apply negb_true_iff in Hc.
  cbn [removeAllFrom]. rewrite (tag_needs_bracket pat (String c s) Hp Hc), IH; auto.
Qed.

Lemma TrimRight_app_fixed (a x : string) :
  TrimRight x = x -> x <> EmptyString -> TrimRight (a ++ x) = (a ++ x)%string.
Proof.
  intros Hx Hne. induction a as [|c a IH]; simpl; [exact Hx|].
  rewrite IH. destruct (a ++ x)%string eqn:Hax.
  - destruct a; simpl in Hax; [contradiction|discriminate].
  - rewrite andb_false_r. reflexivity.
Qed.

Lemma TrimRight_of_trimmed (l : string) : TrimSpace l = l -> TrimRight l = l.
Proof.
  intros Ht. pose proof (TrimSpace_head l) as Hh. rewrite Ht in Hh.
  unfold TrimSpace in Ht. rewrite (TrimLeft_fixed _ Hh) in Ht. exact Ht.
Qed.

Lemma JoinLines_kept_nonempty (l : string) (ls : list string) :
  keptLine l -> JoinLines (l :: ls) <> EmptyString.
Proof.
  intros (_ & Hne & _). destruct l as [|c l]; [congruence|].
  destruct ls; simpl; discriminate.
Qed.

Lemma TrimRight_JoinLines (ls : list string) :
  Forall keptLine ls -> TrimRight (JoinLines ls) = JoinLines ls.
Proof.
  induction ls as [|l ls IH]; intros H; [reflexivity|].
  inversion H as [|? ? Hl Hls]; subst.
  destruct ls as [|l2 ls].
  - simpl. apply TrimRight_of_trimmed, Hl.
  - change (JoinLines (l :: l2 :: ls)) with (l ++ String LF (JoinLines (l2 :: ls)))%string.
    apply TrimRight_app_fixed; [|discriminate].
    cbn [TrimRight]. rewrite (IH Hls).
    inversion Hls as [|? ? Hl2 _]; subst.
    pose proof (JoinLines_kept_nonempty l2 ls Hl2) as Hne.
    destruct (JoinLines (l2 :: ls)); [congruence|].
    rewrite andb_false_r. reflexivity.
Qed.

Lemma TrimSpace_JoinLines (ls : list string) :
  Forall keptLine ls -> TrimSpace (JoinLines ls) = JoinLines ls.
Proof.
  intros H. unfold TrimSpace. rewrite TrimLeft_fixed; [apply TrimRight_JoinLines, H|].
  destruct ls as [|l ls]; [exact I|].
  inversion H as [|? ? Hl _]; subst.
  pose proof (TrimSpace_head l) as Hh. destruct Hl as (Ht & Hne & _). rewrite Ht in Hh.
  destruct l as [|c l]; [congruence|].
  destruct ls; simpl; exact Hh.
Qed.

Lemma TrimSpace_cleanEmailContent (content : string) :
  TrimSpace (cleanEmailContent content) = cleanEmailContent content.
Proof.
  apply TrimSpace_JoinLines, cleanLines_kept, SplitLines_lines.
Qed.

Lemma AllChars_SplitLines (p : ascii -> bool) (s : string) :
  AllChars p s = true -> Forall (fun l => AllChars p l = true) (SplitLines s).
Proof.
  induction s as [|c s IH]; simpl; intros H.
  - constructor; [reflexivity|constructor].
  - apply andb_true_iff in H. destruct H as [Hc Hs]. specialize (IH Hs).
    destruct (Ascii.eqb c LF).
    + constructor; [reflexivity|exact IH].
    + destruct (SplitLines s) as [|l ls].
      * constructor; [|constructor]. simpl. rewrite Hc. reflexivity.
      * inversion IH as [|? ? Hl Hls]; subst. constructor; auto.
        simpl. rewrite Hc. exact Hl.
Qed.

Lemma AllChars_cleanLines (p : ascii -> bool) (lines : list string) :
  Forall (fun l => AllChars p l = true) lines ->
  Forall (fun l => AllChars p l = true) (cleanLines lines).
Proof.
  induction lines as [|l ls IH]; simpl; intros H; [constructor|].
  inversion H as [|? ? Hl Hls]; subst.
  destruct (isEmpty (TrimSpace l)); auto.
  destruct (isBoilerplate (TrimSpace l)); auto.
  destruct (HasPrefix (TrimSpace l) "On " && Contains (TrimSpace l) "wrote:")%bool;
    [constructor|].
  constructor; auto. apply AllChars_TrimSpace, Hl.
Qed.

Lemma AllChars_JoinLines (p : ascii -> bool) (lines : list string) :
  p LF = true ->
  Forall (fun l => AllChars p l = true) lines -> AllChars p (JoinLines lines) = true.
Proof.
  intros HLF. induction lines as [|l ls IH]; intros H; [reflexivity|].
  inversion H as [|? ? Hl Hls]; subst.
  destruct ls as [|l2 ls]; [exact Hl|].
  change (JoinLines (l :: l2 :: ls)) with (l ++ String LF (JoinLines (l2 :: ls)))%string.
  rewrite AllChars_app, Hl. cbn [AllChars]. rewrite HLF, (IH Hls). reflexivity.
Qed.

Lemma AllChars_cleanEmailContent (p : ascii -> bool) (s : string) :
  p LF = true -> AllChars p s = true -> AllChars p (cleanEmailContent s) = true.
Proof.
  intros HLF H. apply AllChars_JoinLines; auto.
  apply AllChars_cleanLines, AllChars_SplitLines, H.
Qed.

Lemma ParseEmailReply_plain (raw : string) :
  AllChars (notChar "<") (cleanEmailContent (TrimSpace raw)) = true ->
  cleanEmailContent (TrimSpace raw) <> EmptyString ->
  ParseEmailReply raw =
  mkParsedReply (cleanEmailContent (TrimSpace raw))
    [mkCommand CommandTypeEntry (cleanEmailContent (TrimSpace raw)) None] None true None.
Proof.
  intros Hb Hne. unfold ParseEmailReply, FindAllStringSubmatch, leftover, RemoveAll.
  assert (H1 : In pauseRegex tagPatterns) by (left; reflexivity).
  assert (H2 : In Parser.projectRegex tagPatterns) by (right; left; reflexivity).
  assert (H3 : In entryRegex tagPatterns) by (right; right; left; reflexivity).
  rewrite (findAllFrom_no_bracket _ _ H1 Hb), (findAllFrom_no_bracket _ _ H2 Hb),
    (findAllFrom_no_bracket _ _ H3 Hb), (removeAllFrom_no_bracket _ _ H1 Hb),
    (removeAllFrom_no_bracket _ _ H2 Hb), (removeAllFrom_no_bracket _ _ H3 Hb),
    TrimSpace_cleanEmailContent.
  cbn [pauseCommands projectCommands entryCommands].
  destruct (cleanEmailContent (TrimSpace raw)); [congruence|reflexivity].
Qed.

(** X3.  A reply that holds no [<] and whose cleaned text is not empty
    parses to one entry command, whose value is the cleaned text.  Sent by
    a verified account, it is stored as the entry of the current UTC day,
    with no project tag. *)
Theorem plain_reply_is_saved_as_entry :
  forall (raw sender subject : string) (user : User.t) (w : World),
    AllChars isASCII raw = true ->
    AllChars (notChar "<") raw = true ->
    cleanEmailContent (TrimSpace raw) <> EmptyString ->
    dbFault E (db_calls w) = None ->
    dbFault E (S (db_calls w)) = None ->
    find (fun u => String.eqb (User.Email u) sender) (users w) = Some user ->
    User.IsVerified user = true ->
    let text := cleanEmailContent (TrimSpace raw) in
    Commands (ParseEmailReply raw) = [mkCommand CommandTypeEntry text None]
    /\ IsValidated (ParseEmailReply raw) = true
    /\ Core.HandleEmailReply E sender subject raw w =
       (Ok tt,
        Core.upsertEntry (User.ID user) (GoTime.utcDate (now w)) text None
          (set_db_calls (S (S (db_calls w))) w))
    /\ exists e,
         In e (entries (snd (Core.HandleEmailReply E sender subject raw w)))
         /\ Entry.UserID e = User.ID user
         /\ Entry.EntryDate e = GoTime.utcDate (now w)
         /\ Entry.RawContent e = text
         /\ Entry.ProjectTag e = None.
Proof.
  intros raw sender subject user w _ Hraw Hne HD HD1 HF HV. cbv zeta.
  assert (Hb : AllChars (notChar "<") (cleanEmailContent (TrimSpace raw)) = true).
  { apply AllChars_cleanEmailContent; [reflexivity|]. apply AllChars_TrimSpace, Hraw. }
  pose proof (ParseEmailReply_plain raw Hb Hne) as HP.
  assert (HH : Core.HandleEmailReply E sender subject raw w =
               (Ok tt,
                Core.upsertEntry (User.ID user) (GoTime.utcDate (now w))
                  (cleanEmailContent (TrimSpace raw)) None
                  (set_db_calls (S (S (db_calls w))) w))).
  { rewrite (HandleEmailReply_verified E sender subject raw user w HD HF HV).
    cbv zeta. rewrite HP. cbn [IsValidated negb Commands Core.applyCommands].
    unfold bind. cbn [Core.applyCommand Type_ Value ProjectTag].
    rewrite saveEntry_run. cbn [db_calls set_db_calls]. rewrite HD1. reflexivity. }
  rewrite HH, HP. repeat split; try reflexivity.
  cbn [snd]. rewrite entries_upsertEntry.
  destruct (existsb (Core.sameKey (User.ID user) (GoTime.utcDate (now w)))
              (entries (set_db_calls (S (S (db_calls w))) w))) eqn:Hex.
  - apply existsb_exists in Hex. destruct Hex as (e0 & Hin & Hk).
    eexists. split.
    + apply in_map_iff. exists e0. split; [|exact Hin]. rewrite Hk. reflexivity.
    + unfold Core.sameKey in Hk. apply andb_true_iff in Hk. destruct Hk as [Hu Hd].
      apply Z.eqb_eq in Hu, Hd. simpl. auto.
  - eexists. split; [apply in_or_app; right; left; reflexivity|]. simpl. auto.
Qed.

(** *** Commands *)

Lemma pauseCommands_durations (matches : list (list string)) (acc : list Command) :
  (forall cmd, In cmd acc -> Type_ cmd = CommandTypePause /\
     exists d, Duration cmd = Some d /\ parsePauseDuration (Value cmd) = Ok d) ->
  forall cmd, In cmd (fst (pauseCommands matches acc)) ->
    Type_ cmd = CommandTypePause /\
    exists d, Duration cmd = Some d /\ parsePauseDuration (Value cmd) = Ok d.
Proof.
  revert acc. induction matches as [|m ms IH]; intros acc Hacc cmd; simpl; auto.
  destruct m as [|m1 m]; [apply IH, Hacc|].
  destruct (parsePauseDuration m1) as [d|e] eqn:Hd; simpl; auto.
  apply IH. intros c Hc. apply in_app_or in Hc. destruct Hc as [Hc|[<-|[]]]; auto.
  simpl. split; auto. exists d. auto.
Qed.

Lemma projectCommands_types (matches : list (list string)) (acc : list Command)
  (tag : option string) (cmd : Command) :
  In cmd (fst (projectCommands matches acc tag)) ->
  In cmd acc \/ Type_ cmd = CommandTypeProject.
Proof.
  revert acc tag. induction matches as [|m ms IH]; intros acc tag; simpl; auto.
  destruct m as [|m1 m]; [apply IH|].
  intros H. apply IH in H. destruct H as [H|H]; auto.
  apply in_app_or in H. destruct H as [H|[<-|[]]]; auto.
Qed.

Lemma entryCommands_types (matches : list (list string)) (acc : list Command)
  (cmd : Command) :
  In cmd (entryCommands matches acc) ->
  In cmd acc \/ (Type_ cmd = CommandTypeEntry /\ Duration cmd = None
                 /\ exists m1 m, In (m1 :: m) matches /\ Value cmd = TrimSpace m1).
Proof.
  revert acc. induction matches as [|m ms IH]; intros acc; simpl; auto.
  destruct m as [|m1 m].
  - intros H. apply IH in H. destruct H as [H|(Ht & Hd & a & b & Hin & Hv)]; auto.
    right. repeat split; auto. exists a, b. auto.
  - intros H. apply IH in H. destruct H as [H|(Ht & Hd & a & b & Hin & Hv)].
    + apply in_app_or in H. destruct H as [H|[<-|[]]]; auto.
      right. simpl. repeat split; auto. exists m1, m. auto.
    + right. repeat split; auto. exists a, b. auto.
Qed.

Lemma ParseEmailReply_pauses (raw : string) (cmd : Command) :
  In cmd (Commands (ParseEmailReply raw)) -> Type_ cmd = CommandTypePause ->
  exists d, Duration cmd = Some d /\ parsePauseDuration (Value cmd) = Ok d.
Proof.
  unfold ParseEmailReply.
  set (c := cleanEmailContent (TrimSpace raw)).
  pose proof (pauseCommands_durations (FindAllStringSubmatch pauseRegex c) []) as HP.
  destruct (pauseCommands (FindAllStringSubmatch pauseRegex c) []) as [cmds [e|]].
  - simpl. intros Hin _. apply HP in Hin; [tauto|]. intros ? [].
  - simpl in HP.
    destruct (projectCommands (FindAllStringSubmatch Parser.projectRegex c) cmds None)
      as [cmds1 tag] eqn:HJ.
    assert (Hall : forall x,
               In x (entryCommands (FindAllStringSubmatch entryRegex c) cmds1) ->
               Type_ x = CommandTypePause ->
               exists d, Duration x = Some d /\ parsePauseDuration (Value x) = Ok d).
    { intros x Hx Ht. apply entryCommands_types in Hx.
      destruct Hx as [Hx|(Hx & _)]; [|congruence].
      pose proof (projectCommands_types (FindAllStringSubmatch Parser.projectRegex c)
                    cmds None x) as HJ'.
      rewrite HJ in HJ'. destruct (HJ' Hx) as [Hc|Hc]; [|congruence].
      apply HP in Hc; [tauto|]. intros ? []. }
    set (cmds2 := entryCommands (FindAllStringSubmatch entryRegex c) cmds1) in *.
    intros Hin Ht.
    assert (Hin' : In cmd cmds2 \/ Type_ cmd = CommandTypeEntry).
    { destruct (negb (isEmpty (leftover c)) && (List.length cmds2 =? 0)%nat)%bool;
        destruct (isEmpty (leftover c) && _)%bool; simpl in Hin; auto;
        apply in_app_or in Hin; destruct Hin as [Hin|[<-|[]]]; auto. }
    destruct Hin' as [Hin'|Hin']; [auto|congruence].
Qed.

(** X4.  Every pause command of a parsed reply carries a duration, the one
    [parsePauseDuration] gives for its value, so that applying the command
    never reads a nil duration: it is the call of [pauseUser] with that
    duration. *)
Theorem pause_commands_carry_durations :
  forall (raw : string) (cmd : Command),
    In cmd (Commands (ParseEmailReply raw)) ->
    Type_ cmd = CommandTypePause ->
    exists d,
      Duration cmd = Some d
      /\ parsePauseDuration (Value cmd) = Ok d
      /\ forall (user : User.t) (w : World),
           Core.applyCommand E user (ParseEmailReply raw) cmd w
           = Core.pauseUser E (User.ID user) d w.
Proof.
  intros raw cmd Hin Ht. destruct (ParseEmailReply_pauses raw cmd Hin Ht) as (d & Hd & Hp).
  exists d. repeat split; auto. intros user w. unfold Core.applyCommand.
  rewrite Ht, Hd. reflexivity.
Qed.

(** *** Text beside a tag *)

Lemma matchHere_tag_caps (pat : pattern) (s rest : string) (caps : list string) :
  In pat tagPatterns -> matchHere pat s = Some (caps, rest) -> exists m, caps = [m].
Proof.
  intros Hp H.
  assert (Hshape : exists a b c, pat = [raw a; grp b; raw c]).
  { destruct Hp as [<-|[<-|[<-|[]]]]; do 3 eexists; reflexivity. }
  destruct Hshape as (a & b & c & ->). unfold raw, grp in H.
  apply matchHere_cons_inv in H. destruct H as (m1 & r1 & caps1 & _ & H & ->).
  apply matchHere_cons_inv in H. destruct H as (m2 & r2 & caps2 & _ & H & ->).
  apply matchHere_cons_inv in H. destruct H as (m3 & r3 & caps3 & _ & H & ->).
  simpl in H. inversion H; subst. exists m2. reflexivity.
Qed.

Lemma findAllFrom_In (pat : pattern) (s : string) (k : nat) (caps : list string) :
  In caps (findAllFrom pat k s) -> exists t rest, matchHere pat t = Some (caps, rest).
Proof.
  revert k. induction s as [|c s IH]; intros k; cbn [findAllFrom]; [intros []|].
  destruct k as [|k]; [|apply IH].
  destruct (matchHere pat (String c s)) as [[caps0 rest]|] eqn:Hm; [|apply IH].
  intros [<-|H]; [eauto|]. eapply IH, H.
Qed.

Lemma FindAllStringSubmatch_tag (pat : pattern) (s : string) :
  In pat tagPatterns ->
  Forall (fun caps => exists m, caps = [m]) (FindAllStringSubmatch pat s).
Proof.
  intros Hp. apply Forall_forall. intros caps Hin.
  apply findAllFrom_In in Hin. destruct Hin as (t & rest & Hm).
  eapply matchHere_tag_caps; eauto.
Qed.

Lemma pauseCommands_length (matches : list (list string)) (acc cmds : list Command) :
  Forall (fun caps => exists m, caps = [m]) matches ->
  pauseCommands matches acc = (cmds, None) ->
  List.length cmds = (List.length acc + List.length matches)%nat.
Proof.
  revert acc. induction matches as [|m ms IH]; intros acc HF; simpl.
  - intros H. inversion H; subst. lia.
  - inversion HF as [|? ? (m1 & ->) HF']; subst.
    destruct (parsePauseDuration m1); [|discriminate].
    intros H. apply IH in H; auto. rewrite H, length_app. simpl. lia.
Qed.

Lemma projectCommands_length (matches : list (list string)) (acc : list Command)
  (tag : option string) :
  Forall (fun caps => exists m, caps = [m]) matches ->
  List.length (fst (projectCommands matches acc tag))
  = (List.length acc + List.length matches)%nat.
Proof.
  revert acc tag. induction matches as [|m ms IH]; intros acc tag HF; simpl; [lia|].
  inversion HF as [|? ? (m1 & ->) HF']; subst.
  rewrite IH by auto. rewrite length_app. simpl. lia.
Qed.

Lemma pauseCommands_error_types (matches : list (list string)) (acc : list Command)
  (cmd : Command) :
  In cmd (fst (pauseCommands matches acc)) -> In cmd acc \/ Type_ cmd = CommandTypePause.
Proof.
  revert acc. induction matches as [|m ms IH]; intros acc; simpl; auto.
  destruct m as [|m1 m]; [apply IH|].
  destruct (parsePauseDuration m1); simpl; auto.
  intros H. apply IH in H. destruct H as [H|H]; auto.
  apply in_app_or in H. destruct H as [H|[<-|[]]]; auto.
Qed.

Lemma ParseEmailReply_tags_only (raw : string) :
  FindAllStringSubmatch entryRegex (cleanEmailContent (TrimSpace raw)) = [] ->
  FindAllStringSubmatch pauseRegex (cleanEmailContent (TrimSpace raw)) <> []
  \/ FindAllStringSubmatch Parser.projectRegex (cleanEmailContent (TrimSpace raw)) <> [] ->
  forall cmd, In cmd (Commands (ParseEmailReply raw)) -> Type_ cmd <> CommandTypeEntry.
Proof.
  intros HN Htag cmd. unfold ParseEmailReply.
  set (c := cleanEmailContent (TrimSpace raw)) in *. rewrite HN.
  assert (HPF := FindAllStringSubmatch_tag pauseRegex c (or_introl eq_refl)).
  assert (HJF := FindAllStringSubmatch_tag Parser.projectRegex c
                   (or_intror (or_introl eq_refl))).
  pose proof (pauseCommands_error_types (FindAllStringSubmatch pauseRegex c) [] cmd) as HPt.
  pose proof (pauseCommands_length (FindAllStringSubmatch pauseRegex c) []) as HPl.
  destruct (pauseCommands (FindAllStringSubmatch pauseRegex c) []) as [cmds [e|]].
  - simpl. intros Hin. destruct (HPt Hin) as [[]|Ht]. congruence.
  - specialize (HPl cmds HPF eq_refl). simpl in HPl, HPt.
    pose proof (projectCommands_types (FindAllStringSubmatch Parser.projectRegex c)
                  cmds None cmd) as HJt.
    pose proof (projectCommands_length (FindAllStringSubmatch Parser.projectRegex c)
                  cmds None HJF) as HJl.
    destruct (projectCommands (FindAllStringSubmatch Parser.projectRegex c) cmds None)
      as [cmds1 tag].
    simpl in HJt, HJl. cbn [entryCommands].
    assert (Hlen : (List.length cmds1 =? 0)%nat = false).
    { apply Nat.eqb_neq. rewrite HJl, HPl.
      destruct Htag as [Htag|Htag];
        [destruct (FindAllStringSubmatch pauseRegex c)
        |destruct (FindAllStringSubmatch Parser.projectRegex c)];
        try congruence; simpl; lia. }
    cbv zeta. rewrite Hlen, andb_false_r. cbv iota. rewrite Hlen, andb_false_r.
    cbn [Commands]. intros Hin.
    destruct (HJt Hin) as [Hc|Ht]; [|congruence].
    destruct (HPt Hc) as [[]|Ht]. congruence.
Qed.

Lemma applyCommand_entries (user : User.t) (parsed : ParsedReply) (cmd : Command)
  (w : World) :
  Type_ cmd <> CommandTypeEntry ->
  entries (snd (Core.applyCommand E user parsed cmd w)) = entries w.
Proof.
  intros Ht. unfold Core.applyCommand.
  destruct (Type_ cmd); [| |congruence].
  - destruct (Duration cmd); [|reflexivity].
    unfold Core.pauseUser, Database.ExecContext, Database.call.
    destruct (dbFault E (db_calls w)); reflexivity.
  - unfold Core.updateUserProject, Database.ExecContext, Database.call.
    destruct (dbFault E (db_calls w)); reflexivity.
Qed.

Lemma applyCommands_entries (user : User.t) (parsed : ParsedReply) (cmds : list Command)
  (w : World) :
  (forall cmd, In cmd cmds -> Type_ cmd <> CommandTypeEntry) ->
  entries (snd (Core.applyCommands E user parsed cmds w)) = entries w.
Proof.
  revert w. induction cmds as [|cmd cmds IH]; intros w H; [reflexivity|].
  cbn [Core.applyCommands]. unfold bind.
  pose proof (applyCommand_entries user parsed cmd w (H cmd (or_introl eq_refl))) as H1.
  destruct (Core.applyCommand E user parsed cmd w) as [[u|e] w1]; simpl in H1; auto.
  rewrite IH; auto. intros c Hc. apply H. right. exact Hc.
Qed.

(** X5.  When a reply holds a pause or a project tag and no entry tag, the
    text outside the tags becomes no command: the parsed reply has no entry
    command, and handling it for a verified account leaves the journal
    entries as they are. *)
Theorem free_text_beside_tags_is_not_stored :
  forall raw : string,
    AllChars isASCII raw = true ->
    FindAllStringSubmatch entryRegex (cleanEmailContent (TrimSpace raw)) = [] ->
    FindAllStringSubmatch pauseRegex (cleanEmailContent (TrimSpace raw)) <> []
    \/ FindAllStringSubmatch Parser.projectRegex (cleanEmailContent (TrimSpace raw)) <> [] ->
    (forall cmd, In cmd (Commands (ParseEmailReply raw)) -> Type_ cmd <> CommandTypeEntry)
    /\ forall (w : World) (sender subject : string) (user : User.t),
         dbFault E (db_calls w) = None ->
         find (fun u => String.eqb (User.Email u) sender) (users w) = Some user ->
         User.IsVerified user = true ->
         entries (snd (Core.HandleEmailReply E sender subject raw w)) = entries w.
Proof.
  intros raw _ HN Htag.
  pose proof (ParseEmailReply_tags_only raw HN Htag) as Hcmds.
  split; [exact Hcmds|]. intros w sender subject user HD HF HV.
  rewrite (HandleEmailReply_verified E sender subject raw user w HD HF HV). cbv zeta.
  destruct (negb (IsValidated (ParseEmailReply raw))).
  - destruct (SendClarificationRequest_frame E (User.ID user) (User.Email user) raw
                (set_db_calls (S (db_calls w)) w)) as (_ & He & _).
    exact He.
  - pose proof (applyCommands_entries user (ParseEmailReply raw)
                  (Commands (ParseEmailReply raw)) (set_db_calls (S (db_calls w)) w) Hcmds)
      as Ha.
    destruct (Core.applyCommands E user (ParseEmailReply raw)
                (Commands (ParseEmailReply raw)) (set_db_calls (S (db_calls w)) w))
      as [[u|e] w1]; simpl in Ha; [exact Ha|].
    destruct (SendClarificationRequest_frame E (User.ID user) (User.Email user) raw w1)
      as (_ & He & _).
    rewrite He. exact Ha.
Qed.

End ParsingFacts.

(** ** Signing up *)

Section SignupFacts.
Variable E : Env.
Import GoStrings GoTime Parser.

Lemma digitChar_digit (d : Z) :
  0 <= d <= 9 -> isDigit (Email.digitChar d) = true /\ digitVal (Email.digitChar d) = d.
Proof.
  intros H.
  assert (Hd : d = 0 \/ d = 1 \/ d = 2 \/ d = 3 \/ d = 4 \/ d = 5 \/ d = 6 \/ d = 7
               \/ d = 8 \/ d = 9) by lia.
  repeat (destruct Hd as [->|Hd]; [vm_compute; split; reflexivity|]).
  subst d. vm_compute. split; reflexivity.
Qed.

Lemma digit_mod10 (x : Z) : 0 <= x mod 10 <= 9.
Proof. pose proof (Z.mod_pos_bound x 10). lia. Qed.

Lemma Sprintf06d_value (n : Z) :
  0 <= n < 1000000 ->
  String.length (Email.Sprintf06d n) = 6%nat
  /\ AllChars isDigit (Email.Sprintf06d n) = true
  /\ digitsValue 0 (Email.Sprintf06d n) = n.
Proof.
  intros Hn. unfold Email.Sprintf06d.
  assert (H5 := digitChar_digit (n / 100000 mod 10) (digit_mod10 _)).
  assert (H4 := digitChar_digit (n / 10000 mod 10) (digit_mod10 _)).
  assert (H3 := digitChar_digit (n / 1000 mod 10) (digit_mod10 _)).
  assert (H2 := digitChar_digit (n / 100 mod 10) (digit_mod10 _)).
  assert (H1 := digitChar_digit (n / 10 mod 10) (digit_mod10 _)).
  assert (H0 := digitChar_digit (n mod 10) (digit_mod10 _)).
  destruct H5 as [D5 V5], H4 as [D4 V4], H3 as [D3 V3], H2 as [D2 V2], H1 as [D1 V1],
    H0 as [D0 V0].
  split; [reflexivity|]. split.
  - cbn [AllChars]. rewrite D5, D4, D3, D2, D1, D0. reflexivity.
  - cbn [digitsValue]. rewrite V5, V4, V3, V2, V1, V0.
    clear - Hn. Z.div_mod_to_equations. lia.
Qed.

Lemma GenerateVerificationCode_run (w : World) :
  Email.GenerateVerificationCode E w =
  (Ok (Email.Sprintf06d (randIntn E (rand_calls w) 1000000 mod 1000000)),
   set_rand_calls (S (rand_calls w)) w).
Proof. reflexivity. Qed.

(** X6.  A verification code is made of exactly six decimal digits, padded
    with zeros on the left; read back as a number it is the draw of the
    random generator, which is the only state the call changes. *)
Theorem GenerateVerificationCode_six_digits :
  forall w : World,
    exists code : string,
      Email.GenerateVerificationCode E w = (Ok code, set_rand_calls (S (rand_calls w)) w)
      /\ String.length code = 6%nat
      /\ AllChars isDigit code = true
      /\ Atoi code = Some (randIntn E (rand_calls w) 1000000 mod 1000000).
Proof.
  intros w. rewrite GenerateVerificationCode_run.
  set (n := randIntn E (rand_calls w) 1000000 mod 1000000).
  assert (Hn : 0 <= n < 1000000) by (apply Z.mod_pos_bound; lia).
  destruct (Sprintf06d_value n Hn) as (Hl & Hd & Hv).
  exists (Email.Sprintf06d n). repeat split; auto.
  rewrite Atoi_digits; auto.
  - rewrite Hv. reflexivity.
  - intros Heq. rewrite Heq in Hl. discriminate.
  - rewrite Hv. unfold MaxInt64. lia.
Qed.

(** *** Signing up *)

Lemma find_none_existsb {A : Type} (p : A -> bool) (l : list A) :
  find p l = None -> existsb p l = false.
Proof.
  induction l as [|x l IH]; simpl; auto.
  destruct (p x); [discriminate|]. exact IH.
Qed.

Lemma find_map_same {A : Type} (p : A -> bool) (f : A -> A) (l : list A) :
  (forall x, p (f x) = p x) -> find p (map f l) = option_map f (find p l).
Proof.
  intros Hp. induction l as [|x l IH]; simpl; auto.
  rewrite Hp. destruct (p x); auto.
Qed.

Lemma SendWelcomeEmail_run (rcpt code : string) (w : World) :
  Email.SendWelcomeEmail E rcpt code w =
  match Email.RenderWelcomeEmail E code with
  | Err e => (Err ("failed to render welcome email: " ++ e)%string, w)
  | Ok (subject, body) =>
      Email.QueueEmail E None rcpt Models.EmailTypeVerification subject body None w
  end.
Proof.
  unfold Email.SendWelcomeEmail.
  destruct (Email.RenderWelcomeEmail E code) as [[subject body]|e]; reflexivity.
Qed.

(** X9.  Signing up the address of a verified account fails with the
    message [user already exists and is verified]; no code is drawn and
    nothing is written or queued. *)
Theorem signup_of_verified_account_is_refused :
  forall (w : World) (emailAddr : string) (user : User.t),
    dbFault E (db_calls w) = None ->
    find (fun u => String.eqb (User.Email u) emailAddr) (users w) = Some user ->
    User.IsVerified user = true ->
    Core.HandleSignupRequest E emailAddr w
    = (Err "user already exists and is verified", set_db_calls (S (db_calls w)) w).
Proof.
  intros w emailAddr user HD HF HV.
  unfold Core.HandleSignupRequest, bind, wrapErr.
  rewrite GetUserByEmail_run, HD, HF, HV. reflexivity.
Qed.

(** X7.  Signing up an address that has no account adds one account:
    unverified, named [New User], in zone [UTC], prompted at 16:00, with a
    fresh code.  The welcome message is queued for the address with no
    account id; when it cannot be rendered the account stays, with a code
    that was never sent. *)
Theorem signup_creates_pending_account :
  forall (w : World) (emailAddr : string),
    dbFault E (db_calls w) = None ->
    dbFault E (S (db_calls w)) = None ->
    find (fun u => String.eqb (User.Email u) emailAddr) (users w) = None ->
    let code := Email.Sprintf06d (randIntn E (rand_calls w) 1000000 mod 1000000) in
    let account :=
      User.mk (users_seq w + 1) emailAddr "New User" "UTC" (mkClock 0 16 0) (Some code)
        false false None None (now w) (now w) in
    let out := Core.HandleSignupRequest E emailAddr w in
    users (snd out) = users w ++ [account]
    /\ entries (snd out) = entries w
    /\ (forall subject body,
          Email.RenderWelcomeEmail E code = Ok (subject, body) ->
          dbFault E (S (S (db_calls w))) = None ->
          fst out = Ok tt
          /\ email_logs (snd out) =
             email_logs w
             ++ [Email.newEmailLog (email_logs_seq w + 1) None emailAddr
                   Models.EmailTypeVerification subject body None (now w)])
    /\ (forall e,
          Email.RenderWelcomeEmail E code = Err e ->
          fst out = Err ("failed to render welcome email: " ++ e)%string
          /\ email_logs (snd out) = email_logs w).
Proof.
  intros w emailAddr HD HD1 HF. cbv zeta.
  assert (HH : Core.HandleSignupRequest E emailAddr w =
               Email.SendWelcomeEmail E emailAddr
                 (Email.Sprintf06d (randIntn E (rand_calls w) 1000000 mod 1000000))
                 (set_users_seq (users_seq w + 1)
                    (set_users
                       (users w
                        ++ [User.mk (users_seq w + 1) emailAddr "New User" "UTC"
                              (mkClock 0 16 0)
                              (Some (Email.Sprintf06d
                                       (randIntn E (rand_calls w) 1000000 mod 1000000)))
                              false false None None (now w) (now w)])
                       (set_db_calls (S (S (db_calls w)))
                          (set_rand_calls (S (rand_calls w)) w))))).
  { unfold Core.HandleSignupRequest, bind, wrapErr.
    rewrite GetUserByEmail_run, HD, HF. cbn iota beta.
    rewrite GenerateVerificationCode_run.
    unfold Core.createPendingUser, Database.call.
    cbn [db_calls set_rand_calls set_db_calls users]. rewrite HD1.
    rewrite (find_none_existsb _ _ HF). reflexivity. }
  rewrite HH, SendWelcomeEmail_run.
  destruct (Email.RenderWelcomeEmail E _) as [[subject body]|e] eqn:HR.
  - rewrite QueueEmail_run. cbn [db_calls set_users_seq set_users set_db_calls].
    destruct (dbFault E (S (S (db_calls w)))) eqn:HD2; cbn [fst snd];
      (split; [reflexivity|split; [reflexivity|split]]).
    + intros sj bd Heq Hn. discriminate.
    + intros e0 Heq. discriminate.
    + intros sj bd Heq _. inversion Heq; subst. split; reflexivity.
    + intros e0 Heq. discriminate.
  - cbn [fst snd]. split; [reflexivity|split; [reflexivity|split]].
    + intros sj bd Heq. discriminate.
    + intros e0 Heq. inversion Heq; subst. split; reflexivity.
Qed.

(** X8.  Signing up again an address whose account is not verified adds no
    account: the code of the account is replaced, its other columns are
    kept (but [updated_at]), and a welcome message with the new code is
    queued. *)
Theorem signup_again_replaces_code :
  forall (w : World) (emailAddr : string) (user : User.t),
    dbFault E (db_calls w) = None ->
    dbFault E (S (db_calls w)) = None ->
    find (fun u => String.eqb (User.Email u) emailAddr) (users w) = Some user ->
    User.IsVerified user = false ->
    let code := Email.Sprintf06d (randIntn E (rand_calls w) 1000000 mod 1000000) in
    let renew (u : User.t) :=
      User.mk (User.ID u) (User.Email u) (User.Name u) (User.Timezone u) (User.PromptTime u)
        (Some code) (User.IsVerified u) (User.IsPaused u) (User.PauseUntil u)
        (User.ProjectFocus u) (User.CreatedAt u) (now w) in
    let out := Core.HandleSignupRequest E emailAddr w in
    users (snd out)
    = map (fun u => if User.ID u =? User.ID user then renew u else u) (users w)
    /\ find (fun u => String.eqb (User.Email u) emailAddr) (users (snd out))
       = Some (renew user)
    /\ entries (snd out) = entries w
    /\ forall subject body,
         Email.RenderWelcomeEmail E code = Ok (subject, body) ->
         dbFault E (S (S (db_calls w))) = None ->
         fst out = Ok tt
         /\ email_logs (snd out) =
            email_logs w
            ++ [Email.newEmailLog (email_logs_seq w + 1) None emailAddr
                  Models.EmailTypeVerification subject body None (now w)].
Proof.
  intros w emailAddr user HD HD1 HF HV. cbv zeta.
  set (code := Email.Sprintf06d (randIntn E (rand_calls w) 1000000 mod 1000000)).
  set (renew := fun u : User.t =>
                  User.mk (User.ID u) (User.Email u) (User.Name u) (User.Timezone u)
                    (User.PromptTime u) (Some code) (User.IsVerified u) (User.IsPaused u)
                    (User.PauseUntil u) (User.ProjectFocus u) (User.CreatedAt u) (now w)).
  assert (HH : Core.HandleSignupRequest E emailAddr w =
               Email.SendWelcomeEmail E emailAddr code
                 (Core.updateUser (User.ID user) renew
                    (set_db_calls (S (S (db_calls w)))
                       (set_rand_calls (S (rand_calls w)) w)))).
  { unfold Core.HandleSignupRequest, bind, wrapErr.
    rewrite GetUserByEmail_run, HD, HF, HV. cbn iota beta.
    rewrite GenerateVerificationCode_run.
    unfold Core.updateUserVerificationCode, Database.ExecContext, Database.call.
    cbn [db_calls set_rand_calls set_db_calls]. rewrite HD1. reflexivity. }
  rewrite HH, SendWelcomeEmail_run.
  assert (Hfind : find (fun u => String.eqb (User.Email u) emailAddr)
                    (map (fun u => if User.ID u =? User.ID user then renew u else u)
                       (users w)) = Some (renew user)).
  { rewrite find_map_same, HF; [simpl; rewrite Z.eqb_refl; reflexivity|].
    intros x. destruct (User.ID x =? User.ID user); reflexivity. }
  destruct (Email.RenderWelcomeEmail E code) as [[subject body]|e] eqn:HR.
  - rewrite QueueEmail_run. cbn [db_calls Core.updateUser set_users set_db_calls].
    destruct (dbFault E (S (S (db_calls w)))) eqn:HD2; cbn [fst snd];
      (split; [reflexivity|split; [exact Hfind|split; [reflexivity|]]]).
    + intros sj bd Heq Hn. discriminate.
    + intros sj bd Heq _. inversion Heq; subst. split; reflexivity.
  - cbn [fst snd]. split; [reflexivity|split; [exact Hfind|split; [reflexivity|]]].
    intros sj bd Heq. discriminate.
Qed.

End SignupFacts.

(** ** Accounts *)

Section AccountFacts.
Variable E : Env.
Import GoStrings GoTime Parser.

Lemma ToLower_app (a b : string) : ToLower (a ++ b) = (ToLower a ++ ToLower b)%string.
Proof. induction a as [|c a IH]; simpl; [reflexivity|]. rewrite IH. reflexivity. Qed.

Lemma NeedsVerification_keyword (before written after word : string) :
  In word verificationPatterns -> ToLower written = word ->
  NeedsVerification (before ++ written ++ after) = true.
Proof.
  intros Hw Hl. unfold NeedsVerification. apply existsb_exists.
  exists word. split; [exact Hw|]. apply Contains_spec.
  exists (ToLower before), (ToLower after). rewrite !ToLower_app, Hl. reflexivity.
Qed.

(** X10.  A message that holds one of the sign-up keywords, in any letter
    case and anywhere in its text, needs verification; sent from an address
    that has no account, it is handled as a sign-up request for that
    address. *)
Theorem keyword_from_unknown_sender_starts_signup :
  forall (before written after word : string),
    AllChars isASCII (before ++ written ++ after) = true ->
    In word verificationPatterns ->
    ToLower written = word ->
    NeedsVerification (before ++ written ++ after) = true
    /\ forall (w : World) (sender subject : string),
         dbFault E (db_calls w) = None ->
         find (fun u => String.eqb (User.Email u) sender) (users w) = None ->
         Core.HandleEmailReply E sender subject (before ++ written ++ after) w
         = Core.HandleSignupRequest E sender (set_db_calls (S (db_calls w)) w).
Proof.
  intros before written after word _ Hw Hl.
  pose proof (NeedsVerification_keyword before written after word Hw Hl) as HN.
  split; [exact HN|]. intros w sender subject HD HF.
  unfold Core.HandleEmailReply, bind, wrapErr at 1.
  rewrite GetUserByEmail_run, HD, HF, HN. reflexivity.
Qed.

(** X11.  A message without a sign-up keyword from an address that has no
    account fails with [unknown sender, please sign up first]: no account
    is created, nothing is stored and no answer is queued. *)
Theorem unknown_sender_is_rejected :
  forall (w : World) (sender subject body : string),
    AllChars isASCII body = true ->
    dbFault E (db_calls w) = None ->
    find (fun u => String.eqb (User.Email u) sender) (users w) = None ->
    NeedsVerification body = false ->
    Core.HandleEmailReply E sender subject body w
    = (Err "unknown sender, please sign up first", set_db_calls (S (db_calls w)) w).
Proof.
  intros w sender subject body _ HD HF HN.
  unfold Core.HandleEmailReply, bind, wrapErr.
  rewrite GetUserByEmail_run, HD, HF, HN. reflexivity.
Qed.

(** X12.  A reply of an unverified account that holds its code and whose
    preferences parse verifies the account: its name, zone, prompt time and
    project focus become those of the reply, its code is cleared, and no
    message is queued in answer. *)
Theorem verification_reply_verifies_account :
  forall (w : World) (sender subject body code : string) (user : User.t)
         (prefs : Preferences.UserPreferences),
    AllChars isASCII body = true ->
    AllChars isASCII code = true ->
    dbFault E (db_calls w) = None ->
    dbFault E (S (db_calls w)) = None ->
    find (fun u => String.eqb (User.Email u) sender) (users w) = Some user ->
    User.IsVerified user = false ->
    User.VerificationCode user = Some code ->
    Core.contains body code = true ->
    Preferences.parseUserPreferences E body = Ok prefs ->
    let verified (u : User.t) :=
      User.mk (User.ID u) (User.Email u) (Preferences.Name prefs) (Preferences.Timezone prefs)
        (mkClock 0 (tHour (Preferences.PromptTime prefs))
           (tMinute (Preferences.PromptTime prefs)))
        None true (User.IsPaused u) (User.PauseUntil u) (Preferences.ProjectFocus prefs)
        (User.CreatedAt u) (now w) in
    let out := Core.HandleEmailReply E sender subject body w in
    fst out = Ok tt
    /\ users (snd out)
       = map (fun u => if User.ID u =? User.ID user then verified u else u) (users w)
    /\ find (fun u => String.eqb (User.Email u) sender) (users (snd out))
       = Some (verified user)
    /\ email_logs (snd out) = email_logs w
    /\ entries (snd out) = entries w.
Proof.
  intros w sender subject body code user prefs _ _ HD HD1 HF HV HC Hc HP. cbv zeta.
  assert (HH : Core.HandleEmailReply E sender subject body w =
               Core.verifyUser E (User.ID user) prefs (set_db_calls (S (db_calls w)) w)).
  { unfold Core.HandleEmailReply, bind, wrapErr.
    rewrite GetUserByEmail_run, HD, HF, HV. cbn [negb].
    unfold Core.handleVerificationReply. rewrite HC, Hc, HP. reflexivity. }
  rewrite HH. unfold Core.verifyUser, Database.ExecContext, Database.call.
  cbn [db_calls set_db_calls]. rewrite HD1.
  cbn [fst snd Core.updateUser users set_users set_db_calls now].
  repeat split; try reflexivity.
  rewrite find_map_same, HF; [simpl; rewrite Z.eqb_refl; reflexivity|].
  intros x. destruct (User.ID x =? User.ID user); reflexivity.
Qed.

(** *** Pauses *)

(** X13.  Pausing an account marks it paused until the current instant
    plus the duration.  The filter of the daily-prompt query then rejects
    the account at every instant up to that one and accepts it again at
    every later instant, on the same conditions as before the pause:
    nothing has to reset [is_paused]. *)
Theorem pause_expires_by_itself :
  forall (w : World) (user : User.t) (duration : Z),
    dbFault E (db_calls w) = None ->
    In user (users w) ->
    let w1 := snd (Core.pauseUser E (User.ID user) duration w) in
    exists paused : User.t,
      In paused (users w1)
      /\ User.ID paused = User.ID user
      /\ User.IsPaused paused = true
      /\ User.PauseUntil paused = Some (now w + duration)
      /\ forall at_ currentHour : Z,
           Core.promptFilter at_ currentHour paused
           = (User.IsVerified user && (now w + duration <? at_)
              && (tHour (User.PromptTime user) =? currentHour))%bool.
Proof.
  intros w user duration HD Hin. cbv zeta.
  unfold Core.pauseUser, Database.ExecContext, Database.call. rewrite HD.
  cbn [snd Core.updateUser users set_users set_db_calls now].
  eexists. split.
  - apply in_map_iff. exists user. split; [|exact Hin]. rewrite Z.eqb_refl. reflexivity.
  - cbn. repeat split; auto.
Qed.

(** *** Time zones *)

Lemma EqualFold_of_lower (s t : string) : ToLower s = ToLower t -> EqualFold s t = true.
Proof. intros H. unfold EqualFold. rewrite H. apply String.eqb_refl. Qed.

Lemma isValidTimezone_listed (tz valid : string) :
  In valid Preferences.validTimezones -> ToLower tz = ToLower valid ->
  Preferences.isValidTimezone E tz = true.
Proof.
  intros Hv Hl. unfold Preferences.isValidTimezone. apply orb_true_iff. left.
  apply existsb_exists. exists valid. split; [exact Hv|]. apply EqualFold_of_lower, Hl.
Qed.

(** X14.  A zone name that matches a listed name up to letter case is
    accepted as valid whatever the zone database holds.  When the database
    cannot load the name as written, the check of the daily-prompt loop
    rejects an account of that zone at every hour, and the job queues no
    prompt for it. *)
Theorem listed_timezone_may_never_be_prompted :
  forall (tz valid : string),
    In valid Preferences.validTimezones ->
    ToLower tz = ToLower valid ->
    LoadLocation E tz = None ->
    Preferences.isValidTimezone E tz = true
    /\ forall (w : World) (user : User.t),
         NoDup (map User.ID (users w)) ->
         In user (users w) ->
         User.Timezone user = tz ->
         (forall currentHour, Scheduler.shouldSendPrompt E user currentHour w = false)
         /\ forall m,
              In m (email_logs (snd (Scheduler.sendDailyPrompts E w))) ->
              In m (email_logs w) \/ EmailLog.UserID m <> Some (User.ID user).
Proof.
  intros tz valid Hv Hl Hloc. split; [eapply isValidTimezone_listed; eauto|].
  intros w user Hpk Hin Htz. split.
  - intros h. unfold Scheduler.shouldSendPrompt. rewrite Htz, Hloc. reflexivity.
  - intros m Hm. apply sendDailyPrompts_rule in Hm.
    destruct Hm as [Hm|(r & loc & Hr & Hid & _ & _ & Hl' & _)]; auto.
    right. intros Heq. rewrite Hid in Heq. inversion Heq as [Hids].
    assert (r = user) by (eapply NoDup_map_inj_on; eauto). subst r.
    rewrite Htz, Hloc in Hl'. discriminate.
Qed.

(** *** Prompt times *)

Lemma parseChunks_range (layout : list chunk) (st st' : parseState) (value : string) :
  parseChunks layout st value = Some st' ->
  0 <= psHour st <= 23 /\ 0 <= psMin st <= 59 ->
  0 <= psHour st' <= 23 /\ 0 <= psMin st' <= 59.
Proof.
  revert st value. induction layout as [|c layout IH]; intros st value; cbn [parseChunks].
  - destruct (isEmpty value); [|discriminate]. intros H; inversion H; subst. auto.
  - destruct c.
    + destruct (getnum value false) as [[h v]|]; [|discriminate].
      destruct ((h <? 0) || (24 <=? h))%bool eqn:Hb; [discriminate|].
      apply orb_false_iff in Hb. destruct Hb as [Hb1 Hb2].
      apply Z.ltb_ge in Hb1. apply Z.leb_gt in Hb2.
      intros H Hr. apply IH in H; auto. cbn. lia.
    + destruct (getnum value false) as [[h v]|]; [|discriminate].
      destruct ((h <? 0) || (12 <? h))%bool eqn:Hb; [discriminate|].
      apply orb_false_iff in Hb. destruct Hb as [Hb1 Hb2].
      apply Z.ltb_ge in Hb1, Hb2.
      intros H Hr. apply IH in H; auto. cbn. lia.
    + destruct (getnum value true) as [[m v]|]; [|discriminate].
      destruct ((m <? 0) || (60 <=? m))%bool eqn:Hb; [discriminate|].
      apply orb_false_iff in Hb. destruct Hb as [Hb1 Hb2].
      apply Z.ltb_ge in Hb1. apply Z.leb_gt in Hb2.
      intros H Hr. apply IH in H; auto. cbn. lia.
    + destruct value as [|c1 [|c2 value]]; try discriminate.
      destruct (String.eqb _ "PM"); [intros H Hr; apply IH in H; auto|].
      destruct (String.eqb _ "AM"); [intros H Hr; apply IH in H; auto|discriminate].
    + destruct (skip false value s) as [v|]; [|discriminate]. apply IH.
Qed.

Lemma Parse_range (layout : list chunk) (value : string) (h m : Z) :
  Parse layout value = Some (h, m) -> 0 <= h <= 23 /\ 0 <= m <= 59.
Proof.
  unfold Parse.
  destruct (parseChunks layout (mkParseState 0 0 false false) value) as [st|] eqn:Hp;
    [|discriminate].
  apply parseChunks_range in Hp; [|cbn; lia].
  intros H. inversion H; subst; clear H.
  destruct (pmSet st && (psHour st <? 12))%bool eqn:Hpm.
  - apply andb_true_iff in Hpm. destruct Hpm as [_ Hlt]. apply Z.ltb_lt in Hlt. lia.
  - destruct (amSet st && (psHour st =? 12))%bool; lia.
Qed.

Lemma parseTimeString_range (timeStr : string) (c : Clock) :
  Preferences.parseTimeString timeStr = Ok c ->
  tYear c = 0 /\ 0 <= tHour c <= 23 /\ 0 <= tMinute c <= 59 /\ IsZero c = false.
Proof.
  unfold Preferences.parseTimeString.
  destruct (Regexp.firstSome _ Preferences.formats) as [[h m]|] eqn:Hf; [|discriminate].
  intros H. inversion H; subst; clear H.
  apply firstSome_inv in Hf. destruct Hf as (layout & _ & Hp).
  apply Parse_range in Hp. cbn. repeat split; lia.
Qed.

(** X15.  Preferences that parse are complete: the name is trimmed and is
    no placeholder, the zone is no placeholder and passes
    [isValidTimezone], the prompt time is a time of day of year 0, and a
    project focus, when there is one, is no placeholder. *)
Theorem parsed_preferences_are_complete :
  forall (body : string) (prefs : Preferences.UserPreferences),
    AllChars isASCII body = true ->
    Preferences.parseUserPreferences E body = Ok prefs ->
    Preferences.isPlaceholder (Preferences.Name prefs) = false
    /\ TrimSpace (Preferences.Name prefs) = Preferences.Name prefs
    /\ Preferences.isPlaceholder (Preferences.Timezone prefs) = false
    /\ Preferences.isValidTimezone E (Preferences.Timezone prefs) = true
    /\ tYear (Preferences.PromptTime prefs) = 0
    /\ 0 <= tHour (Preferences.PromptTime prefs) <= 23
    /\ 0 <= tMinute (Preferences.PromptTime prefs) <= 59
    /\ match Preferences.ProjectFocus prefs with
       | Some project => Preferences.isPlaceholder project = false
       | None => True
       end.
Proof.
  intros body prefs _. unfold Preferences.parseUserPreferences.
  set (name := match Preferences.extract Preferences.nameRegex body with
               | Some v => v | None => EmptyString end).
  set (timezone := match Preferences.extract Preferences.timezoneRegex body with
                   | Some v => v | None => EmptyString end).
  assert (Hname : TrimSpace name = name).
  { unfold name, Preferences.extract.
    destruct (Regexp.FindStringSubmatch Preferences.nameRegex body) as [[|m1 ms]|];
      try reflexivity. apply TrimSpace_idem. }
  assert (Htime : forall c,
             match Preferences.extract Preferences.timeRegex body with
             | Some timeStr =>
                 match Preferences.parseTimeString timeStr with
                 | Err _ => Err ("invalid time format: " ++ timeStr)%string
                 | Ok parsedTime => Ok parsedTime
                 end
             | None => Ok zeroTime
             end = Ok c ->
             let c' := if IsZero c then DateYear0 16 0 else c in
             tYear c' = 0 /\ 0 <= tHour c' <= 23 /\ 0 <= tMinute c' <= 59).
  { intros c. destruct (Preferences.extract Preferences.timeRegex body) as [timeStr|].
    - destruct (Preferences.parseTimeString timeStr) as [p|e] eqn:Hp; [|discriminate].
      intros H. inversion H; subst; clear H.
      apply parseTimeString_range in Hp. destruct Hp as (Hy & Hh & Hm & Hz).
      cbv zeta. rewrite Hz. auto.
    - intros H. inversion H; subst; clear H. cbn. lia. }
  destruct (match Preferences.extract Preferences.timeRegex body with
            | Some timeStr => _ | None => _ end) as [c|e]; [|discriminate].
  specialize (Htime c eq_refl). cbv zeta in Htime.
  destruct (Preferences.isPlaceholder name) eqn:Hn; [discriminate|].
  destruct (Preferences.isPlaceholder timezone) eqn:Hz; [discriminate|].
  destruct (Preferences.isValidTimezone E timezone) eqn:Hv; [|discriminate].
  cbn [negb]. intros H. inversion H; subst; clear H.
  cbn [Preferences.Name Preferences.Timezone Preferences.PromptTime Preferences.ProjectFocus].
  destruct Htime as (Hy & Hh & Hm).
  repeat split; auto; try lia.
  destruct (Preferences.extract Preferences.projectRegex body) as [project|]; [|exact I].
  destruct (Preferences.isPlaceholder project) eqn:Hp; [exact I|exact Hp].
Qed.

(** X16.  A text that [parseTimeString] accepts gives a time of day on
    January 1st of year 0, with an hour from 0 to 23 and a minute from 0 to
    59; it is never the zero time, which the caller reads as no time
    given. *)
Theorem parseTimeString_is_a_time_of_day :
  forall (timeStr : string) (c : Clock),
    AllChars isASCII timeStr = true ->
    Preferences.parseTimeString timeStr = Ok c ->
    tYear c = 0 /\ 0 <= tHour c <= 23 /\ 0 <= tMinute c <= 59 /\ IsZero c = false.
Proof. intros timeStr c _. apply parseTimeString_range. Qed.

End AccountFacts.

(** ** More on the outbox *)

Section MoreOutbox.
Variable E : Env.

Lemma insertByCreatedAt_In (m x : EmailLog.t) (l : list EmailLog.t) :
  In x (Email.insertByCreatedAt m l) -> x = m \/ In x l.
Proof.
  intros H. apply (Permutation_in _ (insertByCreatedAt_perm m l)) in H.
  destruct H as [<-|H]; auto.
Qed.

Lemma insertByCreatedAt_ascending (m : EmailLog.t) (l : list EmailLog.t) :
  ascending l -> ascending (Email.insertByCreatedAt m l).
Proof.
  induction l as [|x l IH]; simpl; intros H.
  - split; [intros ? []|exact I].
  - destruct H as [Hx Hl].
    destruct (EmailLog.CreatedAt m <=? EmailLog.CreatedAt x) eqn:Hc.
    + apply Z.leb_le in Hc. simpl. split; [|split; auto].
      intros m' [<-|Hm']; [exact Hc|]. specialize (Hx m' Hm'). lia.
    + apply Z.leb_gt in Hc. simpl. split; [|auto].
      intros m' Hm'. apply insertByCreatedAt_In in Hm'.
      destruct Hm' as [->|Hm']; [lia|auto].
Qed.

Lemma orderByCreatedAt_ascending (l : list EmailLog.t) : ascending (Email.orderByCreatedAt l).
Proof.
  induction l as [|x l IH]; simpl; [exact I|].
  apply insertByCreatedAt_ascending, IH.
Qed.

Lemma ascending_firstn (n : nat) (l : list EmailLog.t) :
  ascending l -> ascending (firstn n l).
Proof.
  revert l. induction n as [|n IH]; intros [|x l]; simpl; auto.
  intros [Hx Hl]. split; auto. intros m' Hm'. apply Hx. eapply In_firstn, Hm'.
Qed.

Lemma In_skipn {A : Type} (n : nat) (l : list A) (x : A) : In x (skipn n l) -> In x l.
Proof.
  revert l. induction n as [|n IH]; intros [|y l]; simpl; auto.
Qed.

Lemma ascending_split (n : nat) (l : list EmailLog.t) (a b : EmailLog.t) :
  ascending l -> In a (firstn n l) -> In b (skipn n l) ->
  EmailLog.CreatedAt a <= EmailLog.CreatedAt b.
Proof.
  revert l. induction n as [|n IH]; intros l Hasc Ha Hb.
  - destruct l; simpl in Ha; contradiction.
  - destruct l as [|x l]; simpl in Ha, Hb; [contradiction|].
    destruct Hasc as [Hx Hl]. destruct Ha as [<-|Ha].
    + apply Hx. eapply In_skipn, Hb.
    + eapply IH; eauto.
Qed.

Lemma processEmails_ok (rows : list EmailLog.t) (w : World) :
  fst (Email.processEmails E rows w) = Ok tt.
Proof.
  revert w. induction rows as [|email rows IH]; intros w; [reflexivity|].
  cbn [Email.processEmails]. unfold bind.
  assert (Hok : fst (Email.processEmail E email w) = Ok tt).
  { unfold Email.processEmail. destruct (Email.sendEmail E email w) as [[u|e] w1]; reflexivity. }
  destruct (Email.processEmail E email w) as [r w1]. simpl in Hok. subst r. apply IH.
Qed.

(** X17.  One run of the outbox hands to the transport, in the order of
    their creation, the ten oldest rows that are pending and due, or all of
    them when there are fewer: a pending row that waits for a later run is
    not older than any row of the batch. *)
Theorem ProcessOutbox_sends_oldest_due_rows :
  forall w : World,
    dbFault E (db_calls w) = None ->
    exists chosen waiting : list EmailLog.t,
      Permutation (chosen ++ waiting) (filter (Email.isDue (now w)) (email_logs w))
      /\ (List.length chosen <= 10)%nat
      /\ (waiting <> [] -> List.length chosen = 10%nat)
      /\ ascending chosen
      /\ (forall a b, In a chosen -> In b waiting ->
            EmailLog.CreatedAt a <= EmailLog.CreatedAt b)
      /\ ses_log (snd (Email.ProcessOutbox E w))
         = ses_log w ++ callsFor E (ses_calls w) (map Email.scanEmail chosen).
Proof.
  intros w HD.
  set (sorted := Email.orderByCreatedAt (filter (Email.isDue (now w)) (email_logs w))).
  exists (firstn 10 sorted), (skipn 10 sorted).
  pose proof (orderByCreatedAt_ascending (filter (Email.isDue (now w)) (email_logs w)))
    as Hasc.
  fold sorted in Hasc.
  split; [rewrite firstn_skipn; apply orderByCreatedAt_perm|].
  split; [rewrite length_firstn; lia|].
  split.
  { intros Hw. rewrite length_firstn.
    assert (Hlen : (10 < List.length sorted)%nat).
    { destruct (Nat.lt_ge_cases 10 (List.length sorted)) as [Hlt|Hge]; [exact Hlt|].
      rewrite skipn_all2 in Hw by exact Hge. congruence. }
    lia. }
  split; [apply ascending_firstn, Hasc|].
  split; [intros a b Ha Hb; eapply ascending_split; eauto|].
  rewrite (ProcessOutbox_run E w HD).
  destruct (processEmails_calls E (Email.pendingEmails w) (set_db_calls (S (db_calls w)) w))
    as (Hl & _).
  exact Hl.
Qed.

(** X18.  A run of the outbox returns an error only when its query fails,
    and then before any message is handed over; once the query has
    answered, the run returns no error, whatever the transport and the
    later updates do. *)
Theorem ProcessOutbox_fails_only_on_its_query :
  forall w : World,
    match dbFault E (db_calls w) with
    | Some e =>
        Email.ProcessOutbox E w
        = (Err ("failed to query pending emails: " ++ e)%string,
           set_db_calls (S (db_calls w)) w)
    | None => fst (Email.ProcessOutbox E w) = Ok tt
    end.
Proof.
  intros w. destruct (dbFault E (db_calls w)) as [e|] eqn:HD.
  - unfold Email.ProcessOutbox, bind. rewrite selectPending_run, HD. reflexivity.
  - rewrite (ProcessOutbox_run E w HD). apply processEmails_ok.
Qed.



(** X20.  A message queued with no schedule, in an outbox where nothing
    else is due, is handed to the transport by the next run with the
    recipient, subject and body it was queued with, and is then marked
    [sent] with the id the transport gave. *)
Theorem queued_message_is_delivered :
  forall (w : World) (userID : option Z) (rcpt ty subject body mid : string) (later : Z),
    dbFault E (db_calls w) = None ->
    dbFault E (S (db_calls w)) = None ->
    dbFault E (S (S (db_calls w))) = None ->
    sesReply E (ses_calls w) = Ok mid ->
    (forall m, In m (email_logs w) -> EmailLog.ID m <> email_logs_seq w + 1) ->
    filter (Email.isDue later) (email_logs w) = [] ->
    let queued :=
      Email.newEmailLog (email_logs_seq w + 1) userID rcpt ty subject body None (now w) in
    let w1 := snd (Email.QueueEmail E userID rcpt ty subject body None w) in
    let w2 := snd (Email.ProcessOutbox E (set_now later w1)) in
    email_logs w1 = email_logs w ++ [queued]
    /\ ses_log w2 = ses_log w ++ [mkSesCall (email_logs_seq w + 1) rcpt subject body (Ok mid)]
    /\ email_logs w2 = email_logs w ++ [Email.sentRow mid later queued].
Proof.
  intros w userID rcpt ty subject body mid later HD HD1 HD2 HS Hfresh Hidle. cbv zeta.
  rewrite QueueEmail_run, HD. cbn [snd].
  set (queued := Email.newEmailLog (email_logs_seq w + 1) userID rcpt ty subject body None
                   (now w)).
  set (w1 := set_email_logs_seq (email_logs_seq w + 1)
               (set_email_logs (email_logs w ++ [queued]) (set_db_calls (S (db_calls w)) w))).
  split; [reflexivity|].
  assert (Hpend : Email.pendingEmails (set_now later w1) = [Email.scanEmail queued]).
  { unfold Email.pendingEmails.
    change (email_logs (set_now later w1)) with (email_logs w ++ [queued]).
    change (now (set_now later w1)) with later.
    rewrite filter_app, Hidle. reflexivity. }
  rewrite ProcessOutbox_run by exact HD1. rewrite Hpend.
  cbn [Email.processEmails]. unfold bind, ret, Email.processEmail.
  rewrite sendEmail_run.
  change (ses_calls (set_db_calls (S (db_calls (set_now later w1))) (set_now later w1)))
    with (ses_calls w).
  rewrite HS, markEmailSent_run.
  change (db_calls (afterSend E (Email.scanEmail queued)
                      (set_db_calls (S (db_calls (set_now later w1))) (set_now later w1))))
    with (S (S (db_calls w))).
  rewrite HD2. cbn [snd]. split.
  - cbn. rewrite HS. reflexivity.
  - unfold Email.updateEmail.
    cbn [email_logs set_email_logs set_db_calls afterSend set_ses_calls set_ses_log set_now
           w1 set_email_logs_seq now].
    rewrite map_app. cbn [map].
    change (EmailLog.ID (Email.scanEmail queued)) with (email_logs_seq w + 1).
    change (EmailLog.ID queued) with (email_logs_seq w + 1).
    rewrite Z.eqb_refl. f_equal.
    rewrite <- (map_id (email_logs w)) at 2. apply map_ext_in.
    intros m Hm. apply Hfresh in Hm. apply Z.eqb_neq in Hm. rewrite Hm. reflexivity.
Qed.

End MoreOutbox.

(** ** The weekly summary *)

Section WeeklyFacts.
Variable E : Env.
Variable LLMModel : string.
Variable callClaude : string -> result Llm.ClaudeResponse.
Variable executeWeekly : Email.WeeklyData -> result string.
Variable formatUTC : string -> Z -> string.
Import GoStrings GoTime.

(** X21.  The week start is the latest Monday at midnight UTC that is not
    after the current instant, also on a Sunday; four days later, the week
    end that the weekly message shows, is a Friday.  The scheduler and the
    command-line tool compute the same instant. *)
Theorem getWeekStart_is_last_monday :
  forall w : World,
    let start := Scheduler.getWeekStart w in
    Weekday start = 1
    /\ start mod Day = 0
    /\ start <= now w < start + 7 * Day
    /\ Weekday (AddDate 4 start) = 5
    /\ Cli.getWeekStart w = start.
Proof.
  intros w. cbv zeta.
  unfold Scheduler.getWeekStart, Cli.getWeekStart, Midnight, AddDate, Weekday, utcDate.
  set (t := now w).
  assert (HDay : Day = 86400000000000) by reflexivity.
  rewrite HDay.
  set (wd := (t / 86400000000000 + 4) mod 7).
  assert (Hwd : 0 <= wd < 7) by (apply Z.mod_pos_bound; lia).
  set (k := (if wd =? 0 then 7 else wd) - 1).
  assert (Hk : 0 <= k < 7 /\ (t / 86400000000000 - k + 4) mod 7 = 1).
  { unfold k. destruct (wd =? 0) eqn:H0.
    - apply Z.eqb_eq in H0. split; [lia|]. unfold wd in H0.
      clear - H0. Z.div_mod_to_equations. lia.
    - apply Z.eqb_neq in H0. split; [lia|]. unfold wd in *.
      clear - H0 Hwd. Z.div_mod_to_equations. lia. }
  destruct Hk as [Hk Hmon].
  assert (Hdiv : (t + - k * 86400000000000) / 86400000000000 = t / 86400000000000 - k).
  { replace (t + - k * 86400000000000) with (t + (- k) * 86400000000000) by lia.
    rewrite Z.div_add by lia. lia. }
  rewrite Hdiv.
  assert (Hd2 : forall x, (x * 86400000000000) / 86400000000000 = x)
    by (intros x; apply Z.div_mul; lia).
  repeat split.
  - rewrite Hd2. exact Hmon.
  - apply Z.mod_mul. lia.
  - clear - Hk. Z.div_mod_to_equations. lia.
  - clear - Hk. Z.div_mod_to_equations. lia.
  - replace ((t / 86400000000000 - k) * 86400000000000 + 4 * 86400000000000)
      with ((t / 86400000000000 - k + 4) * 86400000000000) by lia.
    rewrite Hd2. clear - Hmon. Z.div_mod_to_equations. lia.
Qed.

Lemma summarize_skips (user : User.t) (w : World) :
  Scheduler.summarize E LLMModel callClaude executeWeekly formatUTC user w = (Ok tt, w).
Proof. reflexivity. Qed.

Lemma summarizeEach_skips (users : list User.t) (w : World) :
  Scheduler.summarizeEach E LLMModel callClaude executeWeekly formatUTC users w = (Ok tt, w).
Proof.
  induction users as [|user users IH]; [reflexivity|].
  cbn [Scheduler.summarizeEach]. unfold bind. rewrite summarize_skips. exact IH.
Qed.

(** X22.  The weekly job sends nothing: the helper that lists the verified
    accounts returns none, and for any list of accounts the helper that
    reads the entries of the week returns none, so that every account is
    skipped before the model is called; the job returns no error and leaves
    the world as it is. *)
Theorem weekly_summaries_are_never_sent :
  forall (w : World) (users : list User.t),
    Scheduler.summarizeEach E LLMModel callClaude executeWeekly formatUTC users w = (Ok tt, w)
    /\ Scheduler.sendWeeklySummaries E LLMModel callClaude executeWeekly formatUTC w
       = (Ok tt, w).
Proof.
  intros w users. split; [apply summarizeEach_skips|].
  unfold Scheduler.sendWeeklySummaries, bind, Scheduler.getAllVerifiedUsers, ret.
  apply summarizeEach_skips.
Qed.

End WeeklyFacts.

(** ** The command-line tool and the inbound-mail function *)

Section ToolFacts.
Variable E : Env.
Variable LLMModel : string.
Variable callClaude : string -> result Llm.ClaudeResponse.
Variable executeWeekly : Email.WeeklyData -> result string.
Variable formatUTC : string -> Z -> string.
Import GoStrings GoTime.

Lemma triggerDailyPrompt_run (email : string) (w : World) :
  Cli.triggerDailyPrompt E email w =
  match dbFault E (db_calls w) with
  | Some e =>
      (Err ("failed to get user: failed to get user by email: " ++ e)%string,
       set_db_calls (S (db_calls w)) w)
  | None =>
      match find (fun u => String.eqb (User.Email u) email) (users w) with
      | None => (Err ("user not found: " ++ email)%string, set_db_calls (S (db_calls w)) w)
      | Some user =>
          if User.IsVerified user
          then
            match Email.SendDailyPrompt E (User.ID user) (User.Email user)
                    (User.ProjectFocus user) (set_db_calls (S (db_calls w)) w) with
            | (Ok _, w1) => (Ok ("Daily prompt sent to " ++ email)%string, w1)
            | (Err e, w1) => (Err ("failed to send daily prompt: " ++ e)%string, w1)
            end
          else (Err ("user is not verified: " ++ email)%string,
                set_db_calls (S (db_calls w)) w)
      end
  end.
Proof.
  unfold Cli.triggerDailyPrompt, bind, wrapErr. rewrite GetUserByEmail_run.
  destruct (dbFault E (db_calls w)); [reflexivity|].
  destruct (find _ (users w)) as [user|]; [|reflexivity].
  destruct (User.IsVerified user); [|reflexivity]. cbn [negb].
  destruct (Email.SendDailyPrompt E _ _ _ _) as [[u|e] w1]; reflexivity.
Qed.

Lemma RenderDailyPromptEmail_world (pf : option string) (w : World) :
  snd (Email.RenderDailyPromptEmail E pf w) = w
  \/ snd (Email.RenderDailyPromptEmail E pf w) = set_rand_calls (S (rand_calls w)) w.
Proof.
  unfold Email.RenderDailyPromptEmail, Email.Intn.
  destruct (templateParse E _); simpl; auto.
  destruct (templateExecute E _ _); simpl; auto.
Qed.

(** X23.  The manual daily prompt fails for an address that has no account
    and for an account that is not verified.  For a verified account it
    queues the prompt whatever the pause, the prompt hour and the zone of
    the account are. *)
Theorem triggerDailyPrompt_ignores_pause_and_hour :
  forall (w : World) (email : string),
    dbFault E (db_calls w) = None ->
    let out := Cli.triggerDailyPrompt E email w in
    match find (fun u => String.eqb (User.Email u) email) (users w) with
    | None =>
        out = (Err ("user not found: " ++ email)%string, set_db_calls (S (db_calls w)) w)
    | Some user =>
        if User.IsVerified user
        then
          forall subject body,
            fst (Email.RenderDailyPromptEmail E (User.ProjectFocus user)
                   (set_db_calls (S (db_calls w)) w)) = Ok (subject, body) ->
            dbFault E (S (db_calls w)) = None ->
            fst out = Ok ("Daily prompt sent to " ++ email)%string
            /\ email_logs (snd out) =
               email_logs w
               ++ [Email.newEmailLog (email_logs_seq w + 1) (Some (User.ID user))
                     (User.Email user) Models.EmailTypeDailyPrompt subject body None (now w)]
        else
          out = (Err ("user is not verified: " ++ email)%string,
                 set_db_calls (S (db_calls w)) w)
    end.
Proof.
  intros w email HD out. unfold out. rewrite triggerDailyPrompt_run, HD.
  destruct (find _ (users w)) as [user|]; [|reflexivity].
  destruct (User.IsVerified user); [|reflexivity].
  intros subject body HR HD1.
  unfold Email.SendDailyPrompt, bind, wrapErr.
  set (w0 := set_db_calls (S (db_calls w)) w) in *.
  pose proof (RenderDailyPromptEmail_world (User.ProjectFocus user) w0) as Hw.
  destruct (Email.RenderDailyPromptEmail E (User.ProjectFocus user) w0) as [[sb|e] w1].
  - simpl in HR, Hw. inversion HR; subst sb; clear HR.
    rewrite QueueEmail_run.
    assert (Hdb : db_calls w1 = S (db_calls w)) by (destruct Hw as [->| ->]; reflexivity).
    assert (Hrest : email_logs w1 = email_logs w /\ email_logs_seq w1 = email_logs_seq w
                    /\ now w1 = now w) by (destruct Hw as [->| ->]; repeat split).
    destruct Hrest as (Hl & Hs & Hn).
    rewrite Hdb, HD1. cbn [fst snd email_logs set_email_logs_seq set_email_logs].
    rewrite Hl, Hs, Hn. split; reflexivity.
  - simpl in HR. discriminate.
Qed.

(** X24.  The manual weekly summary of a verified account always reports
    that no entry was found this week, whatever the journal holds: the
    helper that reads the entries returns none, and neither the model nor
    the outbox is reached. *)
Theorem triggerWeeklySummary_finds_no_entries :
  forall (w : World) (email : string) (user : User.t),
    dbFault E (db_calls w) = None ->
    find (fun u => String.eqb (User.Email u) email) (users w) = Some user ->
    User.IsVerified user = true ->
    Cli.triggerWeeklySummary E LLMModel callClaude executeWeekly formatUTC email w
    = (Ok ("No entries found for user " ++ email ++ " this week")%string,
       set_db_calls (S (db_calls w)) w).
Proof.
  intros w email user HD HF HV. unfold Cli.triggerWeeklySummary, bind, wrapErr.
  rewrite GetUserByEmail_run, HD, HF, HV. reflexivity.
Qed.

(** *** Inbound mail *)

Lemma processEmailRecord_frame (record : Inbound.SESEventRecord) (w : World) :
  let w' := snd (Inbound.processEmailRecord E record w) in
  users w' = users w /\ entries w' = entries w
  /\ forall m, In m (email_logs w') ->
       In m (email_logs w) \/ EmailLog.EmailType m = Models.EmailTypeClarification.
Proof.
  cbv zeta. unfold Inbound.processEmailRecord.
  destruct (isEmpty (Inbound.Source record)); [simpl; auto|].
  cbn [Inbound.extractEmailContent Inbound.Subject Inbound.Body].
  unfold Core.HandleEmailReply, bind, wrapErr. rewrite GetUserByEmail_run.
  destruct (dbFault E (db_calls w)); [simpl; auto|].
  assert (Hclar : forall uid rcpt msg w0,
             users w0 = users w -> entries w0 = entries w -> email_logs w0 = email_logs w ->
             let w' := snd (Email.SendClarificationRequest E uid rcpt msg w0) in
             users w' = users w /\ entries w' = entries w
             /\ forall m, In m (email_logs w') ->
                  In m (email_logs w)
                  \/ EmailLog.EmailType m = Models.EmailTypeClarification).
  { intros uid rcpt msg w0 Hu He Hl. cbv zeta.
    destruct (SendClarificationRequest_frame E uid rcpt msg w0)
      as (Hu' & He' & [Hl'|(m0 & Hl' & Ht & _)]); rewrite Hu', He', Hl', ?Hu, ?He, ?Hl;
      repeat split; auto.
    intros m Hm. apply in_app_or in Hm. destruct Hm as [Hm|[<-|[]]]; auto. }
  destruct (find _ (users w)) as [user|].
  - destruct (User.IsVerified user); cbn [negb].
    + change (Parser.IsValidated (Parser.ParseEmailReply EmptyString)) with false.
      cbn [negb]. apply Hclar; reflexivity.
    + unfold Core.handleVerificationReply.
      destruct (User.VerificationCode user) as [code|]; [|simpl; auto].
      change (Core.contains EmptyString code) with false. cbn [negb].
      apply Hclar; reflexivity.
  - change (Parser.NeedsVerification EmptyString) with false. simpl. auto.
Qed.

(** X25.  The inbound-mail function hands every record to the reply
    handler with an empty body.  Whatever the records and the tables are,
    it creates and changes no account, stores no entry, and queues nothing
    but clarification messages. *)
Theorem inbound_mail_changes_no_account_and_stores_no_entry :
  forall (records : list Inbound.SESEventRecord) (w : World),
    let w' := Inbound.processRecords E records w in
    users w' = users w
    /\ entries w' = entries w
    /\ forall m, In m (email_logs w') ->
         In m (email_logs w) \/ EmailLog.EmailType m = Models.EmailTypeClarification.
Proof.
  intros records. induction records as [|record records IH]; intros w; cbv zeta.
  - simpl. auto.
  - cbn [Inbound.processRecords].
    destruct (processEmailRecord_frame record w) as (Hu & He & Hl).
    destruct (IH (snd (Inbound.processEmailRecord E record w))) as (Hu' & He' & Hl').
    rewrite Hu', He', Hu, He. repeat split; auto.
    intros m Hm. apply Hl' in Hm. destruct Hm as [Hm|Hm]; auto.
Qed.

End ToolFacts.

(** ** The language model *)

Section LlmFacts.
Import GoStrings GoTime.

(** *** The cost estimate *)

(** X26.  For token counts up to 10^15 the estimated cost is at least one
    cent; above one cent it never exceeds the exact cost, 25 and 125
    millionths of a cent per input and output token, and it is always less
    than two cents below it. *)
Theorem estimateCost_bounds :
  forall usage : Llm.Usage,
    0 <= Llm.InputTokens usage <= 1000000000000000 ->
    0 <= Llm.OutputTokens usage <= 1000000000000000 ->
    let cents := Llm.estimateCost usage in
    let millionths := 25 * Llm.InputTokens usage + 125 * Llm.OutputTokens usage in
    1 <= cents
    /\ (1 < cents -> cents * 1000000 <= millionths)
    /\ millionths < (cents + 2) * 1000000.
Proof.
  intros [i o]. cbn [Llm.InputTokens Llm.OutputTokens]. intros Hi Ho. cbv zeta.
  unfold Llm.estimateCost, mul64. cbn [Llm.InputTokens Llm.OutputTokens].
  rewrite (wrap64_small (i * 25)) by (unfold MinInt64, MaxInt64; lia).
  rewrite (wrap64_small (o * 125)) by (unfold MinInt64, MaxInt64; lia).
  rewrite !Z.quot_div_nonneg by lia.
  assert (Ha : 0 <= i * 25 / 1000000 <= 25000000000).
  { split; [apply Z.div_pos; lia|]. apply Z.div_le_upper_bound; lia. }
  assert (Hb : 0 <= o * 125 / 1000000 <= 125000000000).
  { split; [apply Z.div_pos; lia|]. apply Z.div_le_upper_bound; lia. }
  rewrite wrap64_small by (unfold MinInt64, MaxInt64; lia).
  destruct (i * 25 / 1000000 + o * 125 / 1000000 <? 1) eqn:Hlt.
  - apply Z.ltb_lt in Hlt. split; [lia|]. split; [lia|].
    clear - Hlt Hi Ho. Z.div_mod_to_equations. lia.
  - apply Z.ltb_ge in Hlt. split; [lia|]. split.
    + intros _. clear - Hi Ho. Z.div_mod_to_equations. lia.
    + clear - Hi Ho. Z.div_mod_to_equations. lia.
Qed.

(** *** The prompt *)

Lemma entriesText_past_friday (i : nat) (entries : list Entry.t) :
  (5 <= i)%nat -> Llm.entriesText i entries = EmptyString.
Proof.
  revert i. induction entries as [|e entries IH]; intros i Hi; [reflexivity|].
  cbn [Llm.entriesText]. rewrite IH by lia.
  assert (Hn : nth_error Llm.days i = None) by (apply nth_error_None; simpl; lia).
  rewrite Hn. reflexivity.
Qed.

Lemma entriesText_firstn (i : nat) (entries : list Entry.t) :
  Llm.entriesText i entries = Llm.entriesText i (firstn (5 - i) entries).
Proof.
  revert i. induction entries as [|e entries IH]; intros i.
  - rewrite firstn_nil. reflexivity.
  - destruct (Nat.le_gt_cases 5 i) as [Hi|Hi].
    + rewrite !entriesText_past_friday by exact Hi. reflexivity.
    + replace (5 - i)%nat with (S (5 - S i)) by lia.
      cbn [firstn Llm.entriesText]. rewrite <- IH. reflexivity.
Qed.

Lemma entriesText_app (i : nat) (before after : list Entry.t) :
  Llm.entriesText i (before ++ after)
  = (Llm.entriesText i before ++ Llm.entriesText (i + List.length before) after)%string.
Proof.
  revert i. induction before as [|e before IH]; intros i.
  - simpl. rewrite Nat.add_0_r. reflexivity.
  - cbn [app Llm.entriesText List.length]. rewrite IH, string_app_assoc.
    replace (S i + List.length before)%nat with (i + S (List.length before))%nat by lia.
    reflexivity.
Qed.

(** X27.  The prompt holds the first five entries only, and labels them
    Monday to Friday by their position in the list, not by their date: the
    entry at position [i] appears as the line of the [i]-th day name. *)
Theorem prompt_reads_five_entries_by_position :
  forall entries : list Entry.t,
    Llm.buildWeeklySummaryPrompt entries = Llm.buildWeeklySummaryPrompt (firstn 5 entries)
    /\ forall (before after : list Entry.t) (entry : Entry.t) (day : string),
         entries = before ++ entry :: after ->
         nth_error Llm.days (List.length before) = Some day ->
         exists above below : string,
           Llm.buildWeeklySummaryPrompt entries
           = (above ++ day ++ ": " ++ Entry.RawContent entry ++ String LF below)%string.
Proof.
  intros entries. split.
  - unfold Llm.buildWeeklySummaryPrompt.
    rewrite (entriesText_firstn 0 entries). reflexivity.
  - intros before after entry day -> Hday. unfold Llm.buildWeeklySummaryPrompt.
    rewrite entriesText_app. cbn [Llm.entriesText Nat.add]. rewrite Hday.
    exists (JoinLines Llm.promptHead ++ String LF (Llm.entriesText 0 before))%string.
    exists (Llm.entriesText (S (List.length before)) after
            ++ String LF (JoinLines Llm.promptTail))%string.
    repeat (rewrite ?string_app_assoc; cbn [String.append]). reflexivity.
Qed.

(** *** The answer of the model *)

Lemma fallbackParse_bullets (text : string) (s : Llm.WeeklySummary) :
  Llm.fallbackParse text = Ok s -> Llm.BulletPoints s <> [].
Proof.
  unfold Llm.fallbackParse. intros H. inversion H; subst; clear H.
  cbn [Llm.BulletPoints].
  destruct (List.length (fold_left _ _ _) =? 0)%nat eqn:Hl; [discriminate|].
  apply Nat.eqb_neq in Hl. intros Heq. rewrite Heq in Hl. simpl in Hl. congruence.
Qed.

(** X28.  Parsing an answer fails only when the answer has no content
    block, with [no content in response]; a parsed summary always has at
    least one bullet point. *)
Theorem parsed_summary_has_a_bullet :
  forall response : Llm.ClaudeResponse,
    match Llm.parseWeeklySummaryResponse response with
    | Ok summary => Llm.Content response <> [] /\ Llm.BulletPoints summary <> []
    | Err e => Llm.Content response = [] /\ e = "no content in response"%string
    end.
Proof.
  intros response. unfold Llm.parseWeeklySummaryResponse.
  destruct (Llm.Content response) as [|block blocks]; [split; reflexivity|].
  destruct (Llm.scanResponse (SplitLines (Llm.Text block)) EmptyString [] false)
    as [summary bullets].
  destruct (isEmpty summary || (List.length bullets =? 0)%nat)%bool eqn:Hc.
  - destruct (Llm.fallbackParse (Llm.Text block)) as [s|e] eqn:Hf.
    + split; [discriminate|]. eapply fallbackParse_bullets, Hf.
    + unfold Llm.fallbackParse in Hf. discriminate.
  - apply orb_false_iff in Hc. destruct Hc as [_ Hl]. apply Nat.eqb_neq in Hl.
    split; [discriminate|]. cbn [Llm.BulletPoints]. intros Heq. rewrite Heq in Hl.
    simpl in Hl. congruence.
Qed.

Lemma CutPrefix_none (s prefix : string) :
  HasPrefix s prefix = false -> CutPrefix s prefix = None.
Proof.
  revert s. induction prefix as [|p prefix IH]; intros [|c s]; simpl; try discriminate; auto.
  destruct (Ascii.eqb c p); simpl; auto.
Qed.

Lemma TrimSpace_after_space (s : string) :
  TrimSpace s = s -> TrimSpace (String " " s) = s.
Proof. intros H. exact H. Qed.

Lemma TrimSpace_label (label s : string) :
  match label with String c _ => isSpace c = false | EmptyString => False end ->
  TrimSpace s = s -> s <> EmptyString ->
  TrimSpace (label ++ s) = (label ++ s)%string.
Proof.
  intros Hl Hs Hne. unfold TrimSpace. rewrite TrimLeft_fixed.
  - apply TrimRight_app_fixed; auto. apply TrimRight_of_trimmed, Hs.
  - destruct label as [|c label]; [contradiction|]. exact Hl.
Qed.

Lemma scanResponse_bullet (b : string) (rest acc : list string) (summary : string) :
  plainLine b ->
  Llm.scanResponse (("• " ++ b)%string :: rest) summary acc true
  = Llm.scanResponse rest summary (acc ++ [b]) true.
Proof.
  intros (_ & _ & Ht & Hne). cbn [Llm.scanResponse].
  rewrite (TrimSpace_label "• " b) by (auto; reflexivity).
  assert (H1 : isEmpty ("• " ++ b) = false) by reflexivity.
  assert (H2 : HasPrefix (ToUpper ("• " ++ b)) "SUMMARY:" = false) by reflexivity.
  assert (H3 : String.eqb (ToUpper ("• " ++ b)) "BULLETS:" = false) by reflexivity.
  assert (H4 : HasPrefix ("• " ++ b) "•" = true) by reflexivity.
  assert (H5 : TrimPrefix ("• " ++ b) "•" = String " " b) by reflexivity.
  rewrite H1, H2, H3, H4, H5, (TrimSpace_after_space b Ht).
  destruct b as [|c b]; [congruence|]. reflexivity.
Qed.

Lemma scanResponse_bullets (bullets acc : list string) (summary : string) :
  Forall plainLine bullets ->
  Llm.scanResponse (map (fun bullet => ("• " ++ bullet)%string) bullets) summary acc true
  = (summary, acc ++ bullets).
Proof.
  revert acc. induction bullets as [|b bullets IH]; intros acc HF.
  - simpl. rewrite app_nil_r. reflexivity.
  - inversion HF as [|? ? Hb HF']; subst.
    cbn [map]. rewrite scanResponse_bullet by exact Hb.
    rewrite IH by exact HF'. rewrite <- app_assoc. reflexivity.
Qed.

Lemma scanResponse_summary (paragraph old : string) (rest acc : list string)
  (inBullets : bool) :
  plainLine paragraph -> HasPrefix paragraph "summary:" = false ->
  Llm.scanResponse (("SUMMARY: " ++ paragraph)%string :: rest) old acc inBullets
  = Llm.scanResponse rest paragraph acc inBullets.
Proof.
  intros (_ & _ & Ht & Hne) Hs. cbn [Llm.scanResponse].
  rewrite (TrimSpace_label "SUMMARY: " paragraph) by (auto; reflexivity).
  assert (H1 : isEmpty ("SUMMARY: " ++ paragraph) = false) by reflexivity.
  assert (H2 : HasPrefix (ToUpper ("SUMMARY: " ++ paragraph)) "SUMMARY:" = true)
    by reflexivity.
  assert (H3 : TrimPrefix ("SUMMARY: " ++ paragraph) "SUMMARY:" = String " " paragraph)
    by reflexivity.
  rewrite H1, H2, H3, (TrimSpace_after_space paragraph Ht).
  unfold TrimPrefix. rewrite (CutPrefix_none _ _ Hs), Ht. reflexivity.
Qed.

Lemma scanResponse_heading (rest acc : list string) (summary : string) (inBullets : bool) :
  Llm.scanResponse ("BULLETS:"%string :: rest) summary acc inBullets
  = Llm.scanResponse rest summary acc true.
Proof. reflexivity. Qed.

(** The format is the one that the last lines of the prompt show. *)
Example formattedAnswer_is_the_format_of_the_prompt :
  formattedAnswer "[paragraph here]" ["[bullet 1]"; "[bullet 2]"; "[bullet 3]"]%string
  = JoinLines (firstn 5 (skipn 6 Llm.promptTail)).
Proof. reflexivity. Qed.

(** X29.  An answer in the format the prompt asks for, a [SUMMARY:] line,
    a [BULLETS:] line and one bullet line per point, is read back as its
    paragraph and its points, in order.  Paragraph and points are single
    lines of ASCII text, not empty and without white space around them, and
    the paragraph does not start with [summary:]. *)
Theorem formatted_answer_is_read_back :
  forall (paragraph : string) (bullets : list string) (usage : Llm.Usage)
         (kind : string) (more : list Llm.ContentBlock),
    plainLine paragraph ->
    HasPrefix paragraph "summary:" = false ->
    bullets <> [] ->
    Forall plainLine bullets ->
    Llm.parseWeeklySummaryResponse
      (Llm.mkClaudeResponse
         (Llm.mkContentBlock kind (formattedAnswer paragraph bullets) :: more) usage)
    = Ok (Llm.mkWeeklySummary paragraph bullets EmptyString 0).
Proof.
  intros paragraph bullets usage kind more Hp Hs Hne HF.
  unfold Llm.parseWeeklySummaryResponse. cbn [Llm.Content Llm.Text].
  unfold formattedAnswer. rewrite SplitLines_JoinLines.
  - rewrite scanResponse_summary, scanResponse_heading, scanResponse_bullets by assumption.
    cbn [app]. destruct Hp as (_ & _ & _ & Hpe).
    destruct paragraph as [|c paragraph]; [congruence|].
    destruct bullets as [|b bullets]; [congruence|]. reflexivity.
  - discriminate.
  - constructor.
    + destruct Hp as (_ & Hl & _). unfold hasNoLF. cbn. exact Hl.
    + constructor; [reflexivity|].
      apply Forall_forall. intros l Hl. apply in_map_iff in Hl.
      destruct Hl as (b & <- & Hb). rewrite Forall_forall in HF.
      destruct (HF b Hb) as (_ & Hb' & _). unfold hasNoLF. cbn. exact Hb'.
Qed.

End LlmFacts.

(** ** Concrete runs *)

Section ConcreteRuns.
Import GoStrings Regexp GoTime Parser.

(** Bob is not verified: at 16:00 UTC, the hour of his prompt time on his
    own UTC clock, no query returns his row and no prompt is queued for
    him. *)
Lemma unverified_account_never_selected_witness :
  let w := Sample.world Sample.july1_1600 [Sample.ada; Sample.bob] in
  NoDup (map User.ID (users w))
  /\ In Sample.bob (users w)
  /\ User.IsVerified Sample.bob = false
  /\ (forall currentHour sel w',
         Core.GetUsersForDailyPrompt Sample.quiet currentHour w = (Ok sel, w') ->
         ~ In (User.ID Sample.bob) (map User.ID sel))
  /\ (forall m,
         In m (email_logs (snd (Scheduler.sendDailyPrompts Sample.quiet w))) ->
         In m (email_logs w) \/ EmailLog.UserID m <> Some (User.ID Sample.bob)).
Proof.
  cbv zeta.
  assert (Hpk : NoDup (map User.ID
                         (users (Sample.world Sample.july1_1600 [Sample.ada; Sample.bob])))).
  { simpl. repeat constructor; simpl; intuition discriminate. }
  split; [exact Hpk|]. split; [simpl; auto|]. split; [reflexivity|].
  apply (unverified_account_never_selected Sample.quiet
           (Sample.world Sample.july1_1600 [Sample.ada; Sample.bob]) Sample.bob Hpk).
  - simpl. auto.
  - reflexivity.
Defined.

(** Two entries stored for Ada on 2024-07-01, at 14:00 and at 18:00 UTC. *)
Lemma saveEntry_upsert_last_write_wins_witness :
  let w := Sample.world Sample.july1_1400 [Sample.ada] in
  NoDup (map entryKey (entries w))
  /\ utcDate Sample.july1_1800 = utcDate (now w)
  /\ exists w1 w2 e,
      Core.saveEntry Sample.quiet 1 "Wrote the parser" None w = (Ok tt, w1)
      /\ Core.saveEntry Sample.quiet 1 "Shipped the parser" (Some "infra"%string)
           (set_now Sample.july1_1800 w1) = (Ok tt, w2)
      /\ filter (Core.sameKey 1 (utcDate (now w))) (entries w2) = [e]
      /\ Entry.RawContent e = "Shipped the parser"%string
      /\ Entry.ParsedContent e = Some "Shipped the parser"%string
      /\ Entry.ProjectTag e = Some "infra"%string
      /\ List.length (entries w2) = List.length (entries w1)
      /\ NoDup (map entryKey (entries w2)).
Proof.
  cbv zeta. split; [constructor|]. split; [reflexivity|].
  apply (saveEntry_upsert_last_write_wins Sample.quiet
           (Sample.world Sample.july1_1400 [Sample.ada]) 1 "Wrote the parser"
           "Shipped the parser" None (Some "infra"%string) Sample.july1_1800).
  - constructor.
  - reflexivity.
  - reflexivity.
  - reflexivity.
Defined.



(** C3, counterexample.  Ada replies with a pause and an entry; the pause
    is applied, then storing the entry fails.  The reply is answered by a
    clarification, as a failed reply is, and yet Ada's record has changed:
    she is paused. *)
Lemma failed_reply_leaves_pause_applied :
  let E := Sample.faulty [2%nat] in
  let w := Sample.world Sample.july1_1800 [Sample.ada] in
  let out := Core.HandleEmailReply E "ada@example.com" "Re: prompt" Sample.pauseAndEntry w in
  map Type_ (Commands (ParseEmailReply Sample.pauseAndEntry))
  = [CommandTypePause; CommandTypeEntry]
  /\ fst (Core.saveEntry E 1 "Shipped it" None
            (snd (Core.pauseUser E 1 (14 * Day) (set_db_calls 1 w))))
     = Err "connection reset"
  /\ fst out = Ok tt
  /\ map EmailLog.EmailType (email_logs (snd out)) = [Models.EmailTypeClarification]
  /\ entries (snd out) = []
  /\ map User.IsPaused (users w) = [false]
  /\ map User.IsPaused (users (snd out)) = [true]
  /\ users (snd out) <> users w.
Proof.
  cbv zeta. repeat split; try (vm_compute; reflexivity).
  vm_compute. discriminate.
Qed.

(** The same reply, read with the theorem: the accounts are left as the
    pause made them. *)
Lemma failed_command_stops_reply_without_rollback_witness :
  let E := Sample.faulty [2%nat] in
  let w := Sample.world Sample.july1_1800 [Sample.ada] in
  let parsed := ParseEmailReply Sample.pauseAndEntry in
  let w1 := snd (Core.applyCommands E Sample.ada parsed
                   [mkCommand CommandTypePause "2 weeks" (Some (14 * Day))]
                   (set_db_calls 1 w)) in
  let out := Core.HandleEmailReply E "ada@example.com" "Re: prompt" Sample.pauseAndEntry w in
  IsValidated parsed = true
  /\ Commands parsed =
     [mkCommand CommandTypePause "2 weeks" (Some (14 * Day))]
     ++ mkCommand CommandTypeEntry "Shipped it" None :: []
  /\ users (snd out) = users w1
  /\ entries (snd out) = entries w1
  /\ fst out = Ok tt
  /\ email_logs (snd out) =
     [Email.newEmailLog 1 (Some 1) "ada@example.com" Models.EmailTypeClarification
        "Clarification needed for your journal entry" Sample.pauseAndEntry None
        Sample.july1_1800].
Proof.
  cbv zeta.
  destruct (failed_command_stops_reply_without_rollback (Sample.faulty [2%nat])
              (Sample.world Sample.july1_1800 [Sample.ada])
              (snd (Core.applyCommands (Sample.faulty [2%nat]) Sample.ada
                      (ParseEmailReply Sample.pauseAndEntry)
                      [mkCommand CommandTypePause "2 weeks" (Some (14 * Day))]
                      (set_db_calls 1 (Sample.world Sample.july1_1800 [Sample.ada]))))
              (snd (Core.applyCommands (Sample.faulty [2%nat]) Sample.ada
                      (ParseEmailReply Sample.pauseAndEntry)
                      (Commands (ParseEmailReply Sample.pauseAndEntry))
                      (set_db_calls 1 (Sample.world Sample.july1_1800 [Sample.ada]))))
              "ada@example.com" "Re: prompt" Sample.pauseAndEntry "connection reset"
              Sample.ada
              [mkCommand CommandTypePause "2 weeks" (Some (14 * Day))] []
              (mkCommand CommandTypeEntry "Shipped it" None))
    as (Hu & He & Hq); try (vm_compute; reflexivity).
  destruct (Hq "Clarification needed for your journal entry"%string Sample.pauseAndEntry)
    as (Hr & Hl); try (vm_compute; reflexivity).
  split; [vm_compute; reflexivity|]. split; [vm_compute; reflexivity|].
  split; [exact Hu|]. split; [exact He|]. split; [exact Hr | exact Hl].
Defined.


(** A whole run, then a replay: the run delivers the prompt and marks it
    [failed]; once an operator has put the row back to [pending], the next
    run delivers it again. *)
Example replayed_message_is_delivered_twice :
  let E := Sample.faulty [1%nat] in
  let w1 := snd (Email.ProcessOutbox E (Sample.outbox 0 [Sample.prompt])) in
  let w2 := snd (Email.ProcessOutbox E (operatorReplay 1 w1)) in
  map EmailLog.Status (email_logs w1) = [Models.EmailStatusFailed]
  /\ map EmailLog.RetryCount (email_logs w1) = [1]
  /\ map scReply (ses_log w1) = [Ok "ses-0001"%string]
  /\ map scEmailID (ses_log w2) = [1; 1]
  /\ map scReply (ses_log w2) = [Ok "ses-0001"%string; Ok "ses-0001"%string].
Proof. vm_compute. repeat split; reflexivity. Qed.

(** C2, counterexample.  Two invocations overlap: the second runs its query
    while the prompt is still [pending], and both hand it to the transport,
    which accepts it twice. *)
Lemma overlapping_runs_send_twice :
  let w := overlappingRuns Sample.quiet (Sample.outbox 0 [Sample.prompt]) in
  attemptedSince 0 w = [EmailLog.ID Sample.prompt; EmailLog.ID Sample.prompt]
  /\ map scReply (ses_log w) = [Ok "ses-0001"%string; Ok "ses-0001"%string]
  /\ ~ NoDup (attemptedSince 0 w).
Proof.
  cbv zeta. split; [vm_compute; reflexivity|]. split; [vm_compute; reflexivity|].
  intros H. vm_compute in H. inversion H as [|? ? Hin _]. apply Hin. left. reflexivity.
Qed.

(** Two runs, one after the other, over the same outbox. *)
Lemma sequential_runs_attempt_each_message_once_witness :
  let w := Sample.outbox 0 [Sample.prompt] in
  let w1 := snd (Email.ProcessOutbox Sample.quiet w) in
  let w2 := snd (Email.ProcessOutbox Sample.quiet (set_now Sample.july1_1400 w1)) in
  (forall n, dbFault Sample.quiet n = None)
  /\ NoDup (map EmailLog.ID (email_logs w))
  /\ NoDup (attemptedSince (List.length (ses_log w)) w2)
  /\ attemptedSince (List.length (ses_log w)) w2 = [1].
Proof.
  cbv zeta.
  assert (Hpk : NoDup (map EmailLog.ID (email_logs (Sample.outbox 0 [Sample.prompt])))).
  { simpl. repeat constructor. simpl. tauto. }
  destruct (sequential_runs_attempt_each_message_once Sample.quiet
              (Sample.outbox 0 [Sample.prompt]) Sample.july1_1400 (fun _ => eq_refl) Hpk)
    as (Hnd & _).
  split; [reflexivity|]. split; [exact Hpk|]. split; [exact Hnd|].
  vm_compute. reflexivity.
Defined.


(** A number of days whose duration exceeds 64 bits wraps around. *)
Example parsePauseDuration_wraps :
  specPauseDuration "106752 days" = Some (106752 * Day)
  /\ parsePauseDuration "106752 days" = Ok (-9223371273709551616).
Proof. vm_compute. split; reflexivity. Qed.





Lemma cleanEmailContent_idempotent_witness :
  cleanEmailContent Sample.signedReply = "Shipped the parser"%string
  /\ cleanEmailContent (cleanEmailContent Sample.signedReply)
     = cleanEmailContent Sample.signedReply
  /\ Forall keptLine (cleanLines (SplitLines Sample.signedReply)).
Proof.
  destruct (cleanEmailContent_idempotent Sample.signedReply eq_refl) as (H1 & H2 & _).
  split; [reflexivity|]. split; [exact H1|exact H2].
Defined.

Lemma cleanEmailContent_drops_quoted_thread_witness :
  cleanEmailContent
    ("Fixed the login bug" ++ String LF (Sample.quoteHeader ++ String LF "> Sent earlier"))
  = "Fixed the login bug"%string.
Proof.
  destruct (cleanEmailContent_drops_quoted_thread "Fixed the login bug" Sample.quoteHeader
              "> Sent earlier" eq_refl eq_refl eq_refl) as (H & _).
  rewrite H. reflexivity.
Defined.

Lemma plain_reply_is_saved_as_entry_witness :
  let w := Sample.world Sample.july1_1800 [Sample.ada] in
  let out := Core.HandleEmailReply Sample.quiet "ada@example.com" "Re: prompt"
               Sample.signedReply w in
  Commands (ParseEmailReply Sample.signedReply)
  = [mkCommand CommandTypeEntry "Shipped the parser" None]
  /\ fst out = Ok tt
  /\ entries (snd out)
     = [Entry.mk 1 1 (utcDate Sample.july1_1800) "Shipped the parser"
          (Some "Shipped the parser"%string) None Sample.july1_1800 Sample.july1_1800].
Proof.
  cbv zeta.
  assert (Hne : cleanEmailContent (TrimSpace Sample.signedReply) <> EmptyString)
    by (vm_compute; discriminate).
  destruct (plain_reply_is_saved_as_entry Sample.quiet Sample.signedReply
              "ada@example.com" "Re: prompt" Sample.ada
              (Sample.world Sample.july1_1800 [Sample.ada])
              eq_refl eq_refl Hne eq_refl eq_refl eq_refl eq_refl)
    as (Hc & _ & Hh & _).
  split; [exact Hc|]. rewrite Hh. split; reflexivity.
Defined.

Lemma pause_commands_carry_durations_witness :
  exists d,
    parsePauseDuration "2 weeks" = Ok d
    /\ forall (user : User.t) (w : World),
         Core.applyCommand Sample.quiet user (ParseEmailReply Sample.pauseAndEntry)
           (mkCommand CommandTypePause "2 weeks" (Some (14 * Day))) w
         = Core.pauseUser Sample.quiet (User.ID user) d w.
Proof.
  destruct (pause_commands_carry_durations Sample.quiet Sample.pauseAndEntry
              (mkCommand CommandTypePause "2 weeks" (Some (14 * Day))))
    as (d & _ & Hp & Ha).
  - vm_compute. left. reflexivity.
  - reflexivity.
  - exists d. split; [exact Hp|exact Ha].
Defined.

Lemma free_text_beside_tags_is_not_stored_witness :
  let w := Sample.world Sample.july1_1800 [Sample.ada] in
  leftover (cleanEmailContent (TrimSpace Sample.projectAndText))
  = "Fixed the login bug"%string
  /\ Commands (ParseEmailReply Sample.projectAndText)
     = [mkCommand CommandTypeProject "Apollo" None]
  /\ entries (snd (Core.HandleEmailReply Sample.quiet "ada@example.com" "Re: prompt"
                     Sample.projectAndText w)) = [].
Proof.
  cbv zeta.
  destruct (free_text_beside_tags_is_not_stored Sample.quiet Sample.projectAndText)
    as (_ & Hh).
  - reflexivity.
  - reflexivity.
  - right. vm_compute. discriminate.
  - split; [reflexivity|]. split; [reflexivity|].
    apply (Hh (Sample.world Sample.july1_1800 [Sample.ada]) "ada@example.com"%string
             "Re: prompt"%string Sample.ada); reflexivity.
Defined.

Lemma signup_creates_pending_account_witness :
  let w := Sample.world Sample.july1_1800 [Sample.ada] in
  let out := Core.HandleSignupRequest Sample.quiet "carol@example.com" w in
  users (snd out)
  = [Sample.ada;
     User.mk 3 "carol@example.com" "New User" "UTC" (mkClock 0 16 0) (Some "000000"%string)
       false false None None Sample.july1_1800 Sample.july1_1800]
  /\ fst out = Ok tt
  /\ email_logs (snd out)
     = [Email.newEmailLog 1 None "carol@example.com" Models.EmailTypeVerification
          "Welcome to What Did You Get Done This Week?" EmptyString None Sample.july1_1800].
Proof.
  cbv zeta.
  destruct (signup_creates_pending_account Sample.quiet
              (Sample.world Sample.july1_1800 [Sample.ada]) "carol@example.com"
              eq_refl eq_refl eq_refl) as (Hu & _ & Hq & _).
  destruct (Hq "Welcome to What Did You Get Done This Week?"%string EmptyString
              eq_refl eq_refl) as (Hr & Hl).
  split; [exact Hu|]. split; [exact Hr|exact Hl].
Defined.

Lemma signup_again_replaces_code_witness :
  let w := Sample.world Sample.july1_1800 [Sample.ada; Sample.bob] in
  let out := Core.HandleSignupRequest Sample.quiet "bob@example.com" w in
  User.VerificationCode Sample.bob = Some "123456"%string
  /\ find (fun u => String.eqb (User.Email u) "bob@example.com") (users (snd out))
     = Some (User.mk 2 "bob@example.com" "New User" "UTC" (mkClock 0 16 0)
               (Some "000000"%string) false false None None 0 Sample.july1_1800)
  /\ List.length (users (snd out)) = 2%nat.
Proof.
  cbv zeta.
  destruct (signup_again_replaces_code Sample.quiet
              (Sample.world Sample.july1_1800 [Sample.ada; Sample.bob]) "bob@example.com"
              Sample.bob eq_refl eq_refl eq_refl eq_refl) as (Hu & Hf & _).
  split; [reflexivity|]. split; [exact Hf|]. rewrite Hu. reflexivity.
Defined.

Lemma signup_of_verified_account_is_refused_witness :
  let w := Sample.world Sample.july1_1800 [Sample.ada] in
  Core.HandleSignupRequest Sample.quiet "ada@example.com" w
  = (Err "user already exists and is verified", set_db_calls 1 w).
Proof.
  exact (signup_of_verified_account_is_refused Sample.quiet
           (Sample.world Sample.july1_1800 [Sample.ada]) "ada@example.com" Sample.ada
           eq_refl eq_refl eq_refl).
Defined.

Lemma keyword_from_unknown_sender_starts_signup_witness :
  let w := Sample.world Sample.july1_1800 [Sample.ada] in
  NeedsVerification "Please Sign Up my address" = true
  /\ users (snd (Core.HandleEmailReply Sample.quiet "carol@example.com" "Hello"
                   "Please Sign Up my address" w))
     = [Sample.ada;
        User.mk 3 "carol@example.com" "New User" "UTC" (mkClock 0 16 0)
          (Some "000000"%string) false false None None Sample.july1_1800
          Sample.july1_1800].
Proof.
  cbv zeta.
  destruct (keyword_from_unknown_sender_starts_signup Sample.quiet "Please " "Sign Up"
              " my address" "sign up" eq_refl) as (Hn & Hh).
  - vm_compute. tauto.
  - reflexivity.
  - split; [exact Hn|].
    change "Please Sign Up my address"%string
      with ("Please " ++ "Sign Up" ++ " my address")%string.
    rewrite (Hh (Sample.world Sample.july1_1800 [Sample.ada]) "carol@example.com"%string
               "Hello"%string eq_refl eq_refl).
    reflexivity.
Defined.

Lemma unknown_sender_is_rejected_witness :
  let w := Sample.world Sample.july1_1800 [Sample.ada] in
  Core.HandleEmailReply Sample.quiet "carol@example.com" "Hello" "Shipped the parser" w
  = (Err "unknown sender, please sign up first", set_db_calls 1 w).
Proof.
  exact (unknown_sender_is_rejected Sample.quiet
           (Sample.world Sample.july1_1800 [Sample.ada]) "carol@example.com" "Hello"
           "Shipped the parser" eq_refl eq_refl eq_refl eq_refl).
Defined.

Lemma verification_reply_verifies_account_witness :
  let w := Sample.world Sample.july1_1800 [Sample.ada; Sample.bob] in
  let out := Core.HandleEmailReply Sample.quiet "bob@example.com" "Re: welcome"
               Sample.bobVerifies w in
  fst out = Ok tt
  /\ find (fun u => String.eqb (User.Email u) "bob@example.com") (users (snd out))
     = Some (User.mk 2 "bob@example.com" "Bob" "America/New_York" (mkClock 0 9 0) None
               true false None None 0 Sample.july1_1800)
  /\ email_logs (snd out) = [].
Proof.
  cbv zeta.
  destruct (verification_reply_verifies_account Sample.quiet
              (Sample.world Sample.july1_1800 [Sample.ada; Sample.bob]) "bob@example.com"
              "Re: welcome" Sample.bobVerifies "123456" Sample.bob
              (Preferences.mkUserPreferences "Bob" "America/New_York" (mkClock 0 9 0) None)
              eq_refl eq_refl eq_refl eq_refl eq_refl eq_refl eq_refl eq_refl eq_refl)
    as (Hr & _ & Hf & Hl & _).
  split; [exact Hr|]. split; [exact Hf|exact Hl].
Defined.

Lemma pause_expires_by_itself_witness :
  let w := Sample.world Sample.july1_1800 [Sample.ada] in
  exists paused : User.t,
    In paused (users (snd (Core.pauseUser Sample.quiet 1 (14 * Day) w)))
    /\ User.IsPaused paused = true
    /\ Core.promptFilter (Sample.july1_1800 + 14 * Day) 14 paused = false
    /\ Core.promptFilter (Sample.july1_1800 + 14 * Day + 1) 14 paused = true.
Proof.
  cbv zeta.
  destruct (pause_expires_by_itself Sample.quiet
              (Sample.world Sample.july1_1800 [Sample.ada]) Sample.ada (14 * Day) eq_refl
              (or_introl eq_refl)) as (paused & Hin & _ & Hp & _ & Hf).
  exists paused. split; [exact Hin|]. split; [exact Hp|].
  rewrite !Hf. split; reflexivity.
Defined.

Lemma listed_timezone_may_never_be_prompted_witness :
  let w := Sample.world Sample.july1_1800 [Sample.eve] in
  Preferences.isValidTimezone Sample.quiet "america/new_york" = true
  /\ (forall currentHour, Scheduler.shouldSendPrompt Sample.quiet Sample.eve currentHour w
                          = false)
  /\ forall m,
       In m (email_logs (snd (Scheduler.sendDailyPrompts Sample.quiet w))) ->
       In m (email_logs w) \/ EmailLog.UserID m <> Some 3.
Proof.
  cbv zeta.
  destruct (listed_timezone_may_never_be_prompted Sample.quiet "america/new_york"
              "America/New_York") as (Hv & Hn).
  - vm_compute. tauto.
  - reflexivity.
  - reflexivity.
  - split; [exact Hv|].
    apply (Hn (Sample.world Sample.july1_1800 [Sample.eve]) Sample.eve).
    + simpl. repeat constructor. simpl. tauto.
    + left. reflexivity.
    + reflexivity.
Defined.

Lemma parsed_preferences_are_complete_witness :
  Preferences.parseUserPreferences Sample.quiet Sample.bobVerifies
  = Ok (Preferences.mkUserPreferences "Bob" "America/New_York" (mkClock 0 9 0) None)
  /\ Preferences.isValidTimezone Sample.quiet "America/New_York" = true
  /\ 0 <= 9 <= 23.
Proof.
  destruct (parsed_preferences_are_complete Sample.quiet Sample.bobVerifies
              (Preferences.mkUserPreferences "Bob" "America/New_York" (mkClock 0 9 0) None)
              eq_refl eq_refl) as (_ & _ & _ & Hv & _ & Hh & _).
  split; [reflexivity|]. split; [exact Hv|exact Hh].
Defined.

Lemma parseTimeString_is_a_time_of_day_witness :
  Preferences.parseTimeString "4:30 PM" = Ok (mkClock 0 16 30)
  /\ IsZero (mkClock 0 16 30) = false.
Proof.
  destruct (parseTimeString_is_a_time_of_day "4:30 PM" (mkClock 0 16 30) eq_refl eq_refl)
    as (_ & _ & _ & Hz).
  split; [reflexivity|exact Hz].
Defined.

Lemma ProcessOutbox_sends_oldest_due_rows_witness :
  let w := Sample.outbox Sample.july1_1800 [Sample.prompt] in
  exists chosen waiting : list EmailLog.t,
    Permutation (chosen ++ waiting) [Sample.prompt]
    /\ ascending chosen
    /\ ses_log (snd (Email.ProcessOutbox Sample.quiet w))
       = callsFor Sample.quiet 0 (map Email.scanEmail chosen).
Proof.
  cbv zeta.
  destruct (ProcessOutbox_sends_oldest_due_rows Sample.quiet
              (Sample.outbox Sample.july1_1800 [Sample.prompt]) eq_refl)
    as (chosen & waiting & Hp & _ & _ & Ha & _ & Hl).
  exists chosen, waiting. split; [exact Hp|]. split; [exact Ha|exact Hl].
Defined.


Lemma queued_message_is_delivered_witness :
  let w := Sample.outbox Sample.july1_1600 [] in
  let w1 := snd (Email.QueueEmail Sample.quiet (Some 1) "ada@example.com" "daily_prompt"
                   "What did you get done today?" "Reply to this message." None w) in
  let w2 := snd (Email.ProcessOutbox Sample.quiet (set_now Sample.july1_1800 w1)) in
  ses_log w2
  = [mkSesCall 2 "ada@example.com" "What did you get done today?" "Reply to this message."
       (Ok "ses-0001"%string)]
  /\ map EmailLog.Status (email_logs w2) = ["sent"%string].
Proof.
  cbv zeta.
  destruct (queued_message_is_delivered Sample.quiet (Sample.outbox Sample.july1_1600 [])
              (Some 1) "ada@example.com" "daily_prompt" "What did you get done today?"
              "Reply to this message." "ses-0001" Sample.july1_1800
              eq_refl eq_refl eq_refl eq_refl)
    as (_ & Hs & Hl).
  - intros m [].
  - reflexivity.
  - split; [exact Hs|]. rewrite Hl. reflexivity.
Defined.

Lemma triggerDailyPrompt_ignores_pause_and_hour_witness :
  let w := Sample.world Sample.july1_1600 [Sample.restingAda] in
  let out := Cli.triggerDailyPrompt Sample.quiet "ada@example.com" w in
  User.IsPaused Sample.restingAda = true
  /\ Core.promptFilter (now w) 14 Sample.restingAda = false
  /\ fst out = Ok "Daily prompt sent to ada@example.com"%string
  /\ email_logs (snd out)
     = [Email.newEmailLog 1 (Some 1) "ada@example.com" Models.EmailTypeDailyPrompt
          "What did you get done today? - " EmptyString None Sample.july1_1600].
Proof.
  cbv zeta. split; [reflexivity|]. split; [reflexivity|].
  exact (triggerDailyPrompt_ignores_pause_and_hour Sample.quiet
           (Sample.world Sample.july1_1600 [Sample.restingAda]) "ada@example.com" eq_refl
           "What did you get done today? - "%string EmptyString eq_refl eq_refl).
Defined.

Lemma triggerWeeklySummary_finds_no_entries_witness :
  let w := mkWorld [Sample.ada] [Sample.mondayEntry; Sample.thursdayEntry] [] 2 2 0
             Sample.july1_1800 0 0 0 [] in
  Cli.triggerWeeklySummary Sample.quiet "claude" Sample.noModel Sample.paragraphOnly
    Sample.noFormat "ada@example.com" w
  = (Ok "No entries found for user ada@example.com this week"%string, set_db_calls 1 w).
Proof.
  exact (triggerWeeklySummary_finds_no_entries Sample.quiet "claude" Sample.noModel
           Sample.paragraphOnly Sample.noFormat
           (mkWorld [Sample.ada] [Sample.mondayEntry; Sample.thursdayEntry] [] 2 2 0
              Sample.july1_1800 0 0 0 [])
           "ada@example.com" Sample.ada eq_refl eq_refl eq_refl).
Defined.

Lemma estimateCost_bounds_witness :
  Llm.estimateCost (Llm.mkUsage 2000000 1000000) = 175
  /\ 1 <= Llm.estimateCost (Llm.mkUsage 2000000 1000000)
  /\ 25 * 2000000 + 125 * 1000000
     < (Llm.estimateCost (Llm.mkUsage 2000000 1000000) + 2) * 1000000.
Proof.
  destruct (estimateCost_bounds (Llm.mkUsage 2000000 1000000)) as (H1 & _ & H3).
  - simpl. lia.
  - simpl. lia.
  - split; [reflexivity|]. split; [exact H1|exact H3].
Defined.

Lemma prompt_reads_five_entries_by_position_witness :
  exists above below : string,
    Llm.buildWeeklySummaryPrompt [Sample.mondayEntry; Sample.thursdayEntry]
    = (above ++ "Tuesday: Shipped the parser" ++ String LF below)%string.
Proof.
  destruct (prompt_reads_five_entries_by_position
              [Sample.mondayEntry; Sample.thursdayEntry]) as (_ & H).
  destruct (H [Sample.mondayEntry] [] Sample.thursdayEntry "Tuesday"%string eq_refl
              eq_refl) as (above & below & Heq).
  exists above, below. exact Heq.
Defined.

Lemma formatted_answer_is_read_back_witness :
  Llm.parseWeeklySummaryResponse
    (Llm.mkClaudeResponse
       [Llm.mkContentBlock "text"
          (formattedAnswer "Shipped the parser." ["Parser merged"; "Tests green"])]
       (Llm.mkUsage 900 120))
  = Ok (Llm.mkWeeklySummary "Shipped the parser." ["Parser merged"; "Tests green"]
          EmptyString 0).
Proof.
  apply (formatted_answer_is_read_back "Shipped the parser." ["Parser merged"; "Tests green"]
           (Llm.mkUsage 900 120) "text" []).
  - repeat split; try reflexivity. discriminate.
  - reflexivity.
  - discriminate.
  - repeat constructor; discriminate.
Defined.

End ConcreteRuns.
